(** * Vacation reminder bot: a shallow embedding of [src/main.py]

    The development follows the source file top-down: the Python values the
    program manipulates ([str], [float], [datetime.date]), the persisted store
    and its load/save cycle, the spreadsheet parser [parse_vacation_df], the
    upload handler, the two read-only views and the daily scan
    [send_notifications].  Theorems come last. *)

From Stdlib Require Import ZArith String Ascii List Bool Lia.
From Stdlib Require Import DecimalString DecimalZ.
From Corelib Require Import SpecFloat.
From stdpp Require Import base option list gmap sets strings.

Local Open Scope string_scope.
Local Open Scope list_scope.
Local Open Scope Z_scope.

(** ** Python exceptions and results *)

(** The exception classes the program can meet.  Messages are not modelled:
    the program only logs them or puts them into user-facing text. *)
Inductive exn :=
| ValueError
| OverflowError
| TypeError
| ParserError
| OSError
| AttributeError.

Inductive result (A : Type) :=
| Ok (a : A)
| Raise (e : exn).
Arguments Ok {A} a.
Arguments Raise {A} e.

Definition bind {A B} (r : result A) (k : A -> result B) : result B :=
  match r with
  | Ok a => k a
  | Raise e => Raise e
  end.

Notation "'let?' x ':=' r 'in' k" := (bind r (fun x => k))
  (at level 10, x pattern, r at level 100, k at level 200).

(** ** Python [str]

    Text is held as its UTF-8 bytes.  Equality and the [in] substring test on
    Python strings agree with the same tests on their UTF-8 encodings, so the
    Cyrillic keywords of the parser are written as they are in the source.
    Character classes ([isdigit], [\d], white space) are the ASCII ones. *)
Module PyStr.

Definition nl : string := String (ascii_of_nat 10) EmptyString.

Definition is_digit (c : ascii) : bool :=
  let n := nat_of_ascii c in (48 <=? n)%nat && (n <=? 57)%nat.

Definition digit_val (c : ascii) : Z := Z.of_nat (nat_of_ascii c) - 48.

(** White space removed by [str.strip()]: tab, LF, VT, FF, CR, the
    separators 0x1c..0x1f and the space. *)
Definition is_space (c : ascii) : bool :=
  let n := nat_of_ascii c in
  ((9 <=? n)%nat && (n <=? 13)%nat) || ((28 <=? n)%nat && (n <=? 32)%nat).

(** White space of the C locale, which is what [float()] skips around an
    ASCII text: tab, LF, VT, FF, CR and the space. *)
Definition is_c_space (c : ascii) : bool :=
  let n := nat_of_ascii c in
  ((9 <=? n)%nat && (n <=? 13)%nat) || (n =? 32)%nat.

Fixpoint lstrip_with (sp : ascii -> bool) (s : string) : string :=
  match s with
  | String c s' => if sp c then lstrip_with sp s' else s
  | EmptyString => EmptyString
  end.

Fixpoint rstrip_with (sp : ascii -> bool) (s : string) : string :=
  match s with
  | EmptyString => EmptyString
  | String c s' =>
      match rstrip_with sp s' with
      | EmptyString => if sp c then EmptyString else String c EmptyString
      | r => String c r
      end
  end.

Definition strip (s : string) : string := rstrip_with is_space (lstrip_with is_space s).

Definition c_strip (s : string) : string :=
  rstrip_with is_c_space (lstrip_with is_c_space s).

(** [sub in s] *)
Fixpoint contains (sub s : string) : bool :=
  String.prefix sub s ||
  match s with
  | EmptyString => false
  | String _ s' => contains sub s'
  end.

Fixpoint all_digits (s : string) : bool :=
  match s with
  | EmptyString => true
  | String c s' => is_digit c && all_digits s'
  end.

(** [s.isdigit()]: at least one character and all of them digits. *)
Definition isdigit (s : string) : bool :=
  match s with
  | EmptyString => false
  | _ => all_digits s
  end.

(** [str(n)] for an [int]. *)
Definition of_Z (n : Z) : string := NilZero.string_of_int (Z.to_int n).

(** ["%0<w>d" % n] for a non-negative [n]. *)
Fixpoint zeros (k : nat) (s : string) : string :=
  match k with
  | O => s
  | S k' => zeros k' ("0" ++ s)
  end.

Definition zfill (w : nat) (n : Z) : string :=
  let s := of_Z n in zeros (w - String.length s) s.

(** ASCII case folding, for the case-insensitive words of [float()]. *)
Definition ascii_lower_char (c : ascii) : ascii :=
  let n := nat_of_ascii c in
  if (65 <=? n)%nat && (n <=? 90)%nat then ascii_of_nat (n + 32) else c.

Fixpoint ascii_lower (s : string) : string :=
  match s with
  | EmptyString => EmptyString
  | String c s' => String (ascii_lower_char c) (ascii_lower s')
  end.

End PyStr.

(** ** [datetime.date], [datetime.datetime] and [strptime]

    The calendar arithmetic is the one of CPython's [datetime] module
    ([_ymd2ord], [_ord2ymd]); dates are proleptic Gregorian, years 1..9999. *)
Module PyDate.

Record date := mkdate { year : Z; month : Z; day : Z }.

Record datetime := mkdatetime {
  dt_date : date;
  hour : Z; minute : Z; second : Z; microsecond : Z
}.

Definition midnight (d : date) : datetime := mkdatetime d 0 0 0 0.

Definition is_leap (y : Z) : bool :=
  (y mod 4 =? 0) && (negb (y mod 100 =? 0) || (y mod 400 =? 0)).

Definition days_before_year (y : Z) : Z :=
  let y := y - 1 in y * 365 + y / 4 - y / 100 + y / 400.

Definition DAYS_IN_MONTH : list Z := [-1; 31; 28; 31; 30; 31; 30; 31; 31; 30; 31; 30; 31].
Definition DAYS_BEFORE_MONTH : list Z :=
  [-1; 0; 31; 59; 90; 120; 151; 181; 212; 243; 273; 304; 334].

Definition days_in_month (y m : Z) : Z :=
  if (m =? 2) && is_leap y then 29 else nth (Z.to_nat m) DAYS_IN_MONTH (-1).

Definition days_before_month (y m : Z) : Z :=
  nth (Z.to_nat m) DAYS_BEFORE_MONTH (-1) + (if (2 <? m) && is_leap y then 1 else 0).

Definition ymd2ord (y m d : Z) : Z :=
  days_before_year y + days_before_month y m + d.

Definition toordinal (d : date) : Z := ymd2ord (year d) (month d) (day d).

Definition MAXORDINAL : Z := 3652059.

Definition DI400Y : Z := 146097.
Definition DI100Y : Z := 36524.
Definition DI4Y : Z := 1461.

(** The last part of [_ord2ymd]: month and day from the day of the year
    [n] (counted from 0), with an estimate of the month that is corrected
    when it is too large. *)
Definition month_and_day (y : Z) (leapyear : bool) (n : Z) : date :=
  let m := Z.shiftr (n + 50) 5 in
  let preceding :=
    nth (Z.to_nat m) DAYS_BEFORE_MONTH (-1) + (if (2 <? m) && leapyear then 1 else 0) in
  if n <? preceding then
    let m := m - 1 in
    let preceding :=
      preceding - (nth (Z.to_nat m) DAYS_IN_MONTH (-1)
                   + (if (m =? 2) && leapyear then 1 else 0)) in
    mkdate y m (n - preceding + 1)
  else mkdate y m (n - preceding + 1).

Definition ord2ymd (n : Z) : date :=
  let n := n - 1 in
  let n400 := n / DI400Y in let n := n mod DI400Y in
  let y := n400 * 400 + 1 in
  let n100 := n / DI100Y in let n := n mod DI100Y in
  let n4 := n / DI4Y in let n := n mod DI4Y in
  let n1 := n / 365 in let n := n mod 365 in
  let y := y + n100 * 100 + n4 * 4 + n1 in
  if (n1 =? 4) || (n100 =? 4) then mkdate (y - 1) 12 31
  else
    let leapyear := (n1 =? 3) && (negb (n4 =? 24) || (n100 =? 3)) in
    month_and_day y leapyear n.

(** The checks of the [date(year, month, day)] constructor. *)
Definition valid_date (y m d : Z) : bool :=
  (1 <=? y) && (y <=? 9999) && (1 <=? m) && (m <=? 12)
  && (1 <=? d) && (d <=? days_in_month y m).

Definition make_date (y m d : Z) : result date :=
  if valid_date y m d then Ok (mkdate y m d) else Raise ValueError.

(** [(a - b).days] *)
Definition days_between (a b : date) : Z := toordinal a - toordinal b.

(** [dt + timedelta(days=n)]: [timedelta] holds at most 999999999 days, and
    the sum must stay within year 1..9999. *)
Definition add_days (dt : datetime) (n : Z) : result datetime :=
  if (Z.abs n >? 999999999) then Raise OverflowError
  else
    let o := toordinal (dt_date dt) + n in
    if (0 <? o) && (o <=? MAXORDINAL)
    then Ok (mkdatetime (ord2ymd o) (hour dt) (minute dt) (second dt) (microsecond dt))
    else Raise OverflowError.

(** [d.isoformat()], which is also [str(d)]. *)
Definition isoformat (d : date) : string :=
  PyStr.zfill 4 (year d) ++ "-" ++ PyStr.zfill 2 (month d) ++ "-" ++ PyStr.zfill 2 (day d).

(** [dt.strftime("%Y-%m-%d")]: the [%Y] of the C library on Linux does not
    pad the year, so this is [isoformat] from year 1000 on only. *)
Definition strftime_Ymd (dt : datetime) : string :=
  let d := dt_date dt in
  PyStr.of_Z (year d) ++ "-" ++ PyStr.zfill 2 (month d) ++ "-" ++ PyStr.zfill 2 (day d).

(** [str(dt)] of a [datetime] (and of a [pandas.Timestamp] without
    nanoseconds). *)
Definition str_datetime (dt : datetime) : string :=
  isoformat (dt_date dt) ++ " " ++ PyStr.zfill 2 (hour dt) ++ ":" ++
  PyStr.zfill 2 (minute dt) ++ ":" ++ PyStr.zfill 2 (second dt) ++
  (if microsecond dt =? 0 then "" else "." ++ PyStr.zfill 6 (microsecond dt)).

(** *** [datetime.strptime]

    A format is a sequence of directives and literal characters.  Each
    directive stands for the regular expression [_strptime] compiles it to;
    its alternatives are tried in the order they are written there, and the
    whole sequence is matched with backtracking, as [re.match] does. *)
Inductive tok :=
| TLit (c : ascii)
| TDay      (* %d : 3[0-1]|[1-2]\d|0[1-9]|[1-9]| [1-9] *)
| TMonth    (* %m : 1[0-2]|0[1-9]|[1-9] *)
| TYear4    (* %Y : \d\d\d\d *)
| TYear2.   (* %y : \d\d *)

Record fields := mkfields { f_year : Z; f_month : Z; f_day : Z }.

Definition dv := PyStr.digit_val.

Definition in_range (lo hi : Z) (c : ascii) : bool :=
  PyStr.is_digit c && (lo <=? dv c) && (dv c <=? hi).

Definition alts_day (s : string) : list (Z * string) :=
  (match s with
   | String a (String b r) =>
       (if Ascii.eqb a "3" && in_range 0 1 b then [(30 + dv b, r)] else []) ++
       (if in_range 1 2 a && PyStr.is_digit b then [(10 * dv a + dv b, r)] else []) ++
       (if Ascii.eqb a "0" && in_range 1 9 b then [(dv b, r)] else [])
   | _ => []
   end) ++
  (match s with
   | String a r => if in_range 1 9 a then [(dv a, r)] else []
   | _ => []
   end) ++
  (match s with
   | String a (String b r) =>
       if Ascii.eqb a " " && in_range 1 9 b then [(dv b, r)] else []
   | _ => []
   end).

Definition alts_month (s : string) : list (Z * string) :=
  (match s with
   | String a (String b r) =>
       (if Ascii.eqb a "1" && in_range 0 2 b then [(10 + dv b, r)] else []) ++
       (if Ascii.eqb a "0" && in_range 1 9 b then [(dv b, r)] else [])
   | _ => []
   end) ++
  (match s with
   | String a r => if in_range 1 9 a then [(dv a, r)] else []
   | _ => []
   end).

Definition alts_year4 (s : string) : list (Z * string) :=
  match s with
  | String a (String b (String c (String d r))) =>
      if PyStr.is_digit a && PyStr.is_digit b && PyStr.is_digit c && PyStr.is_digit d
      then [(1000 * dv a + 100 * dv b + 10 * dv c + dv d, r)] else []
  | _ => []
  end.

(** [%y]: values 0..68 are years 2000..2068, 69..99 are 1969..1999. *)
Definition alts_year2 (s : string) : list (Z * string) :=
  match s with
  | String a (String b r) =>
      if PyStr.is_digit a && PyStr.is_digit b
      then let y := 10 * dv a + dv b in
           [(if y <=? 68 then 2000 + y else 1900 + y, r)]
      else []
  | _ => []
  end.

Definition alts (t : tok) (s : string) (f : fields) : list (fields * string) :=
  match t with
  | TLit c =>
      match s with
      | String a r => if Ascii.eqb a c then [(f, r)] else []
      | _ => []
      end
  | TDay => map (fun '(v, r) => (mkfields (f_year f) (f_month f) v, r)) (alts_day s)
  | TMonth => map (fun '(v, r) => (mkfields (f_year f) v (f_day f), r)) (alts_month s)
  | TYear4 => map (fun '(v, r) => (mkfields v (f_month f) (f_day f), r)) (alts_year4 s)
  | TYear2 => map (fun '(v, r) => (mkfields v (f_month f) (f_day f), r)) (alts_year2 s)
  end.

Fixpoint first_some {A B} (k : A -> option B) (l : list A) : option B :=
  match l with
  | [] => None
  | a :: l' => match k a with Some b => Some b | None => first_some k l' end
  end.

Fixpoint re_match (ts : list tok) (s : string) (f : fields) : option (fields * string) :=
  match ts with
  | [] => Some (f, s)
  | t :: ts' => first_some (fun '(f', r) => re_match ts' r f') (alts t s f)
  end.

(** [datetime.strptime(s, fmt)]: the match must exist, nothing may remain
    after it ("unconverted data remains"), and the fields must make a date. *)
Definition strptime (s : string) (fmt : list tok) : result datetime :=
  match re_match fmt s (mkfields 1900 1 1) with
  | None => Raise ValueError
  | Some (f, EmptyString) =>
      let? d := make_date (f_year f) (f_month f) (f_day f) in Ok (midnight d)
  | Some (_, String _ _) => Raise ValueError
  end.

Definition fmt_dmY : list tok := [TDay; TLit "."; TMonth; TLit "."; TYear4].   (* "%d.%m.%Y" *)
Definition fmt_Ymd : list tok := [TYear4; TLit "-"; TMonth; TLit "-"; TDay].   (* "%Y-%m-%d" *)
Definition fmt_dmy : list tok := [TDay; TLit "."; TMonth; TLit "."; TYear2].   (* "%d.%m.%y" *)
Definition fmt_dmY_slash : list tok := [TDay; TLit "/"; TMonth; TLit "/"; TYear4]. (* "%d/%m/%Y" *)

End PyDate.

(** ** Python [float] and [int(float)]

    [float(s)] is the correctly rounded binary64 value of the decimal
    literal [s]; the rounding is the one of [SpecFloat] (precision 53,
    [emax] 1024, round to nearest even). *)
Module PyFloat.

Definition prec : Z := 53.
Definition emax : Z := 1024.

(** Underscores may only stand between two digits; they are then dropped. *)
Fixpoint drop_underscores (prev_digit : bool) (s : string) : option string :=
  match s with
  | EmptyString => Some EmptyString
  | String c s' =>
      if Ascii.eqb c "_" then
        match s' with
        | String d _ =>
            if prev_digit && PyStr.is_digit d then drop_underscores false s' else None
        | EmptyString => None
        end
      else option_map (String c) (drop_underscores (PyStr.is_digit c) s')
  end.

(** The longest prefix of digits, as a number, with its length. *)
Fixpoint digits (acc : Z) (n : Z) (s : string) : Z * Z * string :=
  match s with
  | String c s' =>
      if PyStr.is_digit c then digits (10 * acc + PyStr.digit_val c) (n + 1) s'
      else (acc, n, s)
  | EmptyString => (acc, n, s)
  end.

Definition sign_of (s : string) : bool * string :=
  match s with
  | String c s' =>
      if Ascii.eqb c "-" then (true, s')
      else if Ascii.eqb c "+" then (false, s')
      else (false, s)
  | EmptyString => (false, s)
  end.

(** The binary64 nearest to [(-1)^sg * m * 10^e]. *)
Definition round_decimal (sg : bool) (m : Z) (e : Z) : spec_float :=
  match m with
  | Z0 => S754_zero sg
  | _ =>
      if 0 <=? e then binary_normalize prec emax ((if sg then - m else m) * 10 ^ e) 0 sg
      else
        let '(mz, ez, lz) := SFdiv_core_binary prec emax m 0 (10 ^ (- e)) 0 in
        binary_round_aux prec emax sg mz ez lz
  end.

(** The optional exponent part; whatever follows the mantissa must be
    either nothing or a complete exponent. *)
Definition exponent (s : string) : option Z :=
  match s with
  | EmptyString => Some 0
  | String c s' =>
      if Ascii.eqb c "e" || Ascii.eqb c "E" then
        let '(neg, s'') := sign_of s' in
        match digits 0 0 s'' with
        | (v, n, EmptyString) => if 0 <? n then Some (if neg then - v else v) else None
        | _ => None
        end
      else None
  end.

Definition parse_number (sg : bool) (s : string) : option spec_float :=
  let '(ip, ni, r) := digits 0 0 s in
  let '(m, nf, r) :=
    match r with
    | String c r' =>
        if Ascii.eqb c "." then
          let '(m, nf, r'') := digits ip 0 r' in (m, nf, r'')
        else (ip, 0, r)
    | EmptyString => (ip, 0, r)
    end in
  if 0 <? ni + nf then
    match exponent r with
    | Some e => Some (round_decimal sg m (e - nf))
    | None => None
    end
  else None.

(** [float(s)] for a [str]. *)
Definition float (s : string) : result spec_float :=
  match drop_underscores false (PyStr.c_strip s) with
  | None => Raise ValueError
  | Some s =>
      let '(sg, body) := sign_of s in
      let word := PyStr.ascii_lower body in
      if String.eqb word "inf" || String.eqb word "infinity" then Ok (S754_infinity sg)
      else if String.eqb word "nan" then Ok S754_nan
      else
        match parse_number sg body with
        | Some f => Ok f
        | None => Raise ValueError
        end
  end.

(** [int(x)] for a [float]: truncation toward zero; infinities and NaN
    have no integer value. *)
Definition int (x : spec_float) : result Z :=
  match x with
  | S754_zero _ => Ok 0
  | S754_infinity _ => Raise OverflowError
  | S754_nan => Raise ValueError
  | S754_finite sg m e =>
      let a := if 0 <=? e then Z.pos m * 2 ^ e else Z.pos m / 2 ^ (- e) in
      Ok (if sg then - a else a)
  end.

(** [int(float(s))] *)
Definition int_float (s : string) : result Z := let? x := float s in int x.

Definition is_zero (x : spec_float) : bool :=
  match x with S754_zero _ => true | _ => false end.

End PyFloat.

(** ** The spreadsheet grid

    [pd.read_excel(..., header=None)] yields a frame of untyped cells.  A
    cell is modelled by what the parser can observe of it: its class, its
    [str()] text, whether [pd.isna] holds and its truth value.  A float
    cell is carried by its [repr], which is what [str()] returns and what
    [float()] reads back. *)
Module Sheet.
Import PyDate.

Inductive na_kind := NaN | NoneValue | NaT.

Inductive cell :=
| CNa (k : na_kind)               (* pd.isna(v) *)
| CStr (s : string)
| CInt (n : Z)
| CFloat (repr : string)
| CBool (b : bool)
| CTimestamp (dt : datetime)      (* pandas.Timestamp *)
| CDatetime (dt : datetime).      (* datetime.datetime *)

Definition row := list cell.
Definition grid := list row.

Definition isna (v : cell) : bool :=
  match v with CNa _ => true | _ => false end.

(** [str(v)] *)
Definition str (v : cell) : string :=
  match v with
  | CNa NaN => "nan"
  | CNa NoneValue => "None"
  | CNa NaT => "NaT"
  | CStr s => s
  | CInt n => PyStr.of_Z n
  | CFloat r => r
  | CBool true => "True"
  | CBool false => "False"
  | CTimestamp dt => str_datetime dt
  | CDatetime dt => str_datetime dt
  end.

(** [bool(v)], for the cells [gv] can return. *)
Definition truthy (v : cell) : bool :=
  match v with
  | CNa NoneValue => false
  | CNa _ => true
  | CStr s => negb (String.eqb s "")
  | CInt n => negb (n =? 0)
  | CFloat r => match PyFloat.float r with Ok x => negb (PyFloat.is_zero x) | Raise _ => true end
  | CBool b => b
  | CTimestamp _ => true
  | CDatetime _ => true
  end.

End Sheet.

(** ** Vacation records and row errors *)

(** One entry of [rows]: the dictionary built at the end of step 3 of
    [parse_vacation_df], which is also what the store keeps per chat. *)
Record vacation := mkvacation {
  fio : string;
  org : string;
  days : Z;
  start_date : string;
  end_date : string
}.

(** One entry of [errors]; the exception stands for its text [str(e)]. *)
Record row_error := mkrow_error {
  err_row : nat;
  err_error : exn;
  err_fio : string
}.

(** ** Excel parsing: [parse_vacation_df] *)
Module Parser.
Import PyDate Sheet.

Fixpoint find_index_from {A} (p : A -> bool) (j : nat) (l : list A) : option nat :=
  match l with
  | [] => None
  | x :: l' => if p x then Some j else find_index_from p (S j) l'
  end.

(** [next((j for j, v in enumerate(l) if p(v)), -1)], with [None] for -1. *)
Definition find_index {A} (p : A -> bool) (l : list A) : option nat :=
  find_index_from p 0 l.

Record col_map := mkcol_map {
  cm_fio : nat;
  cm_org : nat;
  cm_days : nat;
  cm_start_date : nat
}.

(** *** Step 1: header row by keywords *)

Definition is_fio_header (v : string) : bool :=
  PyStr.contains "фио" v || PyStr.contains "фамили" v || PyStr.contains "сотрудник" v.

Definition is_date_header (v : string) : bool :=
  (PyStr.contains "дата" v
   && (PyStr.contains "план" v || PyStr.contains "начал" v || PyStr.contains "запланир" v))
  || String.eqb v "дата".

Definition is_days_header (v : string) : bool :=
  (PyStr.contains "кол" v && PyStr.contains "дн" v) || PyStr.contains "календарн" v.

Definition is_org_header (v : string) : bool :=
  PyStr.contains "организ" v || PyStr.contains "филиал" v || PyStr.contains "компани" v.

(** The body of the step-1 loop for one row, given its [row_vals]. *)
Definition header_cols (row_vals : list string) : option col_map :=
  match find_index is_fio_header row_vals, find_index is_date_header row_vals with
  | Some fio_idx, Some date_idx =>
      Some {| cm_fio := fio_idx;
              cm_org := default (fio_idx + 1)%nat (find_index is_org_header row_vals);
              cm_days := default (fio_idx + 2)%nat (find_index is_days_header row_vals);
              cm_start_date := date_idx |}
  | _, _ => None
  end.

(** *** Step 2: first data row by position *)

Inductive pchar := PDigit | PLit (c : ascii).

(** [re.match] of a pattern that is a plain sequence of [\d] and literals. *)
Fixpoint re_prefix (p : list pchar) (s : string) : bool :=
  match p, s with
  | [], _ => true
  | PDigit :: p', String c s' => PyStr.is_digit c && re_prefix p' s'
  | PLit a :: p', String c s' => Ascii.eqb a c && re_prefix p' s'
  | _ :: _, EmptyString => false
  end.

(** [\d{2}\.\d{2}\.\d{4}] *)
Definition re_dmY : list pchar :=
  [PDigit; PDigit; PLit "."; PDigit; PDigit; PLit "."; PDigit; PDigit; PDigit; PDigit].
(** [\d{4}-\d{2}-\d{2}] *)
Definition re_Ymd : list pchar :=
  [PDigit; PDigit; PDigit; PDigit; PLit "-"; PDigit; PDigit; PLit "-"; PDigit; PDigit].

(** The test of the inner loop that looks for [date_col]. *)
Definition looks_like_date (v : cell) : bool :=
  negb (isna v) &&
  match v with
  | CTimestamp _ => true
  | _ => let v_str := PyStr.strip (str v) in re_prefix re_dmY v_str || re_prefix re_Ymd v_str
  end.

(** The loop [for j in range(1, date_col)] over the cells [vals[j:date_col]]:
    the first cell that is not missing and converts to an integer in
    1..365.  [ValueError] and [TypeError] are swallowed, any other
    exception of the conversion leaves the function. *)
Fixpoint find_days_col (j : nat) (cells : list cell) : result (option nat) :=
  match cells with
  | [] => Ok None
  | v :: rest =>
      if isna v then find_days_col (S j) rest
      else
        match PyFloat.int_float (str v) with
        | Ok d => if (1 <=? d) && (d <=? 365) then Ok (Some j) else find_days_col (S j) rest
        | Raise ValueError => find_days_col (S j) rest
        | Raise TypeError => find_days_col (S j) rest
        | Raise e => Raise e
        end
  end.

(** The test a cell has to pass in that loop. *)
Definition small_count (v : cell) : bool :=
  negb (isna v) &&
  match PyFloat.int_float (str v) with
  | Ok d => (1 <=? d) && (d <=? 365)
  | Raise _ => false
  end.

(** The conversion of the cell raises what the loop does not catch. *)
Definition escapes (v : cell) : bool :=
  negb (isna v) &&
  match PyFloat.int_float (str v) with
  | Ok _ => false
  | Raise ValueError => false
  | Raise TypeError => false
  | Raise _ => true
  end.

(** [j] is the first index of [l] whose element passes [p]. *)
Definition first_match {A} (p : A -> bool) (l : list A) (j : nat) : Prop :=
  (∃ x, l !! j = Some x ∧ p x = true)
  ∧ ∀ k y, (k < j)%nat → l !! k = Some y → p y = false.

(** The choice of the days column as the specification words it: the
    qualifying column nearest to the date column among those before it
    (from column 1 on), and column 2 when there is none. *)
Definition spec_nearest_days_col (vals : row) (date_col days_col : nat) : Prop :=
  (∃ v, (1 ≤ days_col < date_col)%nat ∧ vals !! days_col = Some v ∧ small_count v = true
        ∧ ∀ k y, (days_col < k < date_col)%nat → vals !! k = Some y → small_count y = false)
  ∨ (days_col = 2%nat
     ∧ ∀ k y, (1 ≤ k < date_col)%nat → vals !! k = Some y → small_count y = false).

(** The cells at the indices of [range(1, date_col)]. *)
Definition before_date (vals : row) (date_col : nat) : list cell :=
  take (date_col - 1) (drop 1 vals).

(** The body of the step-2 loop for one row: [None] stands for [continue]
    or for a row without a date. *)
Definition data_row_cols (vals : row) : result (option col_map) :=
  let col0 := match vals with v :: _ => PyStr.strip (str v) | [] => "" end in
  if String.eqb col0 "" || String.eqb col0 "nan" || PyStr.isdigit col0 then Ok None
  else
    match find_index looks_like_date vals with
    | None => Ok None
    | Some date_col =>
        let? days_col := find_days_col 1 (before_date vals date_col) in
        Ok (Some {| cm_fio := 0; cm_org := 1;
                    cm_days := default 2%nat days_col;
                    cm_start_date := date_col |})
    end.

Fixpoint positional_pass (i : nat) (rows : grid) : result (option (col_map * nat)) :=
  match rows with
  | [] => Ok None
  | vals :: rest =>
      let? r := data_row_cols vals in
      match r with
      | Some cm => Ok (Some (cm, i))
      | None => positional_pass (S i) rest
      end
  end.

(** *** Step 3: the data rows *)

(** The helper [gv] of the source, after the column index was looked up. *)
Definition gv (r : row) (idx : nat) : cell :=
  match r !! idx with
  | None => CStr ""
  | Some val => if isna val then CStr "" else val
  end.

Inductive row_outcome :=
| Skipped
| Parsed (v : vacation)
| Failed (e : row_error).

Section WithLibrary.

(** [str.lower] and the day-first [pandas.to_datetime(...).to_pydatetime()]
    are library code that is not embedded; everything below holds for any
    behaviour of the two. *)
Variable lower : string -> string.
Variable to_datetime : string -> result datetime.

Definition row_vals (r : row) : list string :=
  map (fun v => PyStr.strip (lower (str v))) r.

Fixpoint keyword_pass (i : nat) (rows : grid) : option (col_map * nat) :=
  match rows with
  | [] => None
  | r :: rest =>
      match header_cols (row_vals r) with
      | Some cm => Some (cm, S i)
      | None => keyword_pass (S i) rest
      end
  end.

(** A cell of the row reads as a name keyword, as a date keyword. *)
Definition has_cell (p : string -> bool) (r : row) : Prop :=
  ∃ v, v ∈ row_vals r ∧ p v = true.

Definition is_header_row (r : row) : Prop :=
  has_cell is_fio_header r ∧ has_cell is_date_header r.

(** The chain of [strptime] formats, in the order of the source. *)
Fixpoint try_formats (d_str : string) (fmts : list (list tok)) : option datetime :=
  match fmts with
  | [] => None
  | fmt :: rest =>
      match strptime d_str fmt with
      | Ok dt => Some dt
      | Raise _ => try_formats d_str rest
      end
  end.

Definition parse_date (date_cell : cell) : result datetime :=
  match date_cell with
  | CTimestamp dt => Ok dt
  | CDatetime dt => Ok dt
  | _ =>
      let d_str := PyStr.strip (str date_cell) in
      match try_formats d_str [fmt_dmY; fmt_Ymd; fmt_dmy; fmt_dmY_slash] with
      | Some dt => Ok dt
      | None => to_datetime d_str
      end
  end.

(** [int(float(days_raw)) if days_raw and days_raw != 'nan' else 0] *)
Definition parse_days (days_raw : string) : result Z :=
  if negb (String.eqb days_raw "") && negb (String.eqb days_raw "nan")
  then PyFloat.int_float days_raw
  else Ok 0.

(** The body of the [try] block. *)
Definition build_record (fio org days_raw : string) (date_cell : cell) : result vacation :=
  let? start_dt := parse_date date_cell in
  let? days := parse_days days_raw in
  let? end_dt := add_days start_dt days in
  Ok {| fio := fio; org := org; days := days;
        start_date := strftime_Ymd start_dt;
        end_date := strftime_Ymd end_dt |}.

(** The body of the step-3 loop for the row at index [i]. *)
Definition parse_row (cm : col_map) (i : nat) (r : row) : row_outcome :=
  let fio := PyStr.strip (str (gv r (cm_fio cm))) in
  let org := PyStr.strip (str (gv r (cm_org cm))) in
  let days_raw := PyStr.strip (str (gv r (cm_days cm))) in
  let date_cell := gv r (cm_start_date cm) in
  if String.eqb fio "" || String.eqb fio "nan" || PyStr.isdigit fio then Skipped
  else
    let ds := PyStr.strip (str date_cell) in
    if negb (truthy date_cell) || String.eqb ds "nan" || String.eqb ds "" then Skipped
    else
      match build_record fio org days_raw date_cell with
      | Ok v => Parsed v
      | Raise e => Failed {| err_row := S i; err_error := e; err_fio := fio |}
      end.

Fixpoint parse_rows (cm : col_map) (i : nat) (rs : grid)
  : list vacation * list row_error :=
  match rs with
  | [] => ([], [])
  | r :: rest =>
      let '(rows, errors) := parse_rows cm (S i) rest in
      match parse_row cm i r with
      | Skipped => (rows, errors)
      | Parsed v => (v :: rows, errors)
      | Failed e => (rows, e :: errors)
      end
  end.

(** Steps 1 and 2 together: the detected layout and [data_start]. *)
Definition detect_layout (df_raw : grid) : result (option (col_map * nat)) :=
  match keyword_pass 0 (take 20 df_raw) with
  | Some l => Ok (Some l)
  | None => positional_pass 0 (take 30 df_raw)
  end.

Definition parse_vacation_df (df_raw : grid) : result (list vacation * list row_error) :=
  let? layout := detect_layout df_raw in
  match layout with
  | None => Ok ([], [])
  | Some (cm, data_start) => Ok (parse_rows cm data_start (drop data_start df_raw))
  end.

End WithLibrary.

(** A lower-casing that covers ASCII and the basic Cyrillic letters
    (U+0410..U+042F and U+0401, in UTF-8), used to run the parser on
    concrete sheets. *)
Fixpoint lower_cyr (s : string) : string :=
  match s with
  | String a (String b r as s') =>
      let x := nat_of_ascii a in
      let y := nat_of_ascii b in
      if (x =? 208)%nat && (144 <=? y)%nat && (y <=? 159)%nat then
        String a (String (ascii_of_nat (y + 32)) (lower_cyr r))
      else if (x =? 208)%nat && (160 <=? y)%nat && (y <=? 175)%nat then
        String (ascii_of_nat 209) (String (ascii_of_nat (y - 32)) (lower_cyr r))
      else if (x =? 208)%nat && (y =? 129)%nat then
        String (ascii_of_nat 209) (String (ascii_of_nat 145) (lower_cyr r))
      else if (x =? 208)%nat || (x =? 209)%nat then
        String a (String b (lower_cyr r))
      else String (PyStr.ascii_lower_char a) (lower_cyr s')
  | String a EmptyString => String (PyStr.ascii_lower_char a) EmptyString
  | EmptyString => EmptyString
  end.

(** A stand-in for the generic date parser that rejects every text. *)
Definition no_to_datetime (s : string) : result datetime := Raise ParserError.

End Parser.

(** ** JSON file storage *)
Module Storage.
Import PyDate.

(** One entry of a chat's notification log. *)
Record notification := mknotification {
  vacation_id : Z;
  sent_at : string
}.

(** The dictionary kept per chat under ["settings"]. *)
Record chat_settings := mkchat_settings {
  notify_days : option Z
}.

(** The value under ["vacations"] or ["notifications"]: a dictionary keyed
    by chat, or the flat list of the legacy format, which the code tells
    apart with [isinstance]. *)
Inductive per_chat (A : Type) :=
| PerChat (m : gmap string (list A))
| Legacy (l : list A).
Arguments PerChat {A} m.
Arguments Legacy {A} l.

(** The document [data].  The entries of ["settings"] whose value is a
    dictionary are in [settings]; the reserved entry ["hr_chat_id"], whose
    value is a chat id, is in [hr_chat_id]. *)
Record store := mkstore {
  vacations : per_chat vacation;
  settings : gmap string chat_settings;
  hr_chat_id : option string;
  notifications : per_chat notification
}.

Definition empty_store : store :=
  {| vacations := PerChat ∅; settings := ∅; hr_chat_id := None; notifications := PerChat ∅ |}.

(** What is at [DATA_FILE]: nothing, something [open]/[json.load] fails on
    with exception [e], or a saved document. *)
Inductive document :=
| NoFile
| Unreadable (raw : string) (e : exn)
| Stored (data : store).

Definition path_exists (f : document) : bool :=
  match f with NoFile => false | _ => true end.

(** [with open(DATA_FILE) as f: json.load(f)] *)
Definition json_load (f : document) : result store :=
  match f with
  | NoFile => Raise OSError
  | Unreadable _ e => Raise e
  | Stored data => Ok data
  end.

Definition load_data (f : document) : result store :=
  if path_exists f then
    match json_load f with
    | Ok data => Ok data
    | Raise _ => Ok empty_store      (* except Exception: logger.warning *)
    end
  else Ok empty_store.

Definition save_data (data : store) : document := Stored data.

(** [d if isinstance(d, dict) else {}] *)
Definition as_dict {A} (d : per_chat A) : gmap string (list A) :=
  match d with
  | PerChat m => m
  | Legacy _ => ∅
  end.

End Storage.

(** ** File processing: [_download_and_parse] *)
Module Upload.
Import Sheet Parser Storage.

(** What reaches the handler: the download fails, or it yields a file on
    which [pd.read_excel] raises or returns a frame. *)
Inductive upload :=
| DownloadFailed
| Downloaded (df : result grid).

Inductive reply :=
| DownloadError              (* "Ошибка скачивания файла" *)
| ExcelError (e : exn)       (* "Ошибка чтения Excel" *)
| NoDataFound                (* "Не удалось найти данные в файле" *)
| Loaded (n_rows n_errors : nat) (sample : list vacation).

Record world := mkworld {
  data_file : document;
  pending_state : gmap string string
}.

Section WithLibrary.
Variable lower : string -> string.
Variable to_datetime : string -> result PyDate.datetime.

(** [parse_job] *)
Definition parse_job (df : result grid) : result (list vacation * list row_error) :=
  let? df_raw := df in parse_vacation_df lower to_datetime df_raw.

(** The load-mutate-save cycle at the end of the handler. *)
Definition replace_vacations (f : document) (chat_id : string) (rows : list vacation)
  : result document :=
  let? data := load_data f in
  let vacs := as_dict (vacations data) in
  let notifs := as_dict (notifications data) in
  Ok (save_data {| vacations := PerChat (<[chat_id := rows]> vacs);
                   settings := settings data;
                   hr_chat_id := hr_chat_id data;
                   notifications := PerChat (<[chat_id := []]> notifs) |}).

Definition download_and_parse (w : world) (chat_id : string) (u : upload)
  : result (reply * world) :=
  match u with
  | DownloadFailed => Ok (DownloadError, w)
  | Downloaded df =>
      match parse_job df with
      | Raise e => Ok (ExcelError e, w)
      | Ok ([], _) => Ok (NoDataFound, w)
      | Ok (rows, errors) =>
          let? f := replace_vacations (data_file w) chat_id rows in
          Ok (Loaded (length rows) (length errors) (take 3 rows),
              {| data_file := f;
                 pending_state := <[chat_id := "awaiting_threshold"]> (pending_state w) |})
      end
  end.

End WithLibrary.
End Upload.

(** ** The read-only views: [send_status] and [send_schedule] *)
Module Views.
Import PyDate Storage.

(** The reply of [send_status], by the two values it prints. *)
Record status := mkstatus {
  count : nat;
  status_notify_days : option Z       (* [None] prints as "не задано" *)
}.

(** [settings.get(chat_id, {})] followed by [.get("notify_days")]: the
    entry ["hr_chat_id"], when set, is a [str], which has no [get]. *)
Definition chat_settings_of (data : store) (chat_id : string) : result chat_settings :=
  if String.eqb chat_id "hr_chat_id" && bool_decide (is_Some (hr_chat_id data))
  then Raise AttributeError
  else Ok (default (mkchat_settings None) (settings data !! chat_id)).

Definition send_status (f : document) (chat_id : string) : result status :=
  let? data := load_data f in
  let count :=
    match vacations data with
    | PerChat m => length (default [] (m !! chat_id))
    | Legacy l => length l
    end in
  let? chat_settings := chat_settings_of data chat_id in
  Ok {| count := count; status_notify_days := notify_days chat_settings |}.

(** One line of the schedule: [(notify_date, start_dt, fio)]. *)
Record schedule_line := mkline {
  notify_date : date;
  line_start : date;
  line_fio : string
}.

Inductive schedule :=
| NoData                      (* "Данные об отпусках не загружены." *)
| NoThreshold                 (* "Порог уведомлений не настроен." *)
| NothingUpcoming             (* "Ближайших уведомлений нет." *)
| Upcoming (n : Z) (top5 : list schedule_line).

(** [start_dt - timedelta(days=n)], as a date. *)
Definition sub_days (d : date) (n : Z) : result date :=
  let? dt := add_days (midnight d) (- n) in Ok (dt_date dt).

(** The body of the loop that fills [upcoming]; an exception skips the
    record. *)
Definition upcoming_line (today : date) (n : Z) (v : vacation) : option schedule_line :=
  match strptime (start_date v) fmt_Ymd with
  | Raise _ => None
  | Ok start_dt =>
      match sub_days (dt_date start_dt) n with
      | Raise _ => None
      | Ok nd =>
          if toordinal today <=? toordinal nd
          then Some {| notify_date := nd; line_start := dt_date start_dt; line_fio := fio v |}
          else None
      end
  end.

(** [upcoming.sort(key=lambda x: x[0])]: a stable sort on the notify date. *)
Fixpoint insert_line (x : schedule_line) (l : list schedule_line) : list schedule_line :=
  match l with
  | [] => [x]
  | y :: l' =>
      if toordinal (notify_date x) <? toordinal (notify_date y) then x :: l
      else y :: insert_line x l'
  end.

Definition sort_lines (l : list schedule_line) : list schedule_line :=
  foldl (fun acc x => insert_line x acc) [] l.

Definition send_schedule (f : document) (today : date) (chat_id : string) : result schedule :=
  let? data := load_data f in
  let vacs :=
    match vacations data with
    | PerChat m => default [] (m !! chat_id)
    | Legacy l => l
    end in
  let? chat_settings := chat_settings_of data chat_id in
  match vacs with
  | [] => Ok NoData
  | _ =>
      match notify_days chat_settings with
      | None => Ok NoThreshold
      | Some 0 => Ok NoThreshold
      | Some n =>
          let upcoming := omap (upcoming_line today n) vacs in
          match take 5 (sort_lines upcoming) with
          | [] => Ok NothingUpcoming
          | top5 => Ok (Upcoming n top5)
          end
      end
  end.

End Views.

(** ** The daily scan: [send_notifications] *)
Module Notifier.
Import PyDate Storage.

(** One call of [bot.send_text] made by the scan, with its outcome. *)
Record sent := mksent {
  to_chat : string;
  for_idx : nat;
  text : string;
  delivered : bool
}.

(** The mutable state of one pass. *)
Record scan := mkscan {
  all_notifications : gmap string (list notification);
  sent_count : nat;
  outbox : list sent
}.

(** The key format of the already-sent set: [f"{id}_{today}"]. *)
Definition key (id : Z) (today : date) : string :=
  PyStr.of_Z id ++ "_" ++ isoformat today.

(** [set(f"{n['vacation_id']}_{today}" for n in log)] *)
Definition notified_keys (today : date) (log : list notification) : gset string :=
  list_to_set ((fun n => key (vacation_id n) today) <$> log).

Definition reminder (v : vacation) (days_left : Z) : string :=
  "⏰ Напоминание об отпуске" ++ PyStr.nl ++ PyStr.nl ++
  "👤 " ++ fio v ++ PyStr.nl ++
  "🏢 " ++ org v ++ PyStr.nl ++
  "📅 Начало: " ++ start_date v ++ PyStr.nl ++
  "📅 Конец: " ++ end_date v ++ PyStr.nl ++
  "🗓 Дней: " ++ PyStr.of_Z (days v) ++ PyStr.nl ++ PyStr.nl ++
  "До начала отпуска: " ++ PyStr.of_Z days_left ++ " дн.".

(** [days_left] of a record, when its start date parses. *)
Definition days_left (today : date) (v : vacation) : result Z :=
  let? start_dt := strptime (start_date v) fmt_Ymd in
  Ok (days_between (dt_date start_dt) today).

(** The window test [0 <= days_left <= notify_days]; a record whose start
    date does not parse is passed over by the [except] of the loop. *)
Definition due (today : date) (notify_days : Z) (v : vacation) : bool :=
  match days_left today v with
  | Ok d => (0 <=? d) && (d <=? notify_days)
  | Raise _ => false
  end.

Section Pass.

Variable today : date.
(** Whether [bot.send_text] returns normally for the reminder of the
    record at an index of a chat; a pass tries each pair at most once. *)
Variable delivers : string -> nat -> bool.

(** The body of the loop over [enumerate(vacations)]. *)
Definition check_vacation (chat_id : string) (notify_days : Z) (idx : nat) (v : vacation)
    (st : gset string * scan) : gset string * scan :=
  let '(chat_notified, sc) := st in
  match days_left today v with
  | Raise _ => st
  | Ok d =>
      if (0 <=? d) && (d <=? notify_days) then
        let k := key (Z.of_nat idx) today in
        if decide (k ∈ chat_notified) then st
        else
          let msg := reminder v d in
          if delivers chat_id idx then
            let log := default [] (all_notifications sc !! chat_id) in
            let entry := {| vacation_id := Z.of_nat idx; sent_at := isoformat today |} in
            ({[ k ]} ∪ chat_notified,
             {| all_notifications := <[chat_id := log ++ [entry]]> (all_notifications sc);
                sent_count := S (sent_count sc);
                outbox := outbox sc ++ [mksent chat_id idx msg true] |})
          else
            (chat_notified,
             {| all_notifications := all_notifications sc;
                sent_count := sent_count sc;
                outbox := outbox sc ++ [mksent chat_id idx msg false] |})
      else st
  end.

Fixpoint scan_vacations (chat_id : string) (notify_days : Z) (idx : nat)
    (vs : list vacation) (st : gset string * scan) : gset string * scan :=
  match vs with
  | [] => st
  | v :: rest =>
      scan_vacations chat_id notify_days (S idx) rest
        (check_vacation chat_id notify_days idx v st)
  end.

(** The body of the loop over [settings.items()]. *)
Definition scan_chat (all_vacations : gmap string (list vacation))
    (sc : scan) (item : string * chat_settings) : scan :=
  let '(chat_id, chat_settings) := item in
  if String.eqb chat_id "hr_chat_id" then sc
  else
    match notify_days chat_settings with
    | None => sc
    | Some 0 => sc
    | Some n =>
        let vacs := default [] (all_vacations !! chat_id) in
        let chat_notified :=
          notified_keys today (default [] (all_notifications sc !! chat_id)) in
        snd (scan_vacations chat_id n 0 vacs (chat_notified, sc))
    end.

Definition scan_all (all_vacations : gmap string (list vacation)) (sc : scan)
    (items : list (string * chat_settings)) : scan :=
  foldl (scan_chat all_vacations) sc items.

(** The loop over the chats, from the loaded document.  The chats are
    visited in the order in which the map enumerates them, which need not
    be the insertion order of the Python dictionary; the chats do not
    interact, each one reads and writes its own log only. *)
Definition run_scan (data : store) : scan :=
  scan_all (as_dict (vacations data))
           (mkscan (as_dict (notifications data)) 0 [])
           (map_to_list (settings data)).

(** A chat is settled in a log when every due record of it has its key
    among the keys of its log entries. *)
Definition settled (all_vacations : gmap string (list vacation))
    (log : gmap string (list notification)) (chat_id : string) (cs : chat_settings) : Prop :=
  ∀ n j v, chat_id ≠ "hr_chat_id" → notify_days cs = Some n → n ≠ 0 →
    default [] (all_vacations !! chat_id) !! j = Some v →
    due today n v = true →
    key (Z.of_nat j) today ∈ notified_keys today (default [] (log !! chat_id)).

(** The pass: the file it leaves and the messages it tried to send. *)
Definition send_notifications (f : document) : result (document * list sent) :=
  let? data := load_data f in
  let sc := run_scan data in
  if (sent_count sc =? 0)%nat then Ok (f, outbox sc)
  else
    Ok (save_data {| vacations := PerChat (as_dict (vacations data));
                     settings := settings data;
                     hr_chat_id := hr_chat_id data;
                     notifications := PerChat (all_notifications sc) |},
        outbox sc).

End Pass.

Definition always (chat_id : string) (idx : nat) : bool := true.

Definition log_of (sc : scan) (chat_id : string) : list notification :=
  default [] (all_notifications sc !! chat_id).

(** Every send of a pass went through. *)
Definition all_delivered (out : list sent) : Prop :=
  Forall (fun e => delivered e = true) out.

End Notifier.

Arguments Notifier.check_vacation : simpl never.
Arguments Notifier.scan_chat : simpl never.

(** ** The reminders of a pass, read off the store

    A description of one pass that does not go through the loop state: the
    reminders a chat calls for are those of its records, in order, that
    are inside the window and whose index has no entry in the chat's log as
    it was loaded. *)
Module Reminders.
Import PyDate Storage Notifier.

(** Some entry of the log carries the index. *)
Definition logged (log : list notification) (idx : nat) : bool :=
  existsb (fun e => vacation_id e =? Z.of_nat idx) log.

Definition reminder_for (today : date) (delivers : string -> nat -> bool)
    (chat_id : string) (n : Z) (log : list notification) (idx : nat) (v : vacation)
  : option sent :=
  match days_left today v with
  | Ok d =>
      if (0 <=? d) && (d <=? n) && negb (logged log idx)
      then Some (mksent chat_id idx (reminder v d) (delivers chat_id idx))
      else None
  | Raise _ => None
  end.

Fixpoint reminders_from (today : date) (delivers : string -> nat -> bool)
    (chat_id : string) (n : Z) (log : list notification) (idx : nat)
    (vs : list vacation) : list sent :=
  match vs with
  | [] => []
  | v :: rest =>
      match reminder_for today delivers chat_id n log idx v with
      | Some ev => ev :: reminders_from today delivers chat_id n log (S idx) rest
      | None => reminders_from today delivers chat_id n log (S idx) rest
      end
  end.

Definition chat_reminders (today : date) (delivers : string -> nat -> bool)
    (all_vacations : gmap string (list vacation))
    (logs : gmap string (list notification)) (item : string * chat_settings) : list sent :=
  let '(chat_id, cs) := item in
  if String.eqb chat_id "hr_chat_id" then []
  else
    match notify_days cs with
    | None => []
    | Some 0 => []
    | Some n =>
        reminders_from today delivers chat_id n (default [] (logs !! chat_id)) 0
          (default [] (all_vacations !! chat_id))
    end.

Definition pass_reminders (today : date) (delivers : string -> nat -> bool)
    (data : store) : list sent :=
  concat (chat_reminders today delivers (as_dict (vacations data))
            (as_dict (notifications data)) <$> map_to_list (settings data)).

(** The log entry written for a delivered reminder. *)
Definition log_entry (today : date) (ev : sent) : notification :=
  {| vacation_id := Z.of_nat (for_idx ev); sent_at := isoformat today |}.

(** The entries a list of sends leaves in the log of a chat. *)
Definition entries_for (today : date) (chat_id : string) (out : list sent)
  : list notification :=
  log_entry today <$>
    filter (fun ev => delivered ev = true ∧ to_chat ev = chat_id) out.

(** [log.setdefault(chat_id, []).append(e)] for each entry in turn: the
    key appears only when there is an entry to append. *)
Definition with_entries (chat_id : string) (entries : list notification)
    (m : gmap string (list notification)) : gmap string (list notification) :=
  match entries with
  | [] => m
  | _ => <[chat_id := default [] (m !! chat_id) ++ entries]> m
  end.

Definition delivered_entries (today : date) (out : list sent) : list notification :=
  log_entry today <$> filter (fun ev => delivered ev = true) out.

End Reminders.

(** ** [int(str)] and the first word of a message, on ASCII text

    The handlers below take [int] and [text.lower().split()[0]] as
    parameters; these are the instances the examples run on. *)
Module PyInt.
Import PyStr.

(** The digits of a literal, single underscores allowed between digits:
    the value and the number of digits read. *)
Fixpoint digits_from (acc : Z) (count : nat) (after_digit : bool) (s : string)
  : option (Z * nat) :=
  match s with
  | EmptyString => if after_digit then Some (acc, count) else None
  | String c s' =>
      if is_digit c then digits_from (10 * acc + digit_val c) (S count) true s'
      else if Ascii.eqb c "_" && after_digit then digits_from acc count false s'
      else None
  end.

(** [sys.get_int_max_str_digits()] *)
Definition max_str_digits : nat := 4300.

Definition int (s : string) : result Z :=
  let t := c_strip s in
  let '(neg, body) :=
    match t with
    | String "-" r => (true, r)
    | String "+" r => (false, r)
    | _ => (false, t)
    end in
  match digits_from 0 0 false body with
  | None => Raise ValueError
  | Some (n, k) =>
      if (max_str_digits <? k)%nat then Raise ValueError
      else Ok (if neg then - n else n)
  end.

Fixpoint until_space (s : string) : string :=
  match s with
  | EmptyString => EmptyString
  | String c s' => if is_space c then EmptyString else String c (until_space s')
  end.

(** [text.lower().split()[0] if text else ''] *)
Definition command (text : string) : string :=
  until_space (lstrip_with is_space (ascii_lower text)).

End PyInt.

(** ** The handlers: [on_message_async] and [on_button_click_async]

    A message is handled against the world of the uploads: the data file
    and the in-memory [pending_state].  A call of [bot.send_text] returns
    or raises, as the transport decides; a handler ends normally or with an
    exception, and either way it leaves the replies that went through and
    the world as it is then. *)
Module Handlers.
Import PyDate Sheet Storage Upload Views.

(** One element of [event.parts] or of [event.data['parts']], by the two
    values the handler reads off it: its type and its file id. *)
Record part := mkpart {
  part_type : option string;
  part_file_id : option string
}.

(** The event as the handler reads it: the chat, the text after
    [.strip()], [event.parts] and the parts listed in [event.data]. *)
Record event := mkevent {
  from_chat : string;
  ev_text : string;
  ev_parts : list part;
  ev_data_parts : list part
}.

(** The JSON of [bot.get_file_info]. *)
Record file_info := mkfile_info {
  info_ok : bool;
  info_url : option string
}.

Inductive message :=
| ThresholdSaved (count : nat) (days : Z)   (* "Настройка сохранена!" *)
| ThresholdRejected         (* "Введите целое положительное число" *)
| FileReceived              (* "Файл получен, обрабатываю..." *)
| FileInfoNotOk             (* "Ошибка получения файла от сервера." *)
| FileInfoNoUrl             (* "Сервер не вернул URL файла." *)
| FileError (e : exn)       (* "Ошибка: ..." *)
| Parsed (r : reply)
| Welcome
| Help
| ChannelSet                (* "Этот чат установлен для уведомлений" *)
| Status (s : status)
| Schedule (s : schedule)
| AskThreshold              (* "Измените срок оповещения об отпуске" *)
| Menu.

(** Python truthiness of an optional string. *)
Definition truthy_str (s : option string) : option string :=
  match s with
  | Some "" => None
  | _ => s
  end.

Definition is_file (p : part) : bool :=
  match part_type p with
  | Some t => String.eqb t "file"
  | None => false
  end.

(** The loops that return at the first part of type ['file'] with a file
    id. *)
Fixpoint first_file_id (parts : list part) : option string :=
  match parts with
  | [] => None
  | p :: rest =>
      if is_file p then
        match truthy_str (part_file_id p) with
        | Some file_id => Some file_id
        | None => first_file_id rest
        end
      else first_file_id rest
  end.

(** The loop that breaks at the first part of type ['file'], with or
    without a file id. *)
Fixpoint file_id_from_parts (parts : list part) : option string :=
  match parts with
  | [] => None
  | p :: rest => if is_file p then part_file_id p else file_id_from_parts rest
  end.

(** [data["settings"].setdefault(chat_id, {})["notify_days"] = days]: the
    entry ["hr_chat_id"], when set, is a [str], which takes no item. *)
Definition set_notify_days (data : store) (chat_id : string) (days : Z) : result store :=
  if String.eqb chat_id "hr_chat_id" && bool_decide (is_Some (hr_chat_id data))
  then Raise TypeError
  else Ok {| vacations := vacations data;
             settings := <[chat_id := mkchat_settings (Some days)]> (settings data);
             hr_chat_id := hr_chat_id data;
             notifications := notifications data |}.

(** [len(data.get("vacations", []))] *)
Definition loaded_count (data : store) : nat :=
  match vacations data with
  | PerChat m => size m
  | Legacy l => length l
  end.

(** [set_channel_action], the file it leaves. *)
Definition set_channel_action (f : document) (chat_id : string) : result document :=
  let? data := load_data f in
  let with_chat :=
    match settings data !! chat_id with
    | Some _ => settings data
    | None => <[chat_id := mkchat_settings None]> (settings data)
    end in
  Ok (save_data {| vacations := vacations data;
                   settings := delete "hr_chat_id" with_chat;
                   hr_chat_id := Some chat_id;
                   notifications := notifications data |}).


(** How a handler ends: normally, or with the exception that leaves it;
    with the replies delivered, in order, and the world it leaves. *)
Inductive handled :=
| Done (replies : list message) (w : world)
| Failed (e : exn) (replies : list message) (w : world).


Definition world_of (h : handled) : world :=
  match h with Done _ w => w | Failed _ _ w => w end.

(** What was delivered before [h] began. *)
Definition after_replies (msgs : list message) (h : handled) : handled :=
  match h with
  | Done msgs' w => Done (msgs ++ msgs') w
  | Failed e msgs' w => Failed e (msgs ++ msgs') w
  end.

Section WithLibrary.
Variable lower : string -> string.
Variable to_datetime : string -> result PyDate.datetime.
(** [int(text)] *)
Variable py_int : string -> result Z.
(** [text.lower().split()[0] if text else ''] *)
Variable command : string -> string.
(** [bot.get_file_info(file_id=file_id).json()] *)
Variable get_file_info : string -> result file_info.
(** What the download of a URL and [pd.read_excel] give. *)
Variable fetch : string -> upload.
(** [bot.send_text(chat_id, text)]: [None] when the call returns, the
    exception when it raises.  A handler sends a text at most once. *)
Variable sends : string -> message -> option exn.

(** One call of [bot.send_text] as the last step of a path. *)
Definition say (chat_id : string) (m : message) (w : world) : handled :=
  match sends chat_id m with
  | None => Done [m] w
  | Some e => Failed e [] w
  end.

(** [_download_and_parse]: every path of it ends with one send, made
    after the file and [pending_state] were written. *)
Definition download_and_reply (w : world) (chat_id url : string) : handled :=
  match download_and_parse lower to_datetime w chat_id (fetch url) with
  | Raise e => Failed e [] w
  | Ok (r, w') => say chat_id (Parsed r) w'
  end.

Definition process_file_by_url (w : world) (chat_id url : string) : handled :=
  match sends chat_id FileReceived with
  | Some e => Failed e [] w
  | None => after_replies [FileReceived] (download_and_reply w chat_id url)
  end.

(** The [try] block of [process_file_by_id]. *)
Definition file_by_id_try (w : world) (chat_id file_id : string) : handled :=
  match get_file_info file_id with
  | Raise e => Failed e [] w
  | Ok info =>
      if negb (info_ok info) then say chat_id FileInfoNotOk w
      else
        match truthy_str (info_url info) with
        | None => say chat_id FileInfoNoUrl w
        | Some url => download_and_reply w chat_id url
        end
  end.

(** [process_file_by_id]: the first send is outside the [try]; whatever
    the block raises is answered by the [except] with the error text, in
    the world the block left. *)
Definition process_file_by_id (w : world) (chat_id file_id : string) : handled :=
  match sends chat_id FileReceived with
  | Some e => Failed e [] w
  | None =>
      after_replies [FileReceived]
        match file_by_id_try w chat_id file_id with
        | Done msgs w' => Done msgs w'
        | Failed e msgs w' => after_replies msgs (say chat_id (FileError e) w')
        end
  end.

(** The branch taken while the chat awaits its threshold.  The
    confirmation is sent inside the [try]: a [ValueError] of that send is
    answered like a wrong number, after the save. *)
Definition threshold_reply (w : world) (chat_id text : string) : handled :=
  match py_int text with
  | Raise ValueError => say chat_id ThresholdRejected w
  | Raise e => Failed e [] w
  | Ok days =>
      if days <=? 0 then say chat_id ThresholdRejected w
      else
        match (let? data := load_data (data_file w) in
               set_notify_days data chat_id days) with
        | Raise ValueError => say chat_id ThresholdRejected w
        | Raise e => Failed e [] w
        | Ok data' =>
            let w' := {| data_file := save_data data';
                         pending_state := delete chat_id (pending_state w) |} in
            match sends chat_id (ThresholdSaved (loaded_count data') days) with
            | None => Done [ThresholdSaved (loaded_count data') days] w'
            | Some ValueError => say chat_id ThresholdRejected w'
            | Some e => Failed e [] w'
            end
        end
  end.

(** [set_channel_action] with its reply. *)
Definition set_channel (w : world) (chat_id : string) : handled :=
  match set_channel_action (data_file w) chat_id with
  | Raise e => Failed e [] w
  | Ok f => say chat_id ChannelSet {| data_file := f; pending_state := pending_state w |}
  end.

(** [send_status] with its reply. *)
Definition show_status (w : world) (chat_id : string) : handled :=
  match send_status (data_file w) chat_id with
  | Raise e => Failed e [] w
  | Ok s => say chat_id (Status s) w
  end.

Definition run_command (w : world) (chat_id cmd : string) : handled :=
  if String.eqb cmd "/start" then say chat_id Welcome w
  else if String.eqb cmd "/help" then say chat_id Help w
  else if String.eqb cmd "/set_channel" then set_channel w chat_id
  else if String.eqb cmd "/status" then show_status w chat_id
  else say chat_id Menu w.

Definition on_message_async (w : world) (ev : event) : handled :=
  let chat_id := from_chat ev in
  let text := ev_text ev in
  if bool_decide (pending_state w !! chat_id = Some "awaiting_threshold") then
    threshold_reply w chat_id text
  else
    match first_file_id (ev_parts ev) with
    | Some file_id => process_file_by_id w chat_id file_id
    | None =>
        if negb (String.eqb text "")
           && (PyStr.contains "files.myteam.mail.ru" text
               || PyStr.contains "myteam.mail.ru" text)
        then
          match truthy_str (file_id_from_parts (ev_data_parts ev)) with
          | Some file_id => process_file_by_id w chat_id file_id
          | None => process_file_by_url w chat_id text
          end
        else
          match first_file_id (ev_data_parts ev) with
          | Some file_id => process_file_by_id w chat_id file_id
          | None => run_command w chat_id (command text)
          end
    end.

(** [on_button_click_async], by the chat and the callback data of the
    event; the answer to the callback query is not part of the replies. *)
Definition on_button_click_async (today : date) (w : world) (chat_id callback_data : string)
  : handled :=
  if String.eqb callback_data "cmd_status" then show_status w chat_id
  else if String.eqb callback_data "cmd_help" then say chat_id Help w
  else if String.eqb callback_data "cmd_schedule" then
    match send_schedule (data_file w) today chat_id with
    | Raise e => Failed e [] w
    | Ok s => say chat_id (Schedule s) w
    end
  else if String.eqb callback_data "cmd_notifications" then
    say chat_id AskThreshold
      {| data_file := data_file w;
         pending_state := <[chat_id := "awaiting_threshold"]> (pending_state w) |}
  else if String.eqb callback_data "cmd_set_channel" then set_channel w chat_id
  else Done [] w.

End WithLibrary.
End Handlers.

(** ** The order of the schedule *)
Module ScheduleOrder.
Import PyDate Storage Views.

(** The lines come by ascending notify date. *)
Fixpoint ascending (l : list schedule_line) : Prop :=
  match l with
  | [] => True
  | x :: rest =>
      Forall (fun y => toordinal (notify_date x) <= toordinal (notify_date y)) rest
      ∧ ascending rest
  end.

(** The records [send_schedule] and [send_status] read for a chat. *)
Definition shown_vacations (data : store) (chat_id : string) : list vacation :=
  match vacations data with
  | PerChat m => default [] (m !! chat_id)
  | Legacy l => l
  end.

End ScheduleOrder.

(** ** The daily timer: [notifier_loop] *)
Module Loop.
Import PyDate.

(** [now.replace(hour=9, minute=0, second=0, microsecond=0)] *)
Definition at_nine (now : datetime) : datetime := mkdatetime (dt_date now) 9 0 0 0.

(** The order of two [datetime]s: field by field, from the year on. *)
Fixpoint lex_le (a b : list Z) : bool :=
  match a, b with
  | x :: a', y :: b' => (x <? y) || ((x =? y) && lex_le a' b')
  | _, _ => true
  end.

Definition fields_of (dt : datetime) : list Z :=
  [year (dt_date dt); month (dt_date dt); day (dt_date dt);
   hour dt; minute dt; second dt; microsecond dt].

(** [a >= b] *)
Definition dt_ge (a b : datetime) : bool := lex_le (fields_of b) (fields_of a).

Definition seconds_of_day (dt : datetime) : Z :=
  second dt + minute dt * 60 + hour dt * 3600.

(** [a - b], the [timedelta] in microseconds; [total_seconds()] is this
    count divided by [10**6]. *)
Definition sub_us (a b : datetime) : Z :=
  ((toordinal (dt_date a) - toordinal (dt_date b)) * 86400
   + (seconds_of_day a - seconds_of_day b)) * 1000000
  + (microsecond a - microsecond b).

(** The head of the loop body: the next run and the time to sleep. *)
Definition next_run (now : datetime) : result (datetime * Z) :=
  let next := at_nine now in
  let? next := if dt_ge now next then add_days next 1 else Ok next in
  Ok (next, sub_us next now).

(** What one turn of the loop does: sleep and run the pass, or, on an
    exception, sleep an hour. *)
Inductive turn :=
| SleepThenScan (next : datetime) (wait_us : Z)
| SleepAnHour (e : exn).

Definition loop_turn (now : datetime) : turn :=
  match next_run now with
  | Ok (next, wait_us) => SleepThenScan next wait_us
  | Raise e => SleepAnHour e
  end.

(** The fields the [datetime] constructor accepts. *)
Definition valid_datetime (dt : datetime) : Prop :=
  valid_date (year (dt_date dt)) (month (dt_date dt)) (day (dt_date dt)) = true
  ∧ 0 <= hour dt < 24 ∧ 0 <= minute dt < 60 ∧ 0 <= second dt < 60
  ∧ 0 <= microsecond dt < 1000000.

End Loop.

(** ** The text of a stored date *)
Module DateText.
Import PyStr PyDate.

(** [str(y)] is four digits that read as [y]. *)
Definition four_digits (y : Z) : bool :=
  match of_Z y with
  | String a (String b (String c (String d EmptyString))) =>
      is_digit a && is_digit b && is_digit c && is_digit d
      && (1000 * dv a + 100 * dv b + 10 * dv c + dv d =? y)
  | _ => false
  end.

(** The rest of a stored date, after the year, reads back as the month and
    the day. *)
Definition reads_back (y m d : Z) : bool :=
  match re_match [TLit "-"; TMonth; TLit "-"; TDay]
          ("-" ++ zfill 2 m ++ "-" ++ zfill 2 d) (mkfields y 1 1) with
  | Some (f, EmptyString) => (f_year f =? y) && (f_month f =? m) && (f_day f =? d)
  | _ => false
  end.

End DateText.

(** ** Sample data *)
Module SheetExamples.
Import PyDate Sheet Parser.

(** A roster with a title row, a keyword header and four data rows: a
    well-formed one, one with a text in the days column, one with an empty
    days cell and a native date, and one with an impossible date. *)
Definition with_header : grid :=
  [ [CStr "График отпусков"; CNa NaN; CNa NaN; CNa NaN];
    [CStr "ФИО Сотрудника"; CStr "Организация"; CStr "Кол-во дней"; CStr "Дата начала"];
    [CStr "Иванов И.И."; CStr "ООО Ромашка"; CInt 14; CStr "01.03.2024"];
    [CStr "Петров П.П."; CStr "ООО Ромашка"; CStr "две недели"; CStr "2024-03-05"];
    [CStr "Сидоров С.С."; CStr "ООО Ромашка"; CNa NaN; CTimestamp (midnight (mkdate 2024 12 25))];
    [CStr "Фёдоров Ф.Ф."; CStr "ООО Ромашка"; CFloat "7.0"; CStr "32.01.2024"] ].

(** A header followed only by rows without a name. *)
Definition header_only : grid :=
  [ [CStr "ФИО"; CStr "Организация"; CStr "Кол-во дней"; CStr "Дата"];
    [CNa NaN; CStr "итого"; CInt 0; CNa NaN];
    [CInt 1; CInt 2; CInt 3; CInt 4] ].

(** Nothing that looks like a header or like a data row. *)
Definition no_layout : grid :=
  [ [CStr "Отчёт"; CNa NaN]; [CInt 1; CStr "строка"]; [CNa NaN; CNa NaN] ].

(** A data row with two small integers before the date. *)
Definition two_counts : row :=
  [CStr "Иванов И.И."; CInt 5; CInt 14; CStr "01.03.2024"].

Definition layout_0123 : col_map :=
  {| cm_fio := 0; cm_org := 1; cm_days := 2; cm_start_date := 3 |}.

End SheetExamples.

Module Examples.
Import PyDate Storage Notifier.

Definition june1 : date := mkdate 2024 6 1.

Definition starting (s e : string) : vacation :=
  {| fio := "Иванов И.И."; org := "ООО Ромашка"; days := 14; start_date := s; end_date := e |}.

(** Three records: 4 days ahead of 2024-06-01, 9 days ahead, 2 days past. *)
Definition roster : list vacation :=
  [ starting "2024-06-05" "2024-06-19";
    starting "2024-06-10" "2024-06-24";
    starting "2024-05-30" "2024-06-13" ].

Definition lead7 : gmap string chat_settings := {[ "chat1" := mkchat_settings (Some 7) ]}.

Definition fresh_store : store :=
  {| vacations := PerChat {[ "chat1" := roster ]};
     settings := lead7;
     hr_chat_id := Some "chat1";
     notifications := PerChat ∅ |}.

(** The same store after the reminder for record 0 went out on 2024-05-31. *)
Definition reminded_yesterday : store :=
  {| vacations := PerChat {[ "chat1" := roster ]};
     settings := lead7;
     hr_chat_id := Some "chat1";
     notifications := PerChat {[ "chat1" := [mknotification 0 "2024-05-31"] ]} |}.

(** A document in the legacy format: one flat list of records. *)
Definition legacy_store : store :=
  {| vacations := Legacy roster;
     settings := lead7;
     hr_chat_id := None;
     notifications := Legacy [mknotification 0 "2024-05-31"] |}.

Definition migrated (data : store) : store :=
  {| vacations := PerChat (as_dict (vacations data));
     settings := settings data;
     hr_chat_id := hr_chat_id data;
     notifications := PerChat (as_dict (notifications data)) |}.

End Examples.

(** More sample data: transports and stores for the handlers. *)
Module MoreExamples.
Import PyDate Storage Notifier Examples.

(** A transport on which every send fails. *)
Definition never (chat_id : string) (idx : nat) : bool := false.

(** A transport that delivers the reminder of record 1 only. *)
Definition only_second (chat_id : string) (idx : nat) : bool := (idx =? 1)%nat.

Definition lead14 : gmap string chat_settings :=
  {[ "chat1" := mkchat_settings (Some 14) ]}.

(** Two chats with the same roster and different leads. *)
Definition two_chats : store :=
  {| vacations := PerChat (<[ "chat2" := roster ]> {[ "chat1" := roster ]});
     settings := <[ "chat2" := mkchat_settings (Some 14) ]> lead7;
     hr_chat_id := None;
     notifications := PerChat ∅ |}.

(** The file server: one known file id, served from one URL. *)
Definition file_server (file_id : string) : result Handlers.file_info :=
  if String.eqb file_id "f1"
  then Ok (Handlers.mkfile_info true (Some "https://files.example/f1"))
  else Ok (Handlers.mkfile_info false None).

Definition downloads (url : string) : Upload.upload :=
  if String.eqb url "https://files.example/f1"
  then Upload.Downloaded (Ok SheetExamples.with_header)
  else Upload.DownloadFailed.

(** A sheet without header keywords whose first row names a company
    "Infinity". *)
Definition infinity_sheet : Sheet.grid :=
  [ [Sheet.CStr "Иванов И.И."; Sheet.CStr "Infinity"; Sheet.CInt 14;
     Sheet.CStr "01.03.2024"];
    [Sheet.CStr "Петров П.П."; Sheet.CStr "ООО Ромашка"; Sheet.CInt 7;
     Sheet.CStr "05.03.2024"] ].

(** A transport on which every reply goes through, and one that loses
    the report of a loaded file. *)
Definition reliable (chat_id : string) (m : Handlers.message) : option exn := None.


Definition xlsx_message (chat_id : string) : Handlers.event :=
  Handlers.mkevent chat_id "" [Handlers.mkpart (Some "file") (Some "f1")] [].

Definition text_message (chat_id text : string) : Handlers.event :=
  Handlers.mkevent chat_id text [] [].

Definition idle (data : store) : Upload.world :=
  {| Upload.data_file := Stored data; Upload.pending_state := ∅ |}.

Definition awaiting (chat_id : string) (data : store) : Upload.world :=
  {| Upload.data_file := Stored data;
     Upload.pending_state := {[ chat_id := "awaiting_threshold" ]} |}.

End MoreExamples.

(** * Properties *)

(** ** The dedup key *)
Section KeyFacts.
Import PyDate Storage Notifier.

Lemma append_length (s t : string) :
  String.length (s ++ t)%string = (String.length s + String.length t)%nat.
Proof. induction s as [|c s IH]; simpl; [done|]. by rewrite IH. Qed.

Lemma append_inj_r (s1 s2 t : string) : (s1 ++ t = s2 ++ t)%string → s1 = s2.
Proof.
  revert s2. induction s1 as [|c s1 IH]; intros [|c' s2] H; simpl in *.
  - done.
  - apply (f_equal String.length) in H.
    change (String.length t = S (String.length (s2 ++ t)%string)) in H.
    rewrite append_length in H. lia.
  - apply (f_equal String.length) in H.
    change (S (String.length (s1 ++ t)%string) = String.length t) in H.
    rewrite append_length in H. lia.
  - injection H as -> H. f_equal. by apply IH.
Qed.

Lemma to_int_not_nil z :
  Z.to_int z ≠ Decimal.Pos Decimal.Nil ∧ Z.to_int z ≠ Decimal.Neg Decimal.Nil.
Proof.
  split; intros H; pose proof (f_equal Z.of_int H) as H';
    rewrite DecimalZ.of_to in H'; simpl in H'; subst z; discriminate H.
Qed.

(** [str] of an [int] tells the integers apart. *)
Lemma of_Z_inj a b : PyStr.of_Z a = PyStr.of_Z b → a = b.
Proof.
  unfold PyStr.of_Z. intros H.
  apply (f_equal NilZero.int_of_string) in H.
  destruct (to_int_not_nil a), (to_int_not_nil b).
  rewrite !NilZero.isi in H by done.
  injection H as H. by apply DecimalZ.to_int_inj.
Qed.

(** On one day, two keys are equal only for equal indices. *)
Lemma key_inj today a b : key a today = key b today → a = b.
Proof. unfold key. intros H. apply append_inj_r in H. by apply of_Z_inj. Qed.

Lemma key_in_notified today id log :
  key id today ∈ notified_keys today log ↔ ∃ e, e ∈ log ∧ vacation_id e = id.
Proof.
  unfold notified_keys. rewrite elem_of_list_to_set, list_elem_of_fmap. split.
  - intros (e & He & Hin). exists e. split; [done|]. symmetry. by eapply key_inj.
  - intros (e & Hin & <-). by exists e.
Qed.

End KeyFacts.

(** ** The scan of one chat *)
Section ScanFacts.
Import PyDate Storage Notifier.

Variable today : date.
Variable delivers : string -> nat -> bool.

(** What one turn of the loop over the records can do. *)
Lemma check_vacation_cases chat_id n idx v S sc :
  (check_vacation today delivers chat_id n idx v (S, sc) = (S, sc)
   ∧ (due today n v = false ∨ key (Z.of_nat idx) today ∈ S))
  ∨ (∃ d, days_left today v = Ok d ∧ due today n v = true
        ∧ (key (Z.of_nat idx) today ∉ S) ∧ delivers chat_id idx = true
        ∧ check_vacation today delivers chat_id n idx v (S, sc) =
            ({[ key (Z.of_nat idx) today ]} ∪ S,
             {| all_notifications :=
                  <[chat_id := log_of sc chat_id
                               ++ [mknotification (Z.of_nat idx) (isoformat today)]]>
                    (all_notifications sc);
                sent_count := Datatypes.S (sent_count sc);
                outbox := outbox sc ++ [mksent chat_id idx (reminder v d) true] |}))
  ∨ (∃ d, days_left today v = Ok d ∧ due today n v = true
        ∧ (key (Z.of_nat idx) today ∉ S) ∧ delivers chat_id idx = false
        ∧ check_vacation today delivers chat_id n idx v (S, sc) =
            (S, {| all_notifications := all_notifications sc;
                   sent_count := sent_count sc;
                   outbox := outbox sc ++ [mksent chat_id idx (reminder v d) false] |})).
Proof.
  unfold check_vacation, due, log_of.
  destruct (days_left today v) as [d|e]; [|left; auto].
  destruct ((0 <=? d) && (d <=? n)) eqn:Hw; [|left; auto].
  destruct (decide (key (Z.of_nat idx) today ∈ S)) as [Hin|Hin]; [left; auto|].
  destruct (delivers chat_id idx) eqn:Hd.
  - right; left. exists d. auto.
  - right; right. exists d. auto.
Qed.

Lemma notified_keys_snoc log e :
  notified_keys today (log ++ [e]) = notified_keys today log ∪ {[ key (vacation_id e) today ]}.
Proof.
  unfold notified_keys. rewrite fmap_app, list_to_set_app_L. simpl. set_solver.
Qed.

(** The state only grows along the records of a chat, and only that chat's
    log is written. *)
Lemma scan_vacations_grows chat_id n vs : ∀ idx S sc,
  ∀ r, r = scan_vacations today delivers chat_id n idx vs (S, sc) →
  outbox sc `prefix_of` outbox r.2
  ∧ S ⊆ r.1
  ∧ (sent_count sc ≤ sent_count r.2)%nat
  ∧ (∀ c, c ≠ chat_id → all_notifications r.2 !! c = all_notifications sc !! c)
  ∧ (sent_count r.2 = sent_count sc → all_notifications r.2 = all_notifications sc).
Proof.
  induction vs as [|v vs IH]; intros idx S sc r ->; simpl.
  - repeat split; auto.
  - destruct (check_vacation_cases chat_id n idx v S sc)
      as [[-> _]|[(d & _ & _ & _ & _ & ->)|(d & _ & _ & _ & _ & ->)]].
    + by eapply IH.
    + specialize (IH (Datatypes.S idx) ({[ key (Z.of_nat idx) today ]} ∪ S)
        {| all_notifications :=
             <[chat_id := log_of sc chat_id
                          ++ [mknotification (Z.of_nat idx) (isoformat today)]]>
               (all_notifications sc);
           sent_count := Datatypes.S (sent_count sc);
           outbox := outbox sc ++ [mksent chat_id idx (reminder v d) true] |} _ eq_refl).
      simpl in IH. destruct IH as (Ho & HS & Hc & Hn & _).
      repeat split.
      * etrans; [|exact Ho]. by apply prefix_app_r.
      * set_solver.
      * lia.
      * intros c Hne. rewrite Hn by done. by rewrite lookup_insert_ne.
      * intros Heq. lia.
    + specialize (IH (Datatypes.S idx) S
        {| all_notifications := all_notifications sc;
           sent_count := sent_count sc;
           outbox := outbox sc ++ [mksent chat_id idx (reminder v d) false] |} _ eq_refl).
      simpl in IH. destruct IH as (Ho & HS & Hc & Hn & He).
      repeat split; auto.
      etrans; [|exact Ho]. by apply prefix_app_r.
Qed.

(** A chat all of whose due records already have their key in the set is
    passed over without any effect. *)
Lemma scan_vacations_quiet chat_id n vs : ∀ idx S sc,
  (∀ j v, vs !! j = Some v → due today n v = true →
          key (Z.of_nat (idx + j)) today ∈ S) →
  scan_vacations today delivers chat_id n idx vs (S, sc) = (S, sc).
Proof.
  induction vs as [|v vs IH]; intros idx S sc Hq; simpl; [done|].
  destruct (check_vacation_cases chat_id n idx v S sc)
    as [[-> _]|[(d & _ & Hdue & Hnot & _)|(d & _ & Hdue & Hnot & _)]].
  - apply IH. intros j w Hj Hw.
    replace (Datatypes.S idx + j)%nat with (idx + Datatypes.S j)%nat by lia.
    by apply (Hq (Datatypes.S j) w).
  - exfalso. apply Hnot. specialize (Hq 0%nat v eq_refl Hdue).
    by rewrite Nat.add_0_r in Hq.
  - exfalso. apply Hnot. specialize (Hq 0%nat v eq_refl Hdue).
    by rewrite Nat.add_0_r in Hq.
Qed.

(** After a scan of a chat in which every send went through, every due
    record has its key among the keys of the chat's log. *)
Lemma scan_vacations_delivered chat_id n vs : ∀ idx S sc,
  ∀ r, r = scan_vacations today delivers chat_id n idx vs (S, sc) →
  all_delivered (outbox r.2) →
  S ⊆ notified_keys today (log_of sc chat_id) →
  r.1 ⊆ notified_keys today (log_of r.2 chat_id)
  ∧ (∀ j v, vs !! j = Some v → due today n v = true →
            key (Z.of_nat (idx + j)) today ∈ r.1).
Proof.
  induction vs as [|v vs IH]; intros idx S sc r ->; simpl.
  - intros _ HS. split; [done|]. intros j v Hj. by rewrite lookup_nil in Hj.
  - pose proof (scan_vacations_grows chat_id n vs (Datatypes.S idx)
                  (check_vacation today delivers chat_id n idx v (S, sc)).1
                  (check_vacation today delivers chat_id n idx v (S, sc)).2 _ eq_refl) as Hg.
    rewrite <- surjective_pairing in Hg.
    destruct Hg as (Hpre & Hsub & _).
    specialize (IH (Datatypes.S idx)
                  (check_vacation today delivers chat_id n idx v (S, sc)).1
                  (check_vacation today delivers chat_id n idx v (S, sc)).2 _ eq_refl).
    rewrite <- surjective_pairing in IH.
    intros Hall HS.
    destruct (check_vacation_cases chat_id n idx v S sc)
      as [[Heq Hcase]|[(d & _ & Hdue & Hnot & _ & Heq)|(d & _ & Hdue & Hnot & _ & Heq)]];
      rewrite Heq in *; simpl in *.
    + destruct (IH Hall HS) as [IH1 IH2]. split; [done|].
      intros [|j] w Hj Hw; simpl in Hj.
      * injection Hj as <-. rewrite Nat.add_0_r.
        destruct Hcase as [Hf|Hin]; [congruence|]. by apply Hsub.
      * replace (idx + Datatypes.S j)%nat with (Datatypes.S idx + j)%nat by lia.
        by apply (IH2 j w).
    + destruct (IH Hall) as [IH1 IH2].
      { unfold log_of at 1. simpl. rewrite lookup_insert_eq. simpl.
        rewrite notified_keys_snoc. simpl. set_solver. }
      split; [done|].
      intros [|j] w Hj Hw; simpl in Hj.
      * rewrite Nat.add_0_r. apply Hsub. set_solver.
      * replace (idx + Datatypes.S j)%nat with (Datatypes.S idx + j)%nat by lia.
        by apply (IH2 j w).
    + exfalso. unfold all_delivered in Hall.
      eapply Forall_forall in Hall.
      2:{ eapply elem_of_prefix; [|exact Hpre]. apply elem_of_app. right.
          apply list_elem_of_singleton. reflexivity. }
      simpl in Hall. congruence.
Qed.

(** ** The loop over the chats *)

Lemma scan_chat_grows avac sc chat_id cs :
  outbox sc `prefix_of` outbox (scan_chat today delivers avac sc (chat_id, cs))
  ∧ (sent_count sc ≤ sent_count (scan_chat today delivers avac sc (chat_id, cs)))%nat
  ∧ (∀ c, c ≠ chat_id →
       all_notifications (scan_chat today delivers avac sc (chat_id, cs)) !! c
       = all_notifications sc !! c)
  ∧ (sent_count (scan_chat today delivers avac sc (chat_id, cs)) = sent_count sc →
       all_notifications (scan_chat today delivers avac sc (chat_id, cs))
       = all_notifications sc).
Proof.
  unfold scan_chat.
  destruct (String.eqb chat_id "hr_chat_id"); [by repeat split|].
  destruct (notify_days cs) as [[|n|n]|]; try by repeat split.
  - edestruct (scan_vacations_grows chat_id (Z.pos n)) as (H1 & _ & H3 & H4 & H5);
      [reflexivity|]. by repeat split.
  - edestruct (scan_vacations_grows chat_id (Z.neg n)) as (H1 & _ & H3 & H4 & H5);
      [reflexivity|]. by repeat split.
Qed.

Lemma scan_chat_quiet avac sc chat_id cs :
  settled today avac (all_notifications sc) chat_id cs →
  scan_chat today delivers avac sc (chat_id, cs) = sc.
Proof.
  intros Hs. unfold scan_chat.
  destruct (String.eqb_spec chat_id "hr_chat_id") as [|Hne]; [done|].
  destruct (notify_days cs) as [n|] eqn:Hn; [|done].
  assert (n = 0 ∨ n ≠ 0) as [->|Hnz] by lia; [done|].
  rewrite scan_vacations_quiet; [by destruct n|].
  intros j v Hj Hd. by apply (Hs n j v).
Qed.

Lemma scan_chat_delivered avac sc chat_id cs :
  all_delivered (outbox (scan_chat today delivers avac sc (chat_id, cs))) →
  settled today avac (all_notifications (scan_chat today delivers avac sc (chat_id, cs))) chat_id cs.
Proof.
  intros Hall n j v Hne Hn Hnz Hj Hd. revert Hall. unfold scan_chat.
  destruct (String.eqb_spec chat_id "hr_chat_id") as [|_]; [done|].
  rewrite Hn.
  set (r := scan_vacations today delivers chat_id n 0
              (default [] (avac !! chat_id))
              (notified_keys today (default [] (all_notifications sc !! chat_id)), sc)).
  intros Hall.
  assert (all_delivered (outbox r.2)) as Hall' by (by destruct n).
  destruct (scan_vacations_delivered chat_id n _ _ _ _ r eq_refl Hall') as [H1 H2];
    [done|].
  replace (match n with 0 => sc | _ => r.2 end) with r.2 by (by destruct n).
  apply H1. by apply (H2 j v).
Qed.

Lemma scan_all_grows avac items : ∀ sc,
  outbox sc `prefix_of` outbox (scan_all today delivers avac sc items)
  ∧ (sent_count sc ≤ sent_count (scan_all today delivers avac sc items))%nat
  ∧ (∀ c, c ∉ items.*1 →
       all_notifications (scan_all today delivers avac sc items) !! c = all_notifications sc !! c)
  ∧ (sent_count (scan_all today delivers avac sc items) = sent_count sc →
       all_notifications (scan_all today delivers avac sc items) = all_notifications sc).
Proof.
  unfold scan_all.
  induction items as [|[c cs] items IH]; intros sc; simpl; [by repeat split|].
  destruct (IH (scan_chat today delivers avac sc (c, cs))) as (H1 & H2 & H3 & H4).
  destruct (scan_chat_grows avac sc c cs) as (G1 & G2 & G3 & G4).
  repeat split.
  - by etrans.
  - lia.
  - intros c' Hc'. rewrite H3 by set_solver. apply G3. set_solver.
  - intros Heq. rewrite H4 by lia. apply G4. lia.
Qed.

Lemma scan_all_quiet avac sc items :
  (∀ c cs, (c, cs) ∈ items → settled today avac (all_notifications sc) c cs) →
  scan_all today delivers avac sc items = sc.
Proof.
  unfold scan_all.
  induction items as [|[c cs] items IH]; intros Hs; simpl; [done|].
  rewrite scan_chat_quiet by (apply Hs; set_solver).
  apply IH. intros c' cs' Hin. apply Hs. set_solver.
Qed.

Lemma settled_ext avac log1 log2 c cs :
  log1 !! c = log2 !! c → settled today avac log1 c cs → settled today avac log2 c cs.
Proof. unfold settled. intros <-. done. Qed.

Lemma scan_all_delivered avac items : ∀ sc,
  NoDup items.*1 →
  all_delivered (outbox (scan_all today delivers avac sc items)) →
  ∀ c cs, (c, cs) ∈ items →
    settled today avac (all_notifications (scan_all today delivers avac sc items)) c cs.
Proof.
  unfold scan_all.
  induction items as [|[c0 cs0] items IH]; intros sc Hnd Hall c cs Hin.
  - by apply elem_of_nil in Hin.
  - simpl in Hnd. apply NoDup_cons in Hnd as [Hfresh Hnd]. simpl in *.
    apply elem_of_cons in Hin as [Heq|Hin].
    + injection Heq as -> ->.
      destruct (scan_all_grows avac items (scan_chat today delivers avac sc (c0, cs0)))
        as (G1 & _ & G3 & _). unfold scan_all in G1, G3.
      eapply settled_ext; [symmetry; by apply G3|].
      apply scan_chat_delivered.
      unfold all_delivered in *. rewrite Forall_forall in Hall |- *.
      intros e He. apply Hall. by eapply elem_of_prefix.
    + by apply IH.
Qed.

(** ** Which reminders a pass sends *)

Lemma scan_vacations_attempts chat_id n vs : ∀ idx S sc j v,
  vs !! j = Some v → due today n v = true →
  key (Z.of_nat (idx + j)) today ∉ S →
  ∃ d ok, days_left today v = Ok d
    ∧ mksent chat_id (idx + j) (reminder v d) ok
      ∈ outbox (scan_vacations today delivers chat_id n idx vs (S, sc)).2.
Proof.
  induction vs as [|v0 vs IH]; intros idx S sc j v Hj Hd Hk; [done|].
  simpl. destruct j as [|j]; simpl in Hj.
  - injection Hj as ->. rewrite Nat.add_0_r in *.
    destruct (scan_vacations_grows chat_id n vs (Datatypes.S idx)
                (check_vacation today delivers chat_id n idx v (S, sc)).1
                (check_vacation today delivers chat_id n idx v (S, sc)).2 _ eq_refl)
      as (Hpre & _).
    rewrite <- surjective_pairing in Hpre.
    destruct (check_vacation_cases chat_id n idx v S sc)
      as [[_ [H|H]]|[(d & Hl & _ & _ & _ & Heq)|(d & Hl & _ & _ & _ & Heq)]];
      [congruence|done| |];
      rewrite Heq in *; simpl in Hpre;
      eexists d, _; (split; [done|]);
      (eapply elem_of_prefix; [|exact Hpre]); apply elem_of_app; right;
      apply list_elem_of_singleton; reflexivity.
  - replace (idx + Datatypes.S j)%nat with (Datatypes.S idx + j)%nat in * by lia.
    rewrite (surjective_pairing (check_vacation today delivers chat_id n idx v0 (S, sc))).
    apply IH; [done|done|].
    destruct (check_vacation_cases chat_id n idx v0 S sc)
      as [[-> _]|[(d & _ & _ & _ & _ & ->)|(d & _ & _ & _ & _ & ->)]]; simpl; [done| |done].
    intros [Heq|Hin]%elem_of_union; [|done].
    apply elem_of_singleton, key_inj in Heq. lia.
Qed.

Lemma scan_vacations_outbox chat_id n vs : ∀ idx S sc ev,
  ev ∈ outbox (scan_vacations today delivers chat_id n idx vs (S, sc)).2 →
  ev ∈ outbox sc
  ∨ (to_chat ev = chat_id ∧ key (Z.of_nat (for_idx ev)) today ∉ S).
Proof.
  induction vs as [|v vs IH]; intros idx S sc ev; simpl; [by left|].
  rewrite (surjective_pairing (check_vacation today delivers chat_id n idx v (S, sc))).
  intros [Hin|[Hc Hk]]%IH.
  - destruct (check_vacation_cases chat_id n idx v S sc)
      as [[Heq _]|[(d & _ & _ & Hnot & _ & Heq)|(d & _ & _ & Hnot & _ & Heq)]];
      rewrite Heq in Hin; simpl in Hin; [by left| |];
      (apply elem_of_app in Hin as [Hin|Hin]; [by left|]);
      apply list_elem_of_singleton in Hin as ->; by right.
  - right. split; [done|].
    destruct (check_vacation_cases chat_id n idx v S sc)
      as [[Heq _]|[(d & _ & _ & _ & _ & Heq)|(d & _ & _ & _ & _ & Heq)]];
      rewrite Heq in Hk; simpl in Hk; set_solver.
Qed.

Lemma scan_chat_attempts avac sc chat_id cs n vs j v :
  chat_id ≠ "hr_chat_id" → notify_days cs = Some n → n ≠ 0 →
  avac !! chat_id = Some vs → vs !! j = Some v → due today n v = true →
  (∀ e, e ∈ log_of sc chat_id → vacation_id e ≠ Z.of_nat j) →
  ∃ d ok, days_left today v = Ok d
    ∧ mksent chat_id j (reminder v d) ok
      ∈ outbox (scan_chat today delivers avac sc (chat_id, cs)).
Proof.
  intros Hne Hn Hnz Hvs Hj Hd Hlog. unfold scan_chat.
  destruct (String.eqb_spec chat_id "hr_chat_id") as [|_]; [done|].
  rewrite Hn, Hvs. simpl.
  destruct (scan_vacations_attempts chat_id n vs 0
              (notified_keys today (default [] (all_notifications sc !! chat_id)))
              sc j v Hj Hd) as (d & ok & Hl & Hin).
  { rewrite key_in_notified. intros (e & He & Hid). by apply (Hlog e). }
  exists d, ok. split; [done|]. by destruct n.
Qed.

Lemma scan_chat_outbox avac sc chat_id cs ev :
  ev ∈ outbox (scan_chat today delivers avac sc (chat_id, cs)) →
  ev ∈ outbox sc
  ∨ (to_chat ev = chat_id
     ∧ ∀ e, e ∈ log_of sc chat_id → vacation_id e ≠ Z.of_nat (for_idx ev)).
Proof.
  unfold scan_chat.
  destruct (String.eqb chat_id "hr_chat_id"); [by left|].
  destruct (notify_days cs) as [n|]; [|by left].
  assert (ev ∈ outbox (scan_vacations today delivers chat_id n 0
                         (default [] (avac !! chat_id))
                         (notified_keys today (default [] (all_notifications sc !! chat_id)), sc)).2
          → ev ∈ outbox sc
            ∨ to_chat ev = chat_id
              ∧ ∀ e, e ∈ log_of sc chat_id → vacation_id e ≠ Z.of_nat (for_idx ev)) as H.
  { intros [Hin|[Hc Hk]]%scan_vacations_outbox; [by left|]. right. split; [done|].
    intros e He Hid. apply Hk. apply key_in_notified. by exists e. }
  destruct n; auto.
Qed.

Lemma scan_all_attempts avac items chat_id cs n vs j v : ∀ sc,
  NoDup items.*1 → (chat_id, cs) ∈ items →
  chat_id ≠ "hr_chat_id" → notify_days cs = Some n → n ≠ 0 →
  avac !! chat_id = Some vs → vs !! j = Some v → due today n v = true →
  (∀ e, e ∈ log_of sc chat_id → vacation_id e ≠ Z.of_nat j) →
  ∃ d ok, days_left today v = Ok d
    ∧ mksent chat_id j (reminder v d) ok
      ∈ outbox (scan_all today delivers avac sc items).
Proof.
  unfold scan_all.
  induction items as [|[c0 cs0] items IH]; intros sc Hnd Hin Hne Hn Hnz Hvs Hj Hd Hlog.
  { by apply elem_of_nil in Hin. }
  simpl in *. apply NoDup_cons in Hnd as [Hfresh Hnd].
  apply elem_of_cons in Hin as [[= <- <-]|Hin].
  - destruct (scan_chat_attempts avac sc chat_id cs n vs j v) as (d & ok & Hl & He);
      try done.
    exists d, ok. split; [done|].
    destruct (scan_all_grows avac items (scan_chat today delivers avac sc (chat_id, cs)))
      as (Hpre & _). by eapply elem_of_prefix.
  - apply IH; try done.
    intros e He. apply Hlog. unfold log_of in *.
    destruct (scan_chat_grows avac sc c0 cs0) as (_ & _ & Hsame & _).
    rewrite Hsame in He; [done|].
    intros ->. apply Hfresh. apply list_elem_of_fmap. by exists (c0, cs).
Qed.

Lemma scan_all_outbox avac items : ∀ sc ev,
  NoDup items.*1 →
  ev ∈ outbox (scan_all today delivers avac sc items) →
  ev ∈ outbox sc
  ∨ (to_chat ev ∈ items.*1
     ∧ ∀ e, e ∈ log_of sc (to_chat ev) → vacation_id e ≠ Z.of_nat (for_idx ev)).
Proof.
  unfold scan_all.
  induction items as [|[c0 cs0] items IH]; intros sc ev Hnd; simpl; [by left|].
  apply NoDup_cons in Hnd as [Hfresh Hnd].
  intros [Hin|[Hc Hlog]]%IH; [|clear IH|done].
  - apply scan_chat_outbox in Hin as [Hin|[Hc Hlog]]; [by left|].
    right. rewrite Hc. split; [by left|done].
  - right. split; [by right|].
    intros e He. apply Hlog. unfold log_of in *.
    destruct (scan_chat_grows avac sc c0 cs0) as (_ & _ & Hsame & _).
    rewrite Hsame; [done|]. intros Heq. by rewrite Heq in Hc.
Qed.

End ScanFacts.

Section DailyScan.
Import PyDate Storage Notifier.

Lemma load_data_total f : ∃ data, load_data f = Ok data.
Proof. destruct f; simpl; eauto. Qed.

(** A pass over a document in which every chat is settled sends nothing
    and leaves the file as it is. *)
Lemma send_notifications_quiet today delivers f data :
  load_data f = Ok data →
  (∀ c cs, settings data !! c = Some cs →
     settled today (as_dict (vacations data)) (as_dict (notifications data)) c cs) →
  send_notifications today delivers f = Ok (f, []).
Proof.
  intros Hload Hs. unfold send_notifications. rewrite Hload. simpl.
  unfold run_scan. rewrite scan_all_quiet; [done|].
  intros c cs Hin. apply Hs. by apply elem_of_map_to_list.
Qed.

(** C2. Running the scan-and-send pass twice on the same calendar day over
    the same store, with every send of the first run succeeding, sends
    nothing in the second run: the second pass makes no call of
    [bot.send_text] and leaves the file unchanged, whatever the transport
    would do. *)
Theorem second_scan_same_day_sends_nothing today d1 d2 f f1 out1 :
  send_notifications today d1 f = Ok (f1, out1) →
  all_delivered out1 →
  send_notifications today d2 f1 = Ok (f1, []).
Proof.
  unfold send_notifications at 1.
  destruct (load_data_total f) as [data Hload]. rewrite Hload. simpl.
  set (sc := run_scan today d1 data).
  assert (∀ c cs, settings data !! c = Some cs → all_delivered (outbox sc) →
            settled today (as_dict (vacations data)) (all_notifications sc) c cs) as Hset.
  { intros c cs Hin Hall. apply scan_all_delivered; [| exact Hall |].
    - apply NoDup_fst_map_to_list.
    - by apply elem_of_map_to_list. }
  destruct (sent_count sc =? 0)%nat eqn:Hcnt; intros [= <- <-] Hall.
  - apply Nat.eqb_eq in Hcnt.
    destruct (scan_all_grows today d1 (as_dict (vacations data))
                (map_to_list (settings data))
                (mkscan (as_dict (notifications data)) 0 [])) as (_ & _ & _ & Hsame).
    fold (run_scan today d1 data) in Hsame. fold sc in Hsame. simpl in Hsame.
    apply (send_notifications_quiet today d2 f data Hload).
    intros c cs Hin. rewrite <- Hsame by done. by apply Hset.
  - eapply send_notifications_quiet; [reflexivity|].
    simpl. intros c cs Hin. by apply Hset.
Qed.

End DailyScan.

Section DailyScanClaims.
Import PyDate Storage Notifier Examples.

Lemma second_scan_same_day_sends_nothing_witness :
  ∃ f1 out1,
    send_notifications june1 always (Stored fresh_store) = Ok (f1, out1)
    ∧ for_idx <$> out1 = [0%nat]
    ∧ send_notifications june1 always f1 = Ok (f1, []).
Proof.
  eexists _, _. split; [vm_compute; reflexivity|]. split; [reflexivity|].
  eapply (second_scan_same_day_sends_nothing june1 always always (Stored fresh_store)).
  - vm_compute. reflexivity.
  - repeat constructor.
Defined.

(** C1, as the claim states it, fails: on 2024-06-01, with lead 7, the
    record starting 2024-06-05 is inside the window and the log of the chat
    has no entry sent today, only one of 2024-05-31 for the record's index;
    the pass sends nothing and leaves the file alone. *)
Lemma prior_day_entry_suppresses_today :
  settings reminded_yesterday !! "chat1" = Some (mkchat_settings (Some 7))
  ∧ (∃ v, roster !! 0%nat = Some v ∧ days_left june1 v = Ok 4 ∧ due june1 7 v = true)
  ∧ (∀ n, n ∈ as_dict (notifications reminded_yesterday) !!! "chat1" →
          ¬ (vacation_id n = 0 ∧ sent_at n = isoformat june1))
  ∧ send_notifications june1 always (Stored reminded_yesterday)
    = Ok (Stored reminded_yesterday, []).
Proof.
  split; [reflexivity|]. split.
  { eexists. split; [reflexivity|]. split; vm_compute; reflexivity. }
  split.
  - intros n Hn. vm_compute in Hn. apply list_elem_of_singleton in Hn as ->.
    simpl. intros [_ H]. vm_compute in H. discriminate.
  - vm_compute. reflexivity.
Qed.

(** C1, amended. For every chat with a configured positive lead and every
    record at index [i] of that chat whose start date is between 0 and the
    lead days from today, the pass sends a reminder for the record whenever
    the chat's log has no entry with vacation index [i], and sends none
    when the log has such an entry, whatever the day it was recorded on:
    the key built for a log entry carries today's date, not the entry's
    [sent_at]. *)
Theorem reminder_sent_unless_index_logged
    today delivers f data chat_id cs n vs i v :
  load_data f = Ok data →
  settings data !! chat_id = Some cs → chat_id ≠ "hr_chat_id" →
  notify_days cs = Some n → 0 < n →
  as_dict (vacations data) !! chat_id = Some vs → vs !! i = Some v →
  due today n v = true →
  ∃ f' out,
    send_notifications today delivers f = Ok (f', out)
    ∧ ((∀ e, e ∈ default [] (as_dict (notifications data) !! chat_id) →
             vacation_id e ≠ Z.of_nat i) →
       ∃ d ok, days_left today v = Ok d
               ∧ mksent chat_id i (reminder v d) ok ∈ out)
    ∧ ((∃ e, e ∈ default [] (as_dict (notifications data) !! chat_id)
             ∧ vacation_id e = Z.of_nat i) →
       ∀ ev, ev ∈ out → ¬ (to_chat ev = chat_id ∧ for_idx ev = i)).
Proof.
  intros Hload Hcs Hne Hn Hpos Hvs Hi Hdue.
  assert (∃ f', send_notifications today delivers f
                = Ok (f', outbox (run_scan today delivers data))) as [f' Hrun].
  { unfold send_notifications. rewrite Hload. simpl.
    destruct (sent_count _ =? 0)%nat; eauto. }
  exists f', (outbox (run_scan today delivers data)). split; [done|].
  unfold run_scan. split.
  - intros Hlog.
    apply (scan_all_attempts today delivers _ _ chat_id cs n vs i v); try done.
    + apply NoDup_fst_map_to_list.
    + by apply elem_of_map_to_list.
    + lia.
  - intros (e & He & Hid) ev Hev [Hc Hidx].
    destruct (scan_all_outbox today delivers _ _ _ ev
                (NoDup_fst_map_to_list (settings data)) Hev) as [Hev'|[_ Hlog]].
    + simpl in Hev'. by apply elem_of_nil in Hev'.
    + apply (Hlog e); [unfold log_of; simpl; by rewrite Hc|by rewrite Hidx].
Qed.

Lemma reminder_sent_unless_index_logged_witness :
  (∃ f' out,
     send_notifications june1 always (Stored fresh_store) = Ok (f', out)
     ∧ ∃ d ok, days_left june1 (starting "2024-06-05" "2024-06-19") = Ok d
               ∧ mksent "chat1" 0 (reminder (starting "2024-06-05" "2024-06-19") d) ok
                 ∈ out)
  ∧ (∃ f' out,
       send_notifications june1 always (Stored reminded_yesterday) = Ok (f', out)
       ∧ ∀ ev, ev ∈ out → ¬ (to_chat ev = "chat1" ∧ for_idx ev = 0%nat)).
Proof.
  assert ("chat1" ≠ "hr_chat_id") as Hne by discriminate.
  assert (0 < 7) as Hpos by lia.
  assert (due june1 7 (starting "2024-06-05" "2024-06-19") = true) as Hdue
    by (vm_compute; reflexivity).
  assert (roster !! 0%nat = Some (starting "2024-06-05" "2024-06-19")) as Hrec
    by reflexivity.
  split.
  - assert (settings fresh_store !! "chat1" = Some (mkchat_settings (Some 7))) as Hcs
      by reflexivity.
    assert (as_dict (vacations fresh_store) !! "chat1" = Some roster) as Hvs
      by reflexivity.
    destruct (reminder_sent_unless_index_logged june1 always (Stored fresh_store)
                fresh_store "chat1" (mkchat_settings (Some 7)) 7 roster 0
                (starting "2024-06-05" "2024-06-19")
                eq_refl Hcs Hne eq_refl Hpos Hvs Hrec Hdue)
      as (f' & out & Hrun & Hsend & _).
    exists f', out. split; [exact Hrun|]. apply Hsend.
    intros e He. cbn [as_dict notifications fresh_store] in He.
    rewrite lookup_empty in He. simpl in He. apply elem_of_nil in He. destruct He.
  - assert (settings reminded_yesterday !! "chat1" = Some (mkchat_settings (Some 7)))
      as Hcs by reflexivity.
    assert (as_dict (vacations reminded_yesterday) !! "chat1" = Some roster) as Hvs
      by reflexivity.
    destruct (reminder_sent_unless_index_logged june1 always (Stored reminded_yesterday)
                reminded_yesterday "chat1" (mkchat_settings (Some 7)) 7 roster 0
                (starting "2024-06-05" "2024-06-19")
                eq_refl Hcs Hne eq_refl Hpos Hvs Hrec Hdue)
      as (f' & out & Hrun & _ & Hnone).
    exists f', out. split; [exact Hrun|]. apply Hnone.
    exists (mknotification 0 "2024-05-31"). split; [|reflexivity].
    cbn [as_dict notifications reminded_yesterday].
    rewrite lookup_singleton_eq. apply list_elem_of_here.
Defined.

(** C8. A record is in the due set exactly when its start date parses and
    [days_left = start_date - today] lies in [0, notify_days]; the loop
    passes over every other record and goes on to the key test for a due
    one.  With lead 7 on 2024-06-01 the record starting 2024-06-05 is due,
    those starting 2024-06-10 and 2024-05-30 are not, and a pass over a
    store with these three records reminds of the first only. *)
Theorem due_iff_inside_window :
  (∀ today n v,
     due today n v = true ↔
     ∃ start_dt, strptime (start_date v) fmt_Ymd = Ok start_dt
                 ∧ 0 ≤ toordinal (dt_date start_dt) - toordinal today ≤ n)
  ∧ (∀ today delivers chat_id n idx v S sc,
       due today n v = false →
       check_vacation today delivers chat_id n idx v (S, sc) = (S, sc))
  ∧ (∀ today delivers chat_id n idx v S sc,
       due today n v = true → key (Z.of_nat idx) today ∉ S →
       ∃ d, days_left today v = Ok d
            ∧ outbox (check_vacation today delivers chat_id n idx v (S, sc)).2
              = outbox sc ++ [mksent chat_id idx (reminder v d) (delivers chat_id idx)])
  ∧ due june1 7 (starting "2024-06-05" "2024-06-19") = true
  ∧ due june1 7 (starting "2024-06-10" "2024-06-24") = false
  ∧ due june1 7 (starting "2024-05-30" "2024-06-13") = false
  ∧ (∃ f out, send_notifications june1 always (Stored fresh_store) = Ok (f, out)
              ∧ for_idx <$> out = [0%nat]).
Proof.
  split; [|split; [|split]].
  - intros today n v. unfold due, days_left, days_between.
    destruct (strptime (start_date v) fmt_Ymd) as [dt|e]; simpl.
    + rewrite andb_true_iff, !Z.leb_le. split.
      * intros H. exists dt. split; [done|lia].
      * intros (dt' & [= <-] & H). lia.
    + split; [done|]. by intros (dt' & H & _).
  - intros today delivers chat_id n idx v S sc Hd.
    destruct (check_vacation_cases today delivers chat_id n idx v S sc)
      as [[-> _]|[(d & _ & H & _)|(d & _ & H & _)]]; [done|congruence|congruence].
  - intros today delivers chat_id n idx v S sc Hd Hk.
    destruct (check_vacation_cases today delivers chat_id n idx v S sc)
      as [[_ [H|H]]|[(d & Hl & _ & _ & Hdel & ->)|(d & Hl & _ & _ & Hdel & ->)]];
      [congruence|done| |]; exists d; rewrite Hdel; done.
  - repeat split; try (vm_compute; reflexivity).
    eexists _, _. split; [vm_compute; reflexivity|reflexivity].
Qed.

Lemma due_iff_inside_window_witness :
  (∃ start_dt, strptime "2024-06-05" fmt_Ymd = Ok start_dt
               ∧ 0 ≤ toordinal (dt_date start_dt) - toordinal june1 ≤ 7)
  ∧ check_vacation june1 always "chat1" 7 1 (starting "2024-06-10" "2024-06-24")
      (∅, mkscan ∅ 0 [])
    = (∅, mkscan ∅ 0 []).
Proof.
  destruct due_iff_inside_window as (Hiff & Hskip & _). split.
  - apply (Hiff june1 7 (starting "2024-06-05" "2024-06-19")). vm_compute. reflexivity.
  - apply Hskip. vm_compute. reflexivity.
Defined.

End DailyScanClaims.

Section StorageClaims.
Import PyDate Sheet Parser Storage Upload Views Notifier Examples.

(** C9. [load_data] never raises: it returns normally for every state of
    the backing file, and for a missing file and for any file on which
    opening or parsing fails (with whatever exception) it returns the
    freshly initialised store, whose three mappings are empty. *)
Theorem load_data_never_raises :
  (∀ f, ∃ data, load_data f = Ok data)
  ∧ load_data NoFile = Ok empty_store
  ∧ (∀ raw e, load_data (Unreadable raw e) = Ok empty_store)
  ∧ vacations empty_store = PerChat ∅
  ∧ settings empty_store = ∅
  ∧ notifications empty_store = PerChat ∅.
Proof.
  split; [apply load_data_total|]. repeat split.
Qed.

(** C7. A successful upload of a non-empty record list for a chat stores
    that list as the chat's vacations and an empty list as the chat's
    notification log, in the one document the handler saves; no entry of the
    old log is left for the chat, and the other chats and the settings are
    as they were loaded. *)
Theorem upload_replaces_vacations_and_resets_log
    lower to_datetime w chat_id df rows errors :
  parse_job lower to_datetime df = Ok (rows, errors) →
  rows ≠ [] →
  ∃ old vacs logs hr,
    load_data (data_file w) = Ok old
    ∧ download_and_parse lower to_datetime w chat_id (Downloaded df)
      = Ok (Loaded (length rows) (length errors) (take 3 rows),
            {| data_file := Stored {| vacations := PerChat vacs;
                                      settings := settings old;
                                      hr_chat_id := hr;
                                      notifications := PerChat logs |};
               pending_state := <[chat_id := "awaiting_threshold"]> (pending_state w) |})
    ∧ vacs !! chat_id = Some rows
    ∧ logs !! chat_id = Some []
    ∧ (∀ n, n ∉ logs !!! chat_id)
    ∧ (∀ c, c ≠ chat_id →
         vacs !! c = as_dict (vacations old) !! c
         ∧ logs !! c = as_dict (notifications old) !! c).
Proof.
  intros Hparse Hne.
  destruct (load_data_total (data_file w)) as [old Hload].
  exists old, (<[chat_id := rows]> (as_dict (vacations old))),
    (<[chat_id := []]> (as_dict (notifications old))), (hr_chat_id old).
  split; [done|]. split.
  - unfold download_and_parse. rewrite Hparse.
    destruct rows as [|v rows]; [done|].
    unfold replace_vacations. rewrite Hload. reflexivity.
  - split; [apply lookup_insert_eq|]. split; [apply lookup_insert_eq|]. split.
    + intros n. rewrite lookup_total_insert_eq. apply not_elem_of_nil.
    + intros c Hc. by rewrite !lookup_insert_ne.
Qed.

End StorageClaims.

Section LegacyClaims.
Import PyDate Sheet Parser Storage Upload Views Notifier Examples SheetExamples.

Lemma upload_replaces_vacations_and_resets_log_witness :
  let w := {| data_file := Stored reminded_yesterday; pending_state := ∅ |} in
  ∃ rows errors,
    parse_job lower_cyr no_to_datetime (Ok with_header) = Ok (rows, errors)
    ∧ length rows = 2%nat
    ∧ ∃ old vacs logs hr,
        load_data (data_file w) = Ok old
        ∧ download_and_parse lower_cyr no_to_datetime w "chat1" (Downloaded (Ok with_header))
          = Ok (Loaded (length rows) (length errors) (take 3 rows),
                {| data_file := Stored {| vacations := PerChat vacs;
                                          settings := settings old;
                                          hr_chat_id := hr;
                                          notifications := PerChat logs |};
                   pending_state := <["chat1" := "awaiting_threshold"]> (pending_state w) |})
        ∧ vacs !! "chat1" = Some rows
        ∧ logs !! "chat1" = Some []
        ∧ (∀ n, n ∉ logs !!! "chat1")
        ∧ (∀ c, c ≠ "chat1" →
             vacs !! c = as_dict (vacations old) !! c
             ∧ logs !! c = as_dict (notifications old) !! c).
Proof.
  intros w. eexists _, _. split; [vm_compute; reflexivity|]. split; [reflexivity|].
  apply (upload_replaces_vacations_and_resets_log lower_cyr no_to_datetime w "chat1"
           (Ok with_header)).
  - vm_compute. reflexivity.
  - discriminate.
Defined.

(** C3, as the claim states it, fails on the two views: with the legacy
    list under ["vacations"], the status view counts the records of the
    list and the schedule view lists them, for whichever chat asks. *)
Lemma legacy_list_shown_by_views :
  vacations legacy_store = Legacy roster
  ∧ send_status (Stored legacy_store) "chat1" = Ok (mkstatus 3 (Some 7))
  ∧ send_status (Stored (migrated legacy_store)) "chat1" = Ok (mkstatus 0 (Some 7))
  ∧ send_schedule (Stored legacy_store) (mkdate 2024 5 1) "chat1"
    = Ok (Upcoming 7
            [ mkline (mkdate 2024 5 23) (mkdate 2024 5 30) "Иванов И.И.";
              mkline (mkdate 2024 5 29) (mkdate 2024 6 5) "Иванов И.И.";
              mkline (mkdate 2024 6 3) (mkdate 2024 6 10) "Иванов И.И." ])
  ∧ send_schedule (Stored (migrated legacy_store)) (mkdate 2024 5 1) "chat1" = Ok NoData.
Proof. repeat split; vm_compute; reflexivity. Qed.

(** Reading the settings of a chat fails on the reserved key alone. *)
Lemma chat_settings_of_ok data chat_id :
  chat_id ≠ "hr_chat_id" ∨ hr_chat_id data = None →
  chat_settings_of data chat_id
  = Ok (default (mkchat_settings None) (settings data !! chat_id)).
Proof.
  intros H. unfold chat_settings_of.
  destruct (String.eqb_spec chat_id "hr_chat_id") as [Heq|Hne]; [|done].
  destruct H as [H|H]; [done|]. by rewrite H.
Qed.

Lemma chat_settings_of_reserved data :
  hr_chat_id data ≠ None → chat_settings_of data "hr_chat_id" = Raise AttributeError.
Proof.
  intros H. unfold chat_settings_of. simpl.
  destruct (hr_chat_id data); [reflexivity|done].
Qed.

(** C3, amended. The scan treats a flat list under ["vacations"] or
    ["notifications"] as empty per-chat data: with a vacations list it
    sends nothing and leaves the file alone, with a notifications list it
    runs as on an empty log, and it never raises.  The two views do not
    read ["notifications"], and the shape of ["vacations"] makes no
    difference to whether they raise: they return for every chat id but
    the reserved key ["hr_chat_id"] of a document in which a channel is
    set, where they raise [AttributeError], list or no list.  A flat
    vacations list is for them the record list of whichever chat asks:
    the status view reports its length and the schedule view is computed
    from it. *)
Theorem legacy_lists_in_scan_and_views :
  (∀ today delivers data l,
     vacations data = Legacy l →
     send_notifications today delivers (Stored data) = Ok (Stored data, []))
  ∧ (∀ today delivers data l,
       notifications data = Legacy l →
       run_scan today delivers data
       = run_scan today delivers
           {| vacations := vacations data; settings := settings data;
              hr_chat_id := hr_chat_id data; notifications := PerChat ∅ |})
  ∧ (∀ today delivers f, ∃ r, send_notifications today delivers f = Ok r)
  ∧ (∀ data l chat_id,
       vacations data = Legacy l →
       chat_id ≠ "hr_chat_id" ∨ hr_chat_id data = None →
       send_status (Stored data) chat_id
       = Ok (mkstatus (length l)
               (notify_days (default (mkchat_settings None) (settings data !! chat_id)))))
  ∧ (∀ data l today chat_id,
       vacations data = Legacy l →
       send_schedule (Stored data) today chat_id
       = send_schedule
           (Stored {| vacations := PerChat {[ chat_id := l ]}; settings := settings data;
                      hr_chat_id := hr_chat_id data; notifications := PerChat ∅ |})
           today chat_id)
  ∧ (∀ f today chat_id data,
       load_data f = Ok data →
       (chat_id ≠ "hr_chat_id" ∨ hr_chat_id data = None →
        (∃ s, send_status f chat_id = Ok s) ∧ (∃ s, send_schedule f today chat_id = Ok s))
       ∧ (chat_id = "hr_chat_id" → hr_chat_id data ≠ None →
          send_status f chat_id = Raise AttributeError
          ∧ send_schedule f today chat_id = Raise AttributeError)).
Proof.
  split; [|split; [|split; [|split; [|split]]]].
  - intros today delivers data l Hl.
    apply (send_notifications_quiet today delivers (Stored data) data eq_refl).
    intros c cs _ n j v _ _ _ Hj. rewrite Hl in Hj. simpl in Hj.
    rewrite lookup_empty in Hj. simpl in Hj. by rewrite lookup_nil in Hj.
  - intros today delivers data l Hl. unfold run_scan. simpl. by rewrite Hl.
  - intros today delivers f. unfold send_notifications.
    destruct (load_data_total f) as [data ->]. simpl.
    destruct (sent_count _ =? 0)%nat; eauto.
  - intros data l chat_id Hl Hread. unfold send_status. simpl.
    rewrite (chat_settings_of_ok data chat_id Hread). simpl. by rewrite Hl.
  - intros data l today chat_id Hl. unfold send_schedule, chat_settings_of. simpl.
    rewrite Hl. by rewrite lookup_singleton_eq.
  - intros f today chat_id data Hload. unfold send_status, send_schedule.
    rewrite Hload. simpl. split.
    + intros Hread. rewrite (chat_settings_of_ok data chat_id Hread). simpl.
      split; [eauto|].
      destruct (match vacations data with PerChat m => _ | Legacy l => _ end); [eauto|].
      destruct (notify_days _) as [[| |]|]; eauto;
        destruct (take 5 _); eauto.
    + intros -> Hset. by rewrite (chat_settings_of_reserved data Hset).
Qed.

Lemma legacy_lists_in_scan_and_views_witness :
  send_notifications june1 always (Stored legacy_store) = Ok (Stored legacy_store, [])
  ∧ send_status (Stored legacy_store) "chat2" = Ok (mkstatus 3 None)
  ∧ send_status (Stored fresh_store) "hr_chat_id" = Raise AttributeError
  ∧ send_schedule (Stored fresh_store) june1 "hr_chat_id" = Raise AttributeError.
Proof.
  destruct legacy_lists_in_scan_and_views as (Hscan & _ & _ & Hstatus & _ & Hviews).
  split; [|split].
  - apply (Hscan june1 always legacy_store roster). reflexivity.
  - apply (Hstatus legacy_store roster "chat2"); [reflexivity|]. left. discriminate.
  - apply (Hviews (Stored fresh_store) june1 "hr_chat_id" fresh_store eq_refl);
      [reflexivity|discriminate].
Defined.

End LegacyClaims.

(** ** Layout detection *)
Section LayoutFacts.
Import PyDate Sheet Parser.

Lemma find_index_from_Some {A} (p : A → bool) l : ∀ j k,
  find_index_from p j l = Some k →
  ∃ i, k = (j + i)%nat ∧ first_match p l i.
Proof.
  induction l as [|x l IH]; intros j k; simpl; [done|].
  destruct (p x) eqn:Hp.
  - intros [= <-]. exists 0%nat. split; [lia|]. split; [by exists x|]. intros; lia.
  - intros H. apply IH in H as (i & -> & (y & Hy & Hpy) & Hfirst).
    exists (S i). split; [lia|]. split; [by exists y|].
    intros [|k] z Hk Hz; simpl in Hz; [congruence|]. apply (Hfirst k); [lia|done].
Qed.

Lemma find_index_from_None {A} (p : A → bool) l : ∀ j,
  find_index_from p j l = None ↔ ∀ x, x ∈ l → p x = false.
Proof.
  induction l as [|x l IH]; intros j; simpl.
  - split; [|done]. intros _ x Hx. by apply elem_of_nil in Hx.
  - destruct (p x) eqn:Hp.
    + split; [done|]. intros H. specialize (H x). rewrite Hp in H.
      discriminate H. by left.
    + rewrite IH. split.
      * intros H y Hy. apply elem_of_cons in Hy as [->|Hy]; auto.
      * intros H y Hy. apply H. by right.
Qed.

Lemma find_index_Some {A} (p : A → bool) l k :
  find_index p l = Some k → first_match p l k.
Proof.
  unfold find_index. intros H. by apply find_index_from_Some in H as (i & -> & H).
Qed.

Lemma find_index_exists {A} (p : A → bool) l :
  (∃ x, x ∈ l ∧ p x = true) → ∃ k, find_index p l = Some k.
Proof.
  intros (x & Hx & Hp). destruct (find_index p l) as [k|] eqn:H; [eauto|].
  unfold find_index in H. rewrite find_index_from_None in H. rewrite (H x Hx) in Hp. done.
Qed.

Lemma header_cols_Some lower r :
  is_header_row lower r ↔ ∃ cm, header_cols (row_vals lower r) = Some cm.
Proof.
  unfold is_header_row, has_cell, header_cols. split.
  - intros [Hf Hd].
    apply find_index_exists in Hf as [f ->]. apply find_index_exists in Hd as [d ->].
    eauto.
  - intros [cm H].
    destruct (find_index is_fio_header _) as [f|] eqn:Hf; [|done].
    destruct (find_index is_date_header _) as [d|] eqn:Hd; [|done].
    apply find_index_Some in Hf as [(x & Hx & Hpx) _].
    apply find_index_Some in Hd as [(y & Hy & Hpy) _].
    split; [exists x|exists y]; split; auto; by eapply list_elem_of_lookup_2.
Qed.

Lemma header_cols_None lower r :
  ¬ is_header_row lower r ↔ header_cols (row_vals lower r) = None.
Proof.
  rewrite header_cols_Some. destruct (header_cols _); split; try done.
  - intros H. destruct H. eauto.
  - intros _ [cm H]. done.
Qed.

(** The keyword pass stops at the first header row. *)
Lemma keyword_pass_finds lower rows : ∀ i k r,
  rows !! k = Some r → is_header_row lower r →
  ∃ k0 r0 cm, (k0 ≤ k)%nat ∧ rows !! k0 = Some r0
    ∧ header_cols (row_vals lower r0) = Some cm
    ∧ (∀ j r', (j < k0)%nat → rows !! j = Some r' → ¬ is_header_row lower r')
    ∧ keyword_pass lower i rows = Some (cm, S (i + k0)).
Proof.
  induction rows as [|r1 rows IH]; intros i k r Hk Hr; [done|]. simpl.
  destruct (header_cols (row_vals lower r1)) as [cm|] eqn:H1.
  - exists 0%nat, r1, cm. repeat split; auto; try lia.
    by rewrite Nat.add_0_r.
  - destruct k as [|k]; simpl in Hk.
    { injection Hk as ->. apply header_cols_Some in Hr as [cm Hcm]. congruence. }
    destruct (IH (S i) k r Hk Hr) as (k0 & r0 & cm & Hle & Hk0 & Hcm & Hfirst & Hres).
    exists (S k0), r0, cm. repeat split; auto; try lia.
    + intros [|j] r' Hj Hr'; simpl in Hr'.
      * injection Hr' as <-. by apply header_cols_None.
      * apply (Hfirst j); [lia|done].
    + rewrite Hres. do 3 f_equal. lia.
Qed.

End LayoutFacts.

Section LayoutClaims.
Import PyDate Sheet Parser Storage Upload SheetExamples Examples.

Lemma header_cols_columns vals cm :
  header_cols vals = Some cm →
  first_match is_fio_header vals (cm_fio cm)
  ∧ first_match is_date_header vals (cm_start_date cm)
  ∧ cm_days cm = default (cm_fio cm + 2)%nat (find_index is_days_header vals)
  ∧ cm_org cm = default (cm_fio cm + 1)%nat (find_index is_org_header vals).
Proof.
  unfold header_cols.
  destruct (find_index is_fio_header vals) as [f|] eqn:Hf; [|done].
  destruct (find_index is_date_header vals) as [d|] eqn:Hd; [|done].
  intros [= <-]. simpl.
  repeat split; try by apply find_index_Some.
  all: by apply find_index_Some.
Qed.

Lemma default_column {A} (p : A → bool) (l : list A) (dflt c : nat) :
  c = default dflt (find_index p l) →
  (¬ (∃ x, x ∈ l ∧ p x = true) → c = dflt)
  ∧ ((∃ x, x ∈ l ∧ p x = true) → first_match p l c).
Proof.
  intros ->. split.
  - intros Hno. destruct (find_index p l) as [k|] eqn:Hk; [|done].
    apply find_index_Some in Hk as [(x & Hx & Hp) _].
    destruct Hno. exists x. split; [by eapply list_elem_of_lookup_2|done].
  - intros Hex. apply find_index_exists in Hex as [k Hk]. rewrite Hk. simpl.
    by apply find_index_Some.
Qed.

(** C6. When one of the first 20 rows of the grid has both a name keyword
    cell and a date keyword cell, the detector returns the layout read from
    the first such row [r0], at index [i0]: the data start is [i0 + 1], the
    name and date columns are the first cells with the keyword, the days
    column is the first count/days keyword cell and [name + 2] when the row
    has none, the organisation column the first organisation keyword cell
    and [name + 1] when the row has none. *)
Theorem keyword_header_detected lower df i r :
  (i < 20)%nat → df !! i = Some r → is_header_row lower r →
  ∃ i0 r0 cm,
    (i0 ≤ i)%nat ∧ df !! i0 = Some r0 ∧ is_header_row lower r0
    ∧ (∀ j r', (j < i0)%nat → df !! j = Some r' → ¬ is_header_row lower r')
    ∧ detect_layout lower df = Ok (Some (cm, S i0))
    ∧ first_match is_fio_header (row_vals lower r0) (cm_fio cm)
    ∧ first_match is_date_header (row_vals lower r0) (cm_start_date cm)
    ∧ (¬ has_cell lower is_days_header r0 → cm_days cm = (cm_fio cm + 2)%nat)
    ∧ (has_cell lower is_days_header r0 →
         first_match is_days_header (row_vals lower r0) (cm_days cm))
    ∧ (¬ has_cell lower is_org_header r0 → cm_org cm = (cm_fio cm + 1)%nat)
    ∧ (has_cell lower is_org_header r0 →
         first_match is_org_header (row_vals lower r0) (cm_org cm)).
Proof.
  intros Hi Hr Hh.
  assert (take 20 df !! i = Some r) as Hr20 by (by rewrite lookup_take_lt).
  destruct (keyword_pass_finds lower (take 20 df) 0 i r Hr20 Hh)
    as (k0 & r0 & cm & Hle & Hk0 & Hcm & Hfirst & Hres).
  unfold grid in *. rewrite lookup_take_lt in Hk0 by lia.
  exists k0, r0, cm. split; [done|]. split; [done|].
  split; [apply header_cols_Some; eauto|]. split.
  { intros j r' Hj Hr'. apply (Hfirst j); [done|]. rewrite lookup_take_lt; [done|lia]. }
  split; [unfold detect_layout; by rewrite Hres|].
  destruct (header_cols_columns _ _ Hcm) as (H1 & H2 & H3 & H4).
  apply default_column in H3 as [H3a H3b]. apply default_column in H4 as [H4a H4b].
  unfold has_cell. tauto.
Qed.

Lemma keyword_header_detected_witness :
  ∃ i0 r0 cm,
    (i0 ≤ 1)%nat ∧ with_header !! i0 = Some r0 ∧ is_header_row lower_cyr r0
    ∧ (∀ j r', (j < i0)%nat → with_header !! j = Some r' → ¬ is_header_row lower_cyr r')
    ∧ detect_layout lower_cyr with_header = Ok (Some (cm, S i0))
    ∧ first_match is_fio_header (row_vals lower_cyr r0) (cm_fio cm)
    ∧ first_match is_date_header (row_vals lower_cyr r0) (cm_start_date cm)
    ∧ (¬ has_cell lower_cyr is_days_header r0 → cm_days cm = (cm_fio cm + 2)%nat)
    ∧ (has_cell lower_cyr is_days_header r0 →
         first_match is_days_header (row_vals lower_cyr r0) (cm_days cm))
    ∧ (¬ has_cell lower_cyr is_org_header r0 → cm_org cm = (cm_fio cm + 1)%nat)
    ∧ (has_cell lower_cyr is_org_header r0 →
         first_match is_org_header (row_vals lower_cyr r0) (cm_org cm)).
Proof.
  apply (keyword_header_detected lower_cyr with_header 1
           [CStr "ФИО Сотрудника"; CStr "Организация"; CStr "Кол-во дней"; CStr "Дата начала"]).
  - lia.
  - reflexivity.
  - split.
    + exists "фио сотрудника". split; [|vm_compute; reflexivity].
      apply list_elem_of_In. vm_compute. by left.
    + exists "дата начала". split; [|vm_compute; reflexivity].
      apply list_elem_of_In. vm_compute. auto.
Defined.

(** C10. When neither pass finds a layout, [parse_vacation_df] returns two
    empty lists; a sheet whose layout was detected but whose data rows were
    all skipped returns the same pair; and on any parse result without
    records the handler answers "no data found" and leaves the data file
    and the pending state as they were. *)
Theorem undetected_layout_is_reported_as_no_data :
  (∀ lower to_datetime df,
     keyword_pass lower 0 (take 20 df) = None →
     positional_pass 0 (take 30 df) = Ok None →
     parse_vacation_df lower to_datetime df = Ok ([], []))
  ∧ (detect_layout lower_cyr no_layout = Ok None
     ∧ (∃ l, detect_layout lower_cyr header_only = Ok (Some l))
     ∧ parse_vacation_df lower_cyr no_to_datetime header_only
       = parse_vacation_df lower_cyr no_to_datetime no_layout)
  ∧ (∀ lower to_datetime w chat_id df errors,
       parse_job lower to_datetime df = Ok ([], errors) →
       download_and_parse lower to_datetime w chat_id (Downloaded df)
       = Ok (NoDataFound, w)).
Proof.
  split; [|split].
  - intros lower to_datetime df Hk Hp.
    unfold parse_vacation_df, detect_layout. rewrite Hk, Hp. reflexivity.
  - split; [vm_compute; reflexivity|]. split; [eexists|]; vm_compute; reflexivity.
  - intros lower to_datetime w chat_id df errors H.
    unfold download_and_parse. by rewrite H.
Qed.

Lemma undetected_layout_is_reported_as_no_data_witness :
  parse_vacation_df lower_cyr no_to_datetime no_layout = Ok ([], [])
  ∧ download_and_parse lower_cyr no_to_datetime
      {| data_file := Stored reminded_yesterday; pending_state := ∅ |} "chat1"
      (Downloaded (Ok no_layout))
    = Ok (NoDataFound, {| data_file := Stored reminded_yesterday; pending_state := ∅ |}).
Proof.
  destruct undetected_layout_is_reported_as_no_data as (H1 & _ & H3). split.
  - apply H1; vm_compute; reflexivity.
  - apply (H3 _ _ _ _ _ []). vm_compute. reflexivity.
Defined.

End LayoutClaims.

(** ** The positional pass *)
Section PositionalFacts.
Import PyDate Sheet Parser SheetExamples.

Lemma first_match_unique {A} (p : A → bool) l i j :
  first_match p l i → first_match p l j → i = j.
Proof.
  intros [(x & Hx & Hpx) Hi] [(y & Hy & Hpy) Hj].
  destruct (Nat.lt_trichotomy i j) as [Hlt|[->|Hlt]]; [|done|].
  - rewrite (Hj i x Hlt Hx) in Hpx. done.
  - rewrite (Hi j y Hlt Hy) in Hpy. done.
Qed.

Lemma find_index_first_match {A} (p : A → bool) l k :
  first_match p l k → find_index p l = Some k.
Proof.
  intros Hk. destruct (find_index_exists p l) as [k' Hk'].
  { destruct Hk as [(x & Hx & Hp) _]. exists x. split; [|done].
    by eapply list_elem_of_lookup_2. }
  rewrite Hk'. f_equal. apply find_index_Some in Hk'.
  by eapply first_match_unique.
Qed.

Lemma find_days_col_Some cells : ∀ j k,
  find_days_col j cells = Ok (Some k) →
  ∃ i, k = (j + i)%nat ∧ first_match small_count cells i.
Proof.
  induction cells as [|v cells IH]; intros j k; simpl; [done|].
  assert (∀ k, find_days_col (S j) cells = Ok (Some k) → small_count v = false →
            ∃ i, k = (j + i)%nat ∧ first_match small_count (v :: cells) i) as Hskip.
  { intros k' H Hv. apply IH in H as (i & -> & (y & Hy & Hpy) & Hfirst).
    exists (S i). split; [lia|]. split; [by exists y|].
    intros [|m] z Hm Hz; simpl in Hz; [congruence|]. apply (Hfirst m); [lia|done]. }
  assert (small_count v =
          negb (isna v) && match PyFloat.int_float (str v) with
                           | Ok d => (1 <=? d) && (d <=? 365)
                           | Raise _ => false
                           end) as Hsc by reflexivity.
  destruct (isna v) eqn:Hna; simpl in *; [by auto|].
  destruct (PyFloat.int_float (str v)) as [d|e].
  - destruct ((1 <=? d) && (d <=? 365)) eqn:Hd; [|by auto].
    intros [= <-]. exists 0%nat. split; [lia|]. split.
    + by exists v.
    + intros; lia.
  - destruct e; try done; by auto.
Qed.

Lemma find_days_col_None cells : ∀ j,
  find_days_col j cells = Ok None → ∀ v, v ∈ cells → small_count v = false.
Proof.
  induction cells as [|v cells IH]; intros j; simpl.
  { intros _ v Hv. by apply elem_of_nil in Hv. }
  assert (find_days_col (S j) cells = Ok None → small_count v = false →
            ∀ w, w ∈ v :: cells → small_count w = false) as Hskip.
  { intros H Hv w Hw. apply elem_of_cons in Hw as [->|Hw]; [done|]. by eapply IH. }
  assert (small_count v =
          negb (isna v) && match PyFloat.int_float (str v) with
                           | Ok d => (1 <=? d) && (d <=? 365)
                           | Raise _ => false
                           end) as Hsc by reflexivity.
  destruct (isna v) eqn:Hna; simpl in *; [by auto|].
  destruct (PyFloat.int_float (str v)) as [d|e].
  - destruct ((1 <=? d) && (d <=? 365)) eqn:Hd; [done|by auto].
  - destruct e; try done; by auto.
Qed.

Lemma find_days_col_total cells : ∀ j,
  (∀ v, v ∈ cells → escapes v = false) → ∃ r, find_days_col j cells = Ok r.
Proof.
  induction cells as [|v cells IH]; intros j Hesc; simpl; [eauto|].
  assert (∃ r, find_days_col (S j) cells = Ok r) as Hrest.
  { apply IH. intros w Hw. apply Hesc. by right. }
  specialize (Hesc v (list_elem_of_here _ _)). unfold escapes in Hesc.
  destruct (isna v); simpl in *; [done|].
  destruct (PyFloat.int_float (str v)) as [d|e].
  - destruct ((1 <=? d) && (d <=? 365)); eauto.
  - destruct e; done.
Qed.

Lemma find_days_col_raises cells : ∀ j k c e,
  cells !! k = Some c → isna c = false → PyFloat.int_float (str c) = Raise e →
  e ≠ ValueError → e ≠ TypeError →
  (∀ i y, (i < k)%nat → cells !! i = Some y → small_count y = false ∧ escapes y = false) →
  find_days_col j cells = Raise e.
Proof.
  induction cells as [|v cells IH]; intros j k c e Hk Hna Hraise Hv Ht Hbefore; [done|].
  destruct k as [|k]; simpl in Hk.
  - injection Hk as ->. simpl. rewrite Hna, Hraise. by destruct e.
  - assert (find_days_col (S j) cells = Raise e) as Hrest.
    { apply (IH (S j) k c e); try done.
      intros i y Hi Hy. apply (Hbefore (S i) y); [lia|done]. }
    destruct (Hbefore 0%nat v) as [Hsc Hesc]; [lia|done|].
    simpl. unfold small_count, escapes in Hsc, Hesc.
    destruct (isna v); [done|]. simpl in Hsc, Hesc.
    destruct (PyFloat.int_float (str v)) as [d|e'].
    + by rewrite Hsc.
    + by destruct e'.
Qed.

(** The scan stops at the first count when nothing before it escapes. *)
Lemma find_days_col_first cells : ∀ j i,
  first_match small_count cells i →
  (∀ k y, (k < i)%nat → cells !! k = Some y → escapes y = false) →
  find_days_col j cells = Ok (Some (j + i)%nat).
Proof.
  induction cells as [|v cells IH]; intros j i [(x & Hx & Hp) Hfirst] Hesc; [done|].
  destruct i as [|i]; simpl in Hx.
  - injection Hx as ->. rewrite Nat.add_0_r. simpl.
    unfold small_count in Hp. destruct (isna x); [done|]. simpl in Hp.
    destruct (PyFloat.int_float (str x)) as [d|e]; [|done]. by rewrite Hp.
  - assert (find_days_col (S j) cells = Ok (Some (j + S i)%nat)) as Hrest.
    { replace (j + S i)%nat with (S j + i)%nat by lia. apply IH.
      - split; [by exists x|]. intros k y Hk Hy. apply (Hfirst (S k)); [lia|done].
      - intros k y Hk Hy. apply (Hesc (S k)); [lia|done]. }
    pose proof (Hfirst 0%nat v ltac:(lia) eq_refl) as Hsc.
    pose proof (Hesc 0%nat v ltac:(lia) eq_refl) as Hev.
    simpl. unfold small_count, escapes in Hsc, Hev.
    destruct (isna v); [done|]. simpl in Hsc, Hev.
    destruct (PyFloat.int_float (str v)) as [d|e].
    + by rewrite Hsc.
    + by destruct e.
Qed.

(** The scan finds nothing when no cell is a count and none escapes. *)
Lemma find_days_col_nothing cells : ∀ j,
  (∀ k y, cells !! k = Some y → small_count y = false ∧ escapes y = false) →
  find_days_col j cells = Ok None.
Proof.
  induction cells as [|v cells IH]; intros j Hall; [done|].
  destruct (Hall 0%nat v eq_refl) as [Hsc Hev].
  assert (find_days_col (S j) cells = Ok None) as Hrest.
  { apply IH. intros k y Hy. by apply (Hall (S k)). }
  simpl. unfold small_count, escapes in Hsc, Hev.
  destruct (isna v); [done|]. simpl in Hsc, Hev.
  destruct (PyFloat.int_float (str v)) as [d|e].
  - by rewrite Hsc.
  - by destruct e.
Qed.

Lemma before_date_lookup (vals : list cell) d i v :
  before_date vals d !! i = Some v ↔ (S i < d)%nat ∧ vals !! S i = Some v.
Proof.
  unfold before_date. rewrite lookup_take_Some, lookup_drop. simpl.
  split; intros [H1 H2]; split; auto; lia.
Qed.

End PositionalFacts.

Section PositionalClaims.
Import PyDate Sheet Parser SheetExamples.

(** C5, as the claim states it, fails: with two small integers before the
    date column the pass takes the first one, column 1, although column 2
    is nearer to the date column. *)
Lemma first_small_count_wins_over_nearest :
  ∃ cm, data_row_cols two_counts = Ok (Some cm)
        ∧ cm_start_date cm = 3%nat ∧ cm_days cm = 1%nat
        ∧ ¬ spec_nearest_days_col two_counts (cm_start_date cm) (cm_days cm).
Proof.
  eexists. split; [vm_compute; reflexivity|]. simpl.
  split; [done|]. split; [done|].
  intros [(v & _ & _ & _ & H)|[H _]]; [|done].
  specialize (H 2%nat (CInt 14)). discriminate H; [lia|reflexivity].
Qed.

(** C5, amended. For a candidate data row in which a date column [d] is
    found, the columns from 1 up to [d - 1] are scanned upward.  The days
    column is the first of them whose value is present and converts to an
    integer in 1..365, and column 2 when none of them qualifies, provided
    that no cell scanned before that point makes the conversion raise what
    the loop does not catch.  When a cell does, before any count was found,
    no layout is chosen: the exception leaves the pass. *)
Theorem days_column_is_first_small_count :
  (∀ vals cm,
     data_row_cols vals = Ok (Some cm) →
     cm_fio cm = 0%nat ∧ cm_org cm = 1%nat
     ∧ first_match looks_like_date vals (cm_start_date cm)
     ∧ ((∃ v, (1 ≤ cm_days cm < cm_start_date cm)%nat
              ∧ vals !! cm_days cm = Some v ∧ small_count v = true
              ∧ ∀ k y, (1 ≤ k < cm_days cm)%nat → vals !! k = Some y →
                       small_count y = false)
        ∨ (cm_days cm = 2%nat
           ∧ ∀ k y, (1 ≤ k < cm_start_date cm)%nat → vals !! k = Some y →
                    small_count y = false)))
  ∧ (∀ vals d,
       (let col0 := match vals with v :: _ => PyStr.strip (str v) | [] => "" end in
        String.eqb col0 "" || String.eqb col0 "nan" || PyStr.isdigit col0) = false →
       first_match looks_like_date vals d →
       (∀ k y, (1 ≤ k < d)%nat → vals !! k = Some y → escapes y = false) →
       ∃ cm, data_row_cols vals = Ok (Some cm) ∧ cm_start_date cm = d)
  ∧ (∀ vals d j v,
       (let col0 := match vals with v :: _ => PyStr.strip (str v) | [] => "" end in
        String.eqb col0 "" || String.eqb col0 "nan" || PyStr.isdigit col0) = false →
       first_match looks_like_date vals d →
       (1 ≤ j < d)%nat → vals !! j = Some v → small_count v = true →
       (∀ k y, (1 ≤ k < j)%nat → vals !! k = Some y →
               small_count y = false ∧ escapes y = false) →
       data_row_cols vals
       = Ok (Some {| cm_fio := 0; cm_org := 1; cm_days := j; cm_start_date := d |}))
  ∧ (∀ vals d,
       (let col0 := match vals with v :: _ => PyStr.strip (str v) | [] => "" end in
        String.eqb col0 "" || String.eqb col0 "nan" || PyStr.isdigit col0) = false →
       first_match looks_like_date vals d →
       (∀ k y, (1 ≤ k < d)%nat → vals !! k = Some y →
               small_count y = false ∧ escapes y = false) →
       data_row_cols vals
       = Ok (Some {| cm_fio := 0; cm_org := 1; cm_days := 2; cm_start_date := d |}))
  ∧ (∀ vals d j v e,
       (let col0 := match vals with v :: _ => PyStr.strip (str v) | [] => "" end in
        String.eqb col0 "" || String.eqb col0 "nan" || PyStr.isdigit col0) = false →
       first_match looks_like_date vals d →
       (1 ≤ j < d)%nat → vals !! j = Some v →
       isna v = false → PyFloat.int_float (str v) = Raise e →
       e ≠ ValueError → e ≠ TypeError →
       (∀ k y, (1 ≤ k < j)%nat → vals !! k = Some y →
               small_count y = false ∧ escapes y = false) →
       data_row_cols vals = Raise e).
Proof.
  split; [|split; [|split; [|split]]].
  - intros vals cm. unfold data_row_cols.
    destruct (String.eqb _ "" || _ || _); [done|].
    destruct (find_index looks_like_date vals) as [d|] eqn:Hd; [|done].
    destruct (find_days_col 1 (before_date vals d)) as [dc|e] eqn:Hdc; [|done].
    simpl. intros [= <-]. simpl.
    split; [done|]. split; [done|]. split; [by apply find_index_Some|].
    destruct dc as [c|]; simpl.
    + left. apply find_days_col_Some in Hdc as (i & -> & (v & Hv & Hp) & Hfirst).
      apply before_date_lookup in Hv as [Hlt Hv]. exists v.
      split; [lia|]. split; [done|]. split; [done|].
      intros k y Hk Hy. destruct k as [|k]; [lia|].
      apply (Hfirst k); [lia|]. apply before_date_lookup. split; [lia|done].
    + right. split; [done|]. intros k y Hk Hy. destruct k as [|k]; [lia|].
      eapply find_days_col_None; [exact Hdc|].
      apply (list_elem_of_lookup_2 _ k). apply before_date_lookup. split; [lia|exact Hy].
  - intros vals d Hname Hd Hesc. unfold data_row_cols.
    simpl in Hname. rewrite Hname. rewrite (find_index_first_match _ _ _ Hd).
    destruct (find_days_col_total (before_date vals d) 1) as [r ->].
    + intros v Hv. apply list_elem_of_lookup_1 in Hv as [i Hi].
      apply before_date_lookup in Hi as [Hlt Hi]. apply (Hesc (S i)); [lia|done].
    + simpl. eauto.
  - intros vals d j v Hname Hd Hj Hv Hsc Hbefore. unfold data_row_cols.
    simpl in Hname. rewrite Hname. rewrite (find_index_first_match _ _ _ Hd).
    rewrite (find_days_col_first (before_date vals d) 1 (j - 1)).
    + simpl. by replace (S (j - 1)) with j by lia.
    + split.
      * exists v. split; [|done]. apply before_date_lookup.
        replace (S (j - 1)) with j by lia. split; [lia|done].
      * intros k y Hk Hy. apply before_date_lookup in Hy as [_ Hy].
        apply (Hbefore (S k)); [lia|done].
    + intros k y Hk Hy. apply before_date_lookup in Hy as [_ Hy].
      apply (Hbefore (S k)); [lia|done].
  - intros vals d Hname Hd Hnone. unfold data_row_cols.
    simpl in Hname. rewrite Hname. rewrite (find_index_first_match _ _ _ Hd).
    rewrite (find_days_col_nothing (before_date vals d) 1); [done|].
    intros k y Hy. apply before_date_lookup in Hy as [Hlt Hy].
    apply (Hnone (S k)); [lia|done].
  - intros vals d j v e Hname Hd Hj Hv Hna Hraise Hve Hte Hbefore. unfold data_row_cols.
    simpl in Hname. rewrite Hname. rewrite (find_index_first_match _ _ _ Hd).
    rewrite (find_days_col_raises (before_date vals d) 1 (j - 1) v e); try done.
    + apply before_date_lookup. replace (S (j - 1)) with j by lia. split; [lia|done].
    + intros k y Hk Hy. apply before_date_lookup in Hy as [_ Hy].
      apply (Hbefore (S k)); [lia|done].
Qed.

Lemma days_column_is_first_small_count_witness :
  data_row_cols two_counts
  = Ok (Some {| cm_fio := 0; cm_org := 1; cm_days := 1; cm_start_date := 3 |})
  ∧ data_row_cols [CStr "Иванов И.И."; CStr "Infinity"; CInt 14; CStr "01.03.2024"]
    = Raise OverflowError.
Proof.
  destruct days_column_is_first_small_count as (_ & _ & Hfirst & _ & Hraise).
  split.
  - apply (Hfirst two_counts 3%nat 1%nat (CInt 5)).
    + vm_compute. reflexivity.
    + split.
      * eexists. split; [reflexivity|]. vm_compute. reflexivity.
      * intros [|[|[|k]]] y Hk Hy; try lia; injection Hy as <-; vm_compute; reflexivity.
    + lia.
    + reflexivity.
    + vm_compute. reflexivity.
    + intros k y Hk. lia.
  - apply (Hraise [CStr "Иванов И.И."; CStr "Infinity"; CInt 14; CStr "01.03.2024"]
             3%nat 1%nat (CStr "Infinity") OverflowError).
    + vm_compute. reflexivity.
    + split.
      * eexists. split; [reflexivity|]. vm_compute. reflexivity.
      * intros [|[|[|k]]] y Hk Hy; try lia; injection Hy as <-; vm_compute; reflexivity.
    + lia.
    + reflexivity.
    + reflexivity.
    + vm_compute. reflexivity.
    + discriminate.
    + discriminate.
    + intros k y Hk. lia.
Defined.

End PositionalClaims.

(** ** Record extraction *)
Section ExtractionFacts.
Import PyDate Sheet Parser SheetExamples.

(** A date the [date] constructor accepts has an ordinal in range. *)
Lemma toordinal_bounds y m d :
  valid_date y m d = true → 1 ≤ ymd2ord y m d ≤ MAXORDINAL.
Proof.
  unfold valid_date. rewrite !andb_true_iff, !Z.leb_le.
  intros [[[[[Hy1 Hy2] Hm1] Hm2] Hd1] Hd2].
  assert (m = 1 ∨ m = 2 ∨ m = 3 ∨ m = 4 ∨ m = 5 ∨ m = 6 ∨ m = 7 ∨ m = 8
          ∨ m = 9 ∨ m = 10 ∨ m = 11 ∨ m = 12) as Hm by lia.
  unfold ymd2ord, days_before_year, days_before_month, days_in_month, MAXORDINAL in *.
  destruct (Z.eq_dec y 9999) as [->|Hy].
  - change (is_leap 9999) with false in *.
    repeat (destruct Hm as [->|Hm]); try subst m; simpl in *;
      Z.div_mod_to_equations; lia.
  - destruct (is_leap y);
      repeat (destruct Hm as [->|Hm]); try subst m; simpl in *;
      Z.div_mod_to_equations; lia.
Qed.

(** *** [_ord2ymd] inverts [_ymd2ord] *)

Lemma month_and_day_of_day_of_year y leap m d :
  1 ≤ m ≤ 12 →
  1 ≤ d ≤ (if (m =? 2) && leap then 29 else nth (Z.to_nat m) DAYS_IN_MONTH (-1)) →
  month_and_day y leap
    (nth (Z.to_nat m) DAYS_BEFORE_MONTH (-1) + (if (2 <? m) && leap then 1 else 0) + d - 1)
  = mkdate y m d.
Proof.
  intros Hm Hd.
  assert (m = 1 ∨ m = 2 ∨ m = 3 ∨ m = 4 ∨ m = 5 ∨ m = 6 ∨ m = 7 ∨ m = 8
          ∨ m = 9 ∨ m = 10 ∨ m = 11 ∨ m = 12) as Hcases by lia.
  assert (d = 1 ∨ d = 2 ∨ d = 3 ∨ d = 4 ∨ d = 5 ∨ d = 6 ∨ d = 7 ∨ d = 8 ∨ d = 9
          ∨ d = 10 ∨ d = 11 ∨ d = 12 ∨ d = 13 ∨ d = 14 ∨ d = 15 ∨ d = 16 ∨ d = 17
          ∨ d = 18 ∨ d = 19 ∨ d = 20 ∨ d = 21 ∨ d = 22 ∨ d = 23 ∨ d = 24 ∨ d = 25
          ∨ d = 26 ∨ d = 27 ∨ d = 28 ∨ d = 29 ∨ d = 30 ∨ d = 31) as Hdays.
  { assert (d ≤ 31); [|lia].
    destruct leap; repeat (destruct Hcases as [->|Hcases]); try subst m;
      simpl in Hd; lia. }
  destruct leap; repeat (destruct Hcases as [->|Hcases]); try subst m; simpl in Hd;
    repeat (destruct Hdays as [->|Hdays]); try subst d; try reflexivity; lia.
Qed.

Lemma ord2ymd_inside_year a b c e doy :
  0 ≤ a → 0 ≤ b ≤ 3 → 0 ≤ c ≤ 24 → 0 ≤ e ≤ 3 → 0 ≤ doy ≤ 364 →
  ord2ymd (146097 * a + 36524 * b + 1461 * c + 365 * e + doy + 1)
  = month_and_day (400 * a + 100 * b + 4 * c + e + 1)
      ((e =? 3) && (negb (c =? 24) || (b =? 3))) doy.
Proof.
  intros Ha Hb Hc He Hdoy. unfold ord2ymd, DI400Y, DI100Y, DI4Y. cbv zeta.
  replace (146097 * a + 36524 * b + 1461 * c + 365 * e + doy + 1 - 1)
    with (146097 * a + (36524 * b + 1461 * c + 365 * e + doy)) by lia.
  assert ((146097 * a + (36524 * b + 1461 * c + 365 * e + doy)) `div` 146097 = a) as ->
    by (Z.div_mod_to_equations; lia).
  assert ((146097 * a + (36524 * b + 1461 * c + 365 * e + doy)) `mod` 146097
          = 36524 * b + (1461 * c + 365 * e + doy)) as ->
    by (Z.div_mod_to_equations; lia).
  assert ((36524 * b + (1461 * c + 365 * e + doy)) `div` 36524 = b) as ->
    by (Z.div_mod_to_equations; lia).
  assert ((36524 * b + (1461 * c + 365 * e + doy)) `mod` 36524
          = 1461 * c + (365 * e + doy)) as ->
    by (Z.div_mod_to_equations; lia).
  assert ((1461 * c + (365 * e + doy)) `div` 1461 = c) as ->
    by (Z.div_mod_to_equations; lia).
  assert ((1461 * c + (365 * e + doy)) `mod` 1461 = 365 * e + doy) as ->
    by (Z.div_mod_to_equations; lia).
  assert ((365 * e + doy) `div` 365 = e) as -> by (Z.div_mod_to_equations; lia).
  assert ((365 * e + doy) `mod` 365 = doy) as -> by (Z.div_mod_to_equations; lia).
  assert ((e =? 4) = false) as -> by (apply Z.eqb_neq; lia).
  assert ((b =? 4) = false) as -> by (apply Z.eqb_neq; lia).
  simpl. f_equal. lia.
Qed.

Lemma ord2ymd_last_day_of_leap_year a b c :
  0 ≤ a → 0 ≤ b ≤ 3 → 0 ≤ c ≤ 24 → (c ≠ 24 ∨ b = 3) →
  ord2ymd (146097 * a + 36524 * b + 1461 * c + 365 * 3 + 365 + 1)
  = mkdate (400 * a + 100 * b + 4 * c + 3 + 1) 12 31.
Proof.
  intros Ha Hb Hc Hleap. unfold ord2ymd, DI400Y, DI100Y, DI4Y. cbv zeta.
  replace (146097 * a + 36524 * b + 1461 * c + 365 * 3 + 365 + 1 - 1)
    with (146097 * a + (36524 * b + 1461 * c + 1460)) by lia.
  assert ((146097 * a + (36524 * b + 1461 * c + 1460)) `div` 146097 = a) as ->
    by (Z.div_mod_to_equations; lia).
  assert ((146097 * a + (36524 * b + 1461 * c + 1460)) `mod` 146097
          = 36524 * b + 1461 * c + 1460) as ->
    by (Z.div_mod_to_equations; lia).
  destruct (Z.eq_dec c 24) as [->|Hc24].
  - assert (b = 3) as -> by lia.
    change ((36524 * 3 + 1461 * 24 + 1460) `div` 36524) with 4.
    change ((36524 * 3 + 1461 * 24 + 1460) `mod` 36524) with 0.
    simpl. f_equal. Z.div_mod_to_equations. lia.
  - assert ((36524 * b + 1461 * c + 1460) `div` 36524 = b) as ->
      by (Z.div_mod_to_equations; lia).
    assert ((36524 * b + 1461 * c + 1460) `mod` 36524 = 1461 * c + 1460) as ->
      by (Z.div_mod_to_equations; lia).
    assert ((1461 * c + 1460) `div` 1461 = c) as -> by (Z.div_mod_to_equations; lia).
    assert ((1461 * c + 1460) `mod` 1461 = 1460) as -> by (Z.div_mod_to_equations; lia).
    change (1460 `div` 365) with 4. simpl. f_equal. Z.div_mod_to_equations. lia.
Qed.

Lemma is_leap_parts y :
  is_leap y
  = (((y - 1) `mod` 4 =? 3)
     && (negb (((y - 1) `mod` 100) `div` 4 =? 24) || (((y - 1) `mod` 400) `div` 100 =? 3))).
Proof.
  unfold is_leap.
  destruct (Z.eqb_spec (y `mod` 4) 0), (Z.eqb_spec (y `mod` 100) 0),
    (Z.eqb_spec (y `mod` 400) 0), (Z.eqb_spec ((y - 1) `mod` 4) 3),
    (Z.eqb_spec (((y - 1) `mod` 100) `div` 4) 24),
    (Z.eqb_spec (((y - 1) `mod` 400) `div` 100) 3);
    simpl; try reflexivity; exfalso; Z.div_mod_to_equations; lia.
Qed.

(** The ordinal of a valid date is the ordinal of that date only. *)
Lemma ord2ymd_ymd2ord y m d :
  valid_date y m d = true → ord2ymd (ymd2ord y m d) = mkdate y m d.
Proof.
  intros Hv. pose proof Hv as Hv'. unfold valid_date in Hv'.
  rewrite !andb_true_iff, !Z.leb_le in Hv'.
  destruct Hv' as [[[[[Hy1 Hy2] Hm1] Hm2] Hd1] Hd2].
  set (a := (y - 1) `div` 400).
  set (b := ((y - 1) `mod` 400) `div` 100).
  set (c := ((y - 1) `mod` 100) `div` 4).
  set (e := (y - 1) `mod` 4).
  assert (0 ≤ a ∧ 0 ≤ b ≤ 3 ∧ 0 ≤ c ≤ 24 ∧ 0 ≤ e ≤ 3
          ∧ y = 400 * a + 100 * b + 4 * c + e + 1
          ∧ days_before_year y = 146097 * a + 36524 * b + 1461 * c + 365 * e)
    as (Ha & Hb & Hc & He & Hy & Hdby).
  { unfold days_before_year. subst a b c e. Z.div_mod_to_equations. lia. }
  pose proof (is_leap_parts y) as Hleap. fold b c e in Hleap.
  unfold days_in_month in Hd2. unfold ymd2ord, days_before_month.
  rewrite Hdby, Hleap in *.
  set (leap := (e =? 3) && (negb (c =? 24) || (b =? 3))) in *.
  set (doy := nth (Z.to_nat m) DAYS_BEFORE_MONTH (-1)
              + (if (2 <? m) && leap then 1 else 0) + d - 1).
  replace (146097 * a + 36524 * b + 1461 * c + 365 * e
           + (nth (Z.to_nat m) DAYS_BEFORE_MONTH (-1)
              + (if (2 <? m) && leap then 1 else 0)) + d)
    with (146097 * a + 36524 * b + 1461 * c + 365 * e + doy + 1) by (subst doy; lia).
  assert (0 ≤ doy ≤ 364 ∨ (doy = 365 ∧ leap = true ∧ m = 12 ∧ d = 31)) as Hdoy.
  { assert (m = 1 ∨ m = 2 ∨ m = 3 ∨ m = 4 ∨ m = 5 ∨ m = 6 ∨ m = 7 ∨ m = 8
            ∨ m = 9 ∨ m = 10 ∨ m = 11 ∨ m = 12) as Hcases by lia.
    subst doy. destruct leap;
      repeat (destruct Hcases as [->|Hcases]); try subst m; simpl in *; lia. }
  destruct Hdoy as [Hdoy|(Hdoy & Hl & -> & ->)].
  - rewrite ord2ymd_inside_year by done. fold leap. rewrite <- Hy.
    subst doy. by apply month_and_day_of_day_of_year.
  - rewrite Hdoy. subst leap.
    apply andb_true_iff in Hl as [He3 Hcb]. apply Z.eqb_eq in He3.
    assert (c ≠ 24 ∨ b = 3) as Hcb'.
    { apply orb_true_iff in Hcb as [Hcb|Hcb].
      - left. apply negb_true_iff, Z.eqb_neq in Hcb. done.
      - right. by apply Z.eqb_eq. }
    rewrite He3 in *. rewrite ord2ymd_last_day_of_leap_year by done.
    f_equal. lia.
Qed.

Lemma add_days_zero dt :
  valid_date (year (dt_date dt)) (month (dt_date dt)) (day (dt_date dt)) = true →
  add_days dt 0 = Ok dt.
Proof.
  intros Hv. pose proof (toordinal_bounds _ _ _ Hv) as Hb.
  unfold add_days, toordinal. simpl. rewrite Z.add_0_r.
  destruct (0 <? _) eqn:H1; [|apply Z.ltb_ge in H1; lia].
  destruct (_ <=? MAXORDINAL) eqn:H2; [|apply Z.leb_gt in H2; lia].
  simpl. rewrite ord2ymd_ymd2ord by done.
  destruct dt as [[y m d] hh mm ss us]. reflexivity.
Qed.

End ExtractionFacts.

Section ExtractionClaims.
Import PyDate Sheet Parser SheetExamples.

(** C4, as the claim states it, fails: a row with a valid name, a parseable
    date and a text in the days cell is not turned into a record with
    duration 0 but into a row error carrying the [ValueError] of [float]. *)
Lemma non_numeric_duration_is_a_row_error :
  with_header !! 3%nat
  = Some [CStr "Петров П.П."; CStr "ООО Ромашка"; CStr "две недели"; CStr "2024-03-05"]
  ∧ parse_date no_to_datetime (CStr "2024-03-05") = Ok (midnight (mkdate 2024 3 5))
  ∧ PyFloat.float "две недели" = Raise ValueError
  ∧ (∀ r, with_header !! 3%nat = Some r →
       parse_row no_to_datetime layout_0123 3 r
       = Failed {| err_row := 4; err_error := ValueError; err_fio := "Петров П.П." |})
  ∧ (∀ r v, with_header !! 3%nat = Some r →
       parse_row no_to_datetime layout_0123 3 r ≠ Parsed v).
Proof.
  split; [reflexivity|]. split; [vm_compute; reflexivity|].
  split; [vm_compute; reflexivity|]. split.
  - intros r [= <-]. vm_compute. reflexivity.
  - intros r v [= <-]. vm_compute. discriminate.
Qed.

(** C4, amended. For a data row with a valid name and a date cell that
    parses to a valid date: an empty days cell (or the placeholder "nan")
    gives a record with [days = 0] that ends on its start date, never a row
    error; a days cell that
    [float] accepts gives the record whose [days] is the integer part of
    that number, or a row error when the number has no integer part or the
    end date leaves the calendar; a days cell that [float] rejects gives a
    row error with the row number. *)
Theorem duration_cell_outcomes to_datetime cm i r start :
  let fio := PyStr.strip (str (gv r (cm_fio cm))) in
  let org := PyStr.strip (str (gv r (cm_org cm))) in
  let days_raw := PyStr.strip (str (gv r (cm_days cm))) in
  let date_cell := gv r (cm_start_date cm) in
  (String.eqb fio "" || String.eqb fio "nan" || PyStr.isdigit fio) = false →
  (negb (truthy date_cell) || String.eqb (PyStr.strip (str date_cell)) "nan"
   || String.eqb (PyStr.strip (str date_cell)) "") = false →
  parse_date to_datetime date_cell = Ok start →
  valid_date (year (dt_date start)) (month (dt_date start)) (day (dt_date start)) = true →
  (days_raw = "" ∨ days_raw = "nan" →
     parse_row to_datetime cm i r
     = Parsed {| fio := fio; org := org; days := 0;
                 start_date := strftime_Ymd start;
                 end_date := strftime_Ymd start |})
  ∧ (days_raw ≠ "" → days_raw ≠ "nan" →
     ∀ x, PyFloat.float days_raw = Ok x →
       (∀ d end_dt, PyFloat.int x = Ok d → add_days start d = Ok end_dt →
          parse_row to_datetime cm i r
          = Parsed {| fio := fio; org := org; days := d;
                      start_date := strftime_Ymd start;
                      end_date := strftime_Ymd end_dt |})
       ∧ (∀ e, PyFloat.int x = Raise e →
            parse_row to_datetime cm i r
            = Failed {| err_row := S i; err_error := e; err_fio := fio |})
       ∧ (∀ d e, PyFloat.int x = Ok d → add_days start d = Raise e →
            parse_row to_datetime cm i r
            = Failed {| err_row := S i; err_error := e; err_fio := fio |}))
  ∧ (days_raw ≠ "" → days_raw ≠ "nan" →
     ∀ e, PyFloat.float days_raw = Raise e →
       parse_row to_datetime cm i r
       = Failed {| err_row := S i; err_error := e; err_fio := fio |}).
Proof.
  intros fio org days_raw date_cell Hname Hcell Hdate Hvalid.
  assert (∀ P : string → Prop, P days_raw → P (PyStr.strip (str (gv r (cm_days cm)))))
    as Hfold by done.
  unfold parse_row. fold fio org date_cell. rewrite Hname, Hcell.
  unfold build_record. rewrite Hdate. simpl. fold days_raw.
  unfold parse_days. split; [|split].
  - intros Hempty.
    assert (negb (String.eqb days_raw "") && negb (String.eqb days_raw "nan") = false)
      as -> by (destruct Hempty as [-> | ->]; reflexivity).
    simpl. by rewrite (add_days_zero start Hvalid).
  - intros H1 H2 x Hx.
    apply String.eqb_neq in H1, H2. rewrite H1, H2. simpl.
    unfold PyFloat.int_float. rewrite Hx. simpl.
    split; [|split].
    + intros d end_dt Hd He. rewrite Hd. simpl. by rewrite He.
    + intros e ->. reflexivity.
    + intros d e Hd He. rewrite Hd. simpl. by rewrite He.
  - intros H1 H2 e He.
    apply String.eqb_neq in H1, H2. rewrite H1, H2. simpl.
    unfold PyFloat.int_float. rewrite He. reflexivity.
Qed.

Lemma duration_cell_outcomes_witness :
  parse_row no_to_datetime layout_0123 4
    [CStr "Сидоров С.С."; CStr "ООО Ромашка"; CNa NaN;
     CTimestamp (midnight (mkdate 2024 12 25))]
  = Parsed {| fio := "Сидоров С.С."; org := "ООО Ромашка"; days := 0;
              start_date := "2024-12-25"; end_date := "2024-12-25" |}
  ∧ parse_row no_to_datetime layout_0123 2
      [CStr "Иванов И.И."; CStr "ООО Ромашка"; CStr "14.7"; CStr "01.03.2024"]
    = Parsed {| fio := "Иванов И.И."; org := "ООО Ромашка"; days := 14;
                start_date := "2024-03-01"; end_date := "2024-03-15" |}.
Proof.
  split.
  - apply (duration_cell_outcomes no_to_datetime layout_0123 4
             [CStr "Сидоров С.С."; CStr "ООО Ромашка"; CNa NaN;
              CTimestamp (midnight (mkdate 2024 12 25))]
             (midnight (mkdate 2024 12 25)));
      try (vm_compute; reflexivity).
    left. vm_compute. reflexivity.
  - pose proof (duration_cell_outcomes no_to_datetime layout_0123 2
                  [CStr "Иванов И.И."; CStr "ООО Ромашка"; CStr "14.7"; CStr "01.03.2024"]
                  (midnight (mkdate 2024 3 1))
                  ltac:(vm_compute; reflexivity) ltac:(vm_compute; reflexivity)
                  ltac:(vm_compute; reflexivity) ltac:(vm_compute; reflexivity))
      as (_ & Hnum & _).
    assert (∃ x, PyFloat.float "14.7" = Ok x ∧ PyFloat.int x = Ok 14) as (x & Hf & Hi)
      by (eexists; split; vm_compute; reflexivity).
    destruct (Hnum ltac:(vm_compute; discriminate) ltac:(vm_compute; discriminate) x Hf)
      as (Hok & _ & _).
    apply (Hok 14 (midnight (mkdate 2024 3 15)) Hi). vm_compute. reflexivity.
Defined.

End ExtractionClaims.

(** * Further properties *)

(** ** The pass against its description *)
Section PassSpec.
Import PyDate Storage Notifier Reminders.

Variable today : date.
Variable delivers : string -> nat -> bool.

Lemma logged_spec log idx :
  logged log idx = true ↔ ∃ e, e ∈ log ∧ vacation_id e = Z.of_nat idx.
Proof.
  unfold logged. rewrite existsb_exists. split.
  - intros (e & He & Heq). exists e. split; [by apply list_elem_of_In|by apply Z.eqb_eq].
  - intros (e & He & Heq). exists e. split; [by apply list_elem_of_In|by apply Z.eqb_eq].
Qed.

Lemma key_notified_logged log idx :
  key (Z.of_nat idx) today ∈ notified_keys today log ↔ logged log idx = true.
Proof. by rewrite key_in_notified, logged_spec. Qed.

(** One turn of the loop, against [reminder_for]. *)
Lemma check_vacation_spec chat_id n log idx v S sc :
  (key (Z.of_nat idx) today ∈ S ↔ logged log idx = true) →
  match reminder_for today delivers chat_id n log idx v with
  | None => check_vacation today delivers chat_id n idx v (S, sc) = (S, sc)
  | Some ev =>
      check_vacation today delivers chat_id n idx v (S, sc)
      = (if delivered ev then {[ key (Z.of_nat idx) today ]} ∪ S else S,
         {| all_notifications :=
              if delivered ev
              then <[chat_id := log_of sc chat_id ++ [log_entry today ev]]>
                     (all_notifications sc)
              else all_notifications sc;
            sent_count := if delivered ev then Datatypes.S (sent_count sc)
                          else sent_count sc;
            outbox := outbox sc ++ [ev] |})
  end.
Proof.
  intros Hkey. unfold reminder_for, check_vacation, log_of, log_entry.
  destruct (days_left today v) as [d|e]; [|done].
  destruct ((0 <=? d) && (d <=? n)); simpl; [|done].
  destruct (decide (key (Z.of_nat idx) today ∈ S)) as [Hin|Hin].
  - apply Hkey in Hin. by rewrite Hin.
  - assert (logged log idx = false) as ->.
    { destruct (logged log idx) eqn:Hl; [|done]. destruct Hin. by apply Hkey. }
    simpl. by destruct (delivers chat_id idx).
Qed.

Lemma with_entries_snoc chat_id e es m :
  with_entries chat_id es (<[chat_id := default [] (m !! chat_id) ++ [e]]> m)
  = with_entries chat_id (e :: es) m.
Proof.
  unfold with_entries. destruct es as [|e' es].
  - done.
  - rewrite lookup_insert_eq. simpl. rewrite insert_insert_eq.
    by rewrite <- app_assoc.
Qed.

(** The loop over the records of a chat, against [reminders_from]: the set
    of keys only has to agree with the log on the indexes still to come. *)
Lemma scan_vacations_spec chat_id n log vs : ∀ idx S sc,
  (∀ j, (idx ≤ j)%nat → key (Z.of_nat j) today ∈ S ↔ logged log j = true) →
  let out := reminders_from today delivers chat_id n log idx vs in
  let sc' := (scan_vacations today delivers chat_id n idx vs (S, sc)).2 in
  outbox sc' = outbox sc ++ out
  ∧ sent_count sc' = (sent_count sc + length (delivered_entries today out))%nat
  ∧ all_notifications sc'
    = with_entries chat_id (delivered_entries today out) (all_notifications sc).
Proof.
  induction vs as [|v vs IH]; intros idx S sc Hinv; simpl.
  - rewrite app_nil_r, Nat.add_0_r. done.
  - pose proof (check_vacation_spec chat_id n log idx v S sc (Hinv idx (le_n _))) as Hstep.
    destruct (reminder_for today delivers chat_id n log idx v) as [ev|] eqn:Hr.
    + rewrite Hstep.
      assert (for_idx ev = idx) as Hidx.
      { unfold reminder_for in Hr. destruct (days_left today v); [|done].
        destruct (_ && _); [|done]. by injection Hr as <-. }
      destruct (delivered ev) eqn:Hdel.
      * edestruct (IH (Datatypes.S idx) ({[key (Z.of_nat idx) today]} ∪ S)) as (H1 & H2 & H3);
          [|rewrite H1, H2, H3].
        { intros j Hj. rewrite <- Hinv by lia.
          split; [|intros Hk; apply elem_of_union; by right].
          intros [Hk|Hk]%elem_of_union; [|done].
          apply elem_of_singleton in Hk. apply key_inj in Hk. lia. }
        simpl. unfold delivered_entries. rewrite filter_cons_True by done.
        rewrite fmap_cons. simpl. split; [by rewrite <- app_assoc|]. split; [lia|].
        unfold log_of. apply with_entries_snoc.
      * edestruct (IH (Datatypes.S idx) S) as (H1 & H2 & H3); [|rewrite H1, H2, H3].
        { intros j Hj. apply Hinv. lia. }
        simpl. unfold delivered_entries. rewrite filter_cons_False by congruence.
        split; [by rewrite <- app_assoc|]. done.
    + rewrite Hstep. apply IH. intros j Hj. apply Hinv. lia.
Qed.

Lemma elem_of_concat {A} (x : A) (ls : list (list A)) :
  x ∈ concat ls ↔ ∃ l, l ∈ ls ∧ x ∈ l.
Proof.
  rewrite list_elem_of_In, in_concat. split.
  - intros (l & Hl & Hx). exists l. by rewrite !list_elem_of_In.
  - intros (l & Hl & Hx). exists l. by rewrite <- !list_elem_of_In.
Qed.

Lemma reminders_from_chat chat_id n log vs : ∀ idx ev,
  ev ∈ reminders_from today delivers chat_id n log idx vs →
  to_chat ev = chat_id
  ∧ ∃ j v d, vs !! j = Some v ∧ for_idx ev = (idx + j)%nat
      ∧ days_left today v = Ok d ∧ 0 <= d <= n
      ∧ logged log (idx + j) = false
      ∧ text ev = reminder v d
      ∧ delivered ev = delivers chat_id (idx + j).
Proof.
  induction vs as [|v vs IH]; intros idx ev Hin; simpl in Hin.
  - by apply elem_of_nil in Hin.
  - assert (ev ∈ reminders_from today delivers chat_id n log (Datatypes.S idx) vs →
            to_chat ev = chat_id
            ∧ ∃ j w d, (v :: vs) !! j = Some w ∧ for_idx ev = (idx + j)%nat
                ∧ days_left today w = Ok d ∧ 0 <= d <= n
                ∧ logged log (idx + j) = false
                ∧ text ev = reminder w d
                ∧ delivered ev = delivers chat_id (idx + j)) as Hrest.
    { intros H. destruct (IH _ _ H) as (Hc & j & w & d & Hj & Hi & Hrest).
      split; [done|]. exists (Datatypes.S j), w, d.
      replace (idx + Datatypes.S j)%nat with (Datatypes.S idx + j)%nat by lia.
      done. }
    destruct (reminder_for today delivers chat_id n log idx v) as [ev0|] eqn:Hr;
      [|by apply Hrest].
    apply elem_of_cons in Hin as [->|Hin]; [|by apply Hrest].
    unfold reminder_for in Hr. destruct (days_left today v) as [d|] eqn:Hd; [|done].
    destruct ((0 <=? d) && (d <=? n) && negb (logged log idx)) eqn:Hc; [|done].
    injection Hr as <-. simpl. split; [done|].
    apply andb_true_iff in Hc as [[H0 Hn]%andb_true_iff Hl].
    exists 0%nat, v, d. rewrite Nat.add_0_r. simpl.
    apply negb_true_iff in Hl. repeat split; try done; lia.
Qed.

(** The reminders of a chat come in the order of the records. *)
Lemma reminders_from_indexes chat_id n log vs : ∀ idx,
  ∃ js, for_idx <$> reminders_from today delivers chat_id n log idx vs = js
        ∧ Forall (fun j => (idx ≤ j)%nat) js ∧ NoDup js.
Proof.
  induction vs as [|v vs IH]; intros idx; simpl.
  - exists []. split; [done|]. split; constructor.
  - destruct (IH (Datatypes.S idx)) as (js & Hjs & Hall & Hnd).
    assert (Forall (fun j => (idx ≤ j)%nat) js) as Hall'.
    { eapply Forall_impl; [exact Hall|]. simpl. lia. }
    destruct (reminder_for today delivers chat_id n log idx v) as [ev|] eqn:Hr.
    + assert (for_idx ev = idx) as Hidx.
      { unfold reminder_for in Hr. destruct (days_left today v); [|done].
        destruct (_ && _); [|done]. by injection Hr as <-. }
      exists (idx :: js). rewrite fmap_cons, Hjs, Hidx. split; [done|].
      split; [by constructor|]. constructor; [|done].
      intros Hin. rewrite Forall_forall in Hall. apply Hall in Hin. lia.
    + by exists js.
Qed.

Lemma chat_reminders_ext avac logs logs' chat_id cs :
  logs !! chat_id = logs' !! chat_id →
  chat_reminders today delivers avac logs (chat_id, cs)
  = chat_reminders today delivers avac logs' (chat_id, cs).
Proof. intros H. unfold chat_reminders. by rewrite H. Qed.

Lemma chat_reminders_chat avac logs chat_id cs ev :
  ev ∈ chat_reminders today delivers avac logs (chat_id, cs) → to_chat ev = chat_id.
Proof.
  unfold chat_reminders. destruct (String.eqb _ _); [by intros ?%elem_of_nil|].
  destruct (notify_days cs) as [[| |]|]; try by intros ?%elem_of_nil.
  - intros H. by apply reminders_from_chat in H as [? _].
  - intros H. by apply reminders_from_chat in H as [? _].
Qed.

(** The body of the loop over the chats, against [chat_reminders]. *)
Lemma scan_chat_spec avac sc chat_id cs :
  let out := chat_reminders today delivers avac (all_notifications sc) (chat_id, cs) in
  let sc' := scan_chat today delivers avac sc (chat_id, cs) in
  outbox sc' = outbox sc ++ out
  ∧ sent_count sc' = (sent_count sc + length (delivered_entries today out))%nat
  ∧ all_notifications sc'
    = with_entries chat_id (delivered_entries today out) (all_notifications sc).
Proof.
  unfold scan_chat, chat_reminders.
  assert (outbox sc = outbox sc ++ []
          ∧ sent_count sc = (sent_count sc + length (delivered_entries today []))%nat
          ∧ all_notifications sc
            = with_entries chat_id (delivered_entries today []) (all_notifications sc)) as Hnone.
  { rewrite app_nil_r. simpl. rewrite Nat.add_0_r. done. }
  destruct (String.eqb chat_id "hr_chat_id"); [exact Hnone|].
  destruct (notify_days cs) as [n|]; [|exact Hnone].
  assert (∀ j, (0 ≤ j)%nat →
            key (Z.of_nat j) today
              ∈ notified_keys today (default [] (all_notifications sc !! chat_id))
            ↔ logged (default [] (all_notifications sc !! chat_id)) j = true) as Hinv.
  { intros j _. apply key_notified_logged. }
  destruct n as [|p|p]; [exact Hnone| |];
    apply (scan_vacations_spec chat_id _ _ _ 0%nat _ sc Hinv).
Qed.

Lemma entries_for_app c out1 out2 :
  entries_for today c (out1 ++ out2) = entries_for today c out1 ++ entries_for today c out2.
Proof. unfold entries_for. by rewrite filter_app, fmap_app. Qed.

Lemma entries_for_own c out :
  Forall (fun ev => to_chat ev = c) out →
  entries_for today c out = delivered_entries today out.
Proof.
  unfold entries_for, delivered_entries. induction 1 as [|ev out Hev _ IH]; [done|].
  destruct (delivered ev) eqn:Hd.
  - rewrite !filter_cons_True by done. rewrite !fmap_cons. by f_equal.
  - rewrite !filter_cons_False; [done|congruence|]. intros [? _]. congruence.
Qed.

Lemma entries_for_other c out :
  Forall (fun ev => to_chat ev ≠ c) out → entries_for today c out = [].
Proof.
  unfold entries_for. induction 1 as [|ev out Hev _ IH]; [done|].
  rewrite filter_cons_False; [done|]. by intros [_ ?].
Qed.

Lemma with_entries_lookup_ne c c' es (m : gmap string (list notification)) :
  c ≠ c' → with_entries c' es m !! c = m !! c.
Proof.
  intros Hne. unfold with_entries. destruct es; [done|].
  by rewrite lookup_insert_ne.
Qed.

(** The loop over the chats: what is sent is the reminders of each chat
    computed from the logs the pass started from, and each chat's log gets
    the entries of its own delivered reminders. *)
Lemma scan_all_spec avac items : ∀ sc,
  NoDup items.*1 →
  let out := concat (chat_reminders today delivers avac (all_notifications sc) <$> items) in
  let sc' := scan_all today delivers avac sc items in
  outbox sc' = outbox sc ++ out
  ∧ sent_count sc' = (sent_count sc + length (delivered_entries today out))%nat
  ∧ ∀ c, all_notifications sc' !! c
         = with_entries c (entries_for today c out) (all_notifications sc) !! c.
Proof.
  induction items as [|[c0 cs0] items IH]; intros sc Hnd out sc'; subst out sc'.
  - simpl. rewrite app_nil_r, Nat.add_0_r. done.
  - apply NoDup_cons in Hnd as [Hc0 Hnd].
    rewrite fmap_cons. cbn [concat]. unfold scan_all. cbn [foldl].
    destruct (scan_chat_spec avac sc c0 cs0) as (H1 & H2 & H3).
    set (sc1 := scan_chat today delivers avac sc (c0, cs0)) in *.
    set (out0 := chat_reminders today delivers avac (all_notifications sc) (c0, cs0)) in *.
    destruct (IH sc1 Hnd) as (I1 & I2 & I3).
    assert (chat_reminders today delivers avac (all_notifications sc1) <$> items
            = chat_reminders today delivers avac (all_notifications sc) <$> items) as Hext.
    { apply Forall_fmap_ext_1, Forall_forall. intros [c cs] Hin. apply chat_reminders_ext.
      rewrite H3. apply with_entries_lookup_ne. intros ->. apply Hc0.
      apply list_elem_of_fmap. by exists (c0, cs). }
    rewrite Hext in I1, I2, I3.
    set (rest := concat (chat_reminders today delivers avac (all_notifications sc) <$> items)) in *.
    fold (scan_all today delivers avac sc1 items).
    assert (Forall (fun ev => to_chat ev = c0) out0) as Hown.
    { apply Forall_forall. intros ev Hev.
      by apply chat_reminders_chat in Hev. }
    assert (Forall (fun ev => to_chat ev ≠ c0) rest) as Hother.
    { apply Forall_forall. intros ev Hev.
      apply elem_of_concat in Hev as (l & Hl & Hev).
      apply list_elem_of_fmap in Hl as ([c cs] & -> & Hin).
      apply chat_reminders_chat in Hev. rewrite Hev. intros ->. apply Hc0.
      apply list_elem_of_fmap. by exists (c0, cs). }
    split; [by rewrite I1, H1, <- app_assoc|]. split.
    { rewrite I2, H2. unfold delivered_entries.
      rewrite filter_app, fmap_app, !length_app. lia. }
    intros c. rewrite I3, entries_for_app.
    destruct (decide (c = c0)) as [->|Hne].
    + rewrite (entries_for_other c0 rest Hother), app_nil_r. simpl.
      rewrite H3. by rewrite (entries_for_own c0 out0 Hown).
    + assert (entries_for today c out0 = []) as ->.
      { apply entries_for_other. eapply Forall_impl; [exact Hown|]. simpl. congruence. }
      simpl. unfold with_entries. destruct (entries_for today c rest); rewrite H3.
      * by apply with_entries_lookup_ne.
      * rewrite !lookup_insert_eq. by rewrite with_entries_lookup_ne.
Qed.

End PassSpec.

Section PassFacts.
Import PyDate Storage Notifier Reminders.

Variable today : date.
Variable delivers : string -> nat -> bool.

Lemma reminders_from_complete chat_id n log vs : ∀ idx j v d,
  vs !! j = Some v → days_left today v = Ok d → 0 <= d <= n →
  logged log (idx + j) = false →
  mksent chat_id (idx + j) (reminder v d) (delivers chat_id (idx + j))
    ∈ reminders_from today delivers chat_id n log idx vs.
Proof.
  induction vs as [|v0 vs IH]; intros idx j v d Hj Hd Hw Hl; [done|].
  destruct j as [|j]; simpl in Hj.
  - injection Hj as ->. rewrite Nat.add_0_r in *. simpl.
    unfold reminder_for. rewrite Hd, Hl.
    replace (0 <=? d) with true by (symmetry; apply Z.leb_le; lia).
    replace (d <=? n) with true by (symmetry; apply Z.leb_le; lia).
    simpl. apply list_elem_of_here.
  - replace (idx + Datatypes.S j)%nat with (Datatypes.S idx + j)%nat in * by lia.
    cbn [reminders_from]. destruct (reminder_for today delivers chat_id n log idx v0).
    + apply list_elem_of_further. by apply IH.
    + by apply IH.
Qed.

(** Which sends are among the reminders of a pass. *)
Lemma pass_reminders_elem data ev :
  ev ∈ pass_reminders today delivers data ↔
  ∃ cs n v d,
    settings data !! to_chat ev = Some cs ∧ to_chat ev ≠ "hr_chat_id"
    ∧ notify_days cs = Some n ∧ n ≠ 0
    ∧ default [] (as_dict (vacations data) !! to_chat ev) !! for_idx ev = Some v
    ∧ days_left today v = Ok d ∧ 0 <= d <= n
    ∧ logged (default [] (as_dict (notifications data) !! to_chat ev)) (for_idx ev) = false
    ∧ text ev = reminder v d
    ∧ delivered ev = delivers (to_chat ev) (for_idx ev).
Proof.
  unfold pass_reminders. rewrite elem_of_concat. split.
  - intros (l & Hl & Hev). apply list_elem_of_fmap in Hl as ([c cs] & -> & Hin).
    apply elem_of_map_to_list in Hin.
    pose proof (chat_reminders_chat today delivers _ _ _ _ _ Hev) as Hc.
    unfold chat_reminders in Hev.
    destruct (String.eqb c "hr_chat_id") eqn:Hhr; [by apply elem_of_nil in Hev|].
    apply String.eqb_neq in Hhr.
    destruct (notify_days cs) as [n|] eqn:Hn; [|by apply elem_of_nil in Hev].
    assert (n ≠ 0 ∧ ev ∈ reminders_from today delivers c n
              (default [] (as_dict (notifications data) !! c)) 0
              (default [] (as_dict (vacations data) !! c))) as [Hn0 Hev'].
    { destruct n; [by apply elem_of_nil in Hev|done|done]. }
    apply reminders_from_chat in Hev' as (_ & j & v & d & Hj & Hi & Hd & Hw & Hl & Ht & Hdl).
    simpl in Hi, Hl, Hdl. subst c. rewrite <- Hi in *.
    exists cs, n, v, d. done.
  - intros (cs & n & v & d & Hs & Hhr & Hn & Hn0 & Hj & Hd & Hw & Hl & Ht & Hdl).
    exists (chat_reminders today delivers (as_dict (vacations data))
              (as_dict (notifications data)) (to_chat ev, cs)).
    split.
    { apply list_elem_of_fmap. exists (to_chat ev, cs). split; [done|].
      by apply elem_of_map_to_list. }
    unfold chat_reminders. apply String.eqb_neq in Hhr. rewrite Hhr, Hn.
    pose proof (reminders_from_complete (to_chat ev) n _ _ 0%nat _ v d Hj Hd Hw Hl) as Hin.
    simpl in Hin. rewrite <- Ht, <- Hdl in Hin.
    destruct ev as [c i t ok]. simpl in *. by destruct n.
Qed.

(** The pass, against [pass_reminders]. *)
Lemma run_scan_spec data :
  let sc := run_scan today delivers data in
  let out := pass_reminders today delivers data in
  outbox sc = out
  ∧ sent_count sc = length (delivered_entries today out)
  ∧ ∀ c, log_of sc c
         = default [] (as_dict (notifications data) !! c) ++ entries_for today c out.
Proof.
  unfold run_scan, pass_reminders.
  destruct (scan_all_spec today delivers (as_dict (vacations data))
              (map_to_list (settings data))
              (mkscan (as_dict (notifications data)) 0 [])
              (NoDup_fst_map_to_list _)) as (H1 & H2 & H3).
  simpl in *. split; [done|]. split; [done|].
  intros c. unfold log_of. rewrite H3. unfold with_entries.
  destruct (entries_for today c _); [by rewrite app_nil_r|].
  by rewrite lookup_insert_eq.
Qed.

Lemma reminders_from_pairs_NoDup chat_id n log vs idx :
  NoDup ((fun ev => (to_chat ev, for_idx ev))
           <$> reminders_from today delivers chat_id n log idx vs).
Proof.
  destruct (reminders_from_indexes today delivers chat_id n log vs idx)
    as (js & Hjs & _ & Hnd).
  apply (NoDup_fmap_1 snd). rewrite <- list_fmap_compose.
  by rewrite <- Hjs in Hnd.
Qed.

Lemma chat_reminders_pairs_NoDup avac logs item :
  NoDup ((fun ev => (to_chat ev, for_idx ev))
           <$> chat_reminders today delivers avac logs item).
Proof.
  destruct item as [c cs]. unfold chat_reminders.
  destruct (String.eqb c "hr_chat_id"); [constructor|].
  destruct (notify_days cs) as [[| |]|]; try constructor;
    apply reminders_from_pairs_NoDup.
Qed.

Lemma concat_reminders_pairs_NoDup avac logs items :
  NoDup items.*1 →
  NoDup ((fun ev => (to_chat ev, for_idx ev))
           <$> concat (chat_reminders today delivers avac logs <$> items)).
Proof.
  induction items as [|[c cs] items IH]; intros Hnd; [constructor|].
  apply NoDup_cons in Hnd as [Hc Hnd].
  rewrite fmap_cons. cbn [concat]. rewrite fmap_app. apply NoDup_app.
  split; [apply chat_reminders_pairs_NoDup|]. split; [|by apply IH].
  intros [c1 i1] Hin1 Hin2.
  apply list_elem_of_fmap in Hin1 as (ev1 & [= -> ->] & Hev1).
  apply list_elem_of_fmap in Hin2 as (ev2 & [= Hc2 Hi2] & Hev2).
  apply chat_reminders_chat in Hev1.
  apply elem_of_concat in Hev2 as (l & Hl & Hev2).
  apply list_elem_of_fmap in Hl as ([c' cs'] & -> & Hin).
  apply chat_reminders_chat in Hev2.
  apply Hc. apply list_elem_of_fmap. exists (c', cs'). split; [|done].
  simpl. congruence.
Qed.

Lemma pass_reminders_pairs_NoDup data :
  NoDup ((fun ev => (to_chat ev, for_idx ev)) <$> pass_reminders today delivers data).
Proof. apply concat_reminders_pairs_NoDup, NoDup_fst_map_to_list. Qed.

(** The pass always returns, with the sends of [pass_reminders]. *)
Lemma pass_sends f data :
  load_data f = Ok data →
  ∃ f', send_notifications today delivers f
        = Ok (f', pass_reminders today delivers data).
Proof.
  intros Hload. unfold send_notifications. rewrite Hload. simpl.
  destruct (run_scan_spec data) as (-> & _ & _).
  destruct (_ =? _)%nat; eauto.
Qed.

Lemma delivered_entries_nil out :
  delivered_entries today out = [] ↔ Forall (fun ev => delivered ev = false) out.
Proof.
  unfold delivered_entries. induction out as [|ev out IH]; [by split; [constructor|]|].
  destruct (delivered ev) eqn:Hd.
  - rewrite filter_cons_True by done. split; [done|].
    intros H. apply Forall_cons in H as [H _]. congruence.
  - rewrite filter_cons_False by congruence. rewrite IH. split.
    + by constructor.
    + by intros [_ ?]%Forall_cons.
Qed.

Lemma entries_for_failed c out :
  Forall (fun ev => delivered ev = false) out → entries_for today c out = [].
Proof.
  unfold entries_for. induction 1 as [|ev l Hev _ IH]; [done|].
  rewrite filter_cons_False; [done|]. intros [? _]. congruence.
Qed.

(** The document after a pass, against the document before it. *)
Lemma pass_logs_after f f' out :
  send_notifications today delivers f = Ok (f', out) →
  ∃ data data',
    load_data f = Ok data ∧ load_data f' = Ok data'
    ∧ out = pass_reminders today delivers data
    ∧ settings data' = settings data
    ∧ as_dict (vacations data') = as_dict (vacations data)
    ∧ ∀ c, default [] (as_dict (notifications data') !! c)
           = default [] (as_dict (notifications data) !! c)
             ++ entries_for today c out.
Proof.
  destruct (load_data_total f) as [data Hload].
  unfold send_notifications. rewrite Hload. simpl.
  destruct (run_scan_spec data) as (Hout & Hcnt & Hlog).
  destruct (sent_count _ =? 0)%nat eqn:Hz; intros [= <- <-].
  - exists data, data. repeat split; try done.
    intros c. apply Nat.eqb_eq in Hz. rewrite Hcnt in Hz.
    apply length_zero_iff_nil in Hz. rewrite Hout.
    apply delivered_entries_nil in Hz.
    by rewrite (entries_for_failed c _ Hz), app_nil_r.
  - eexists data, _. split; [done|]. split; [reflexivity|]. simpl.
    repeat split; [done|]. intros c. rewrite Hout. apply Hlog.
Qed.

End PassFacts.

Section PassProperties.
Import PyDate Storage Notifier Reminders Examples MoreExamples.

(** X1. The sends of a pass are exactly the reminders read off the
    loaded document: chat by chat, in the order of the records, one for
    each record inside the window whose index has no entry in the chat's
    log as it was when the pass began.  What the pass appends to a log
    while it runs never suppresses a send of the same pass. *)
Theorem pass_sends_the_reminders_of_the_document today delivers f data :
  load_data f = Ok data →
  ∃ f', send_notifications today delivers f
        = Ok (f', pass_reminders today delivers data).
Proof.
  intros Hload. unfold send_notifications. rewrite Hload. simpl.
  destruct (run_scan_spec today delivers data) as (-> & _ & _).
  destruct (_ =? _)%nat; eauto.
Qed.

Lemma pass_sends_the_reminders_of_the_document_witness :
  ∃ f', send_notifications june1 only_second (Stored two_chats)
        = Ok (f', pass_reminders june1 only_second two_chats).
Proof.
  apply (pass_sends_the_reminders_of_the_document june1 only_second
           (Stored two_chats) two_chats).
  reflexivity.
Defined.

(** X2. A pass makes at most one send for a record of a chat: no
    two sends of the same pass carry the same chat and the same index. *)
Theorem pass_sends_once_per_record today delivers f f' out :
  send_notifications today delivers f = Ok (f', out) →
  NoDup ((fun ev => (to_chat ev, for_idx ev)) <$> out).
Proof.
  destruct (load_data_total f) as [data Hload].
  unfold send_notifications. rewrite Hload. simpl.
  destruct (run_scan_spec today delivers data) as (Hout & _ & _).
  intros Hsend.
  assert (out = pass_reminders today delivers data) as ->.
  { rewrite <- Hout. by destruct (_ =? _)%nat; injection Hsend as _ <-. }
  apply pass_reminders_pairs_NoDup.
Qed.

Lemma pass_sends_once_per_record_witness :
  ∃ f' out,
    send_notifications june1 always (Stored two_chats) = Ok (f', out)
    ∧ (fun ev => (to_chat ev, for_idx ev)) <$> out
      = [("chat1", 0%nat); ("chat2", 0%nat); ("chat2", 1%nat)]
    ∧ NoDup ((fun ev => (to_chat ev, for_idx ev)) <$> out).
Proof.
  eexists _, _. split; [vm_compute; reflexivity|]. split; [vm_compute; reflexivity|].
  eapply (pass_sends_once_per_record june1 always (Stored two_chats)).
  vm_compute. reflexivity.
Defined.

(** X3. What a pass leaves in the file: the settings, the reserved
    channel entry and the per-chat records are those it loaded, and the log
    of every chat is the loaded log followed by one entry, with the
    record's index and today's date, for each send to that chat that went
    through, in the order of the sends.  A send that failed leaves no
    entry. *)
Theorem pass_logs_the_delivered_sends today delivers f f' out :
  send_notifications today delivers f = Ok (f', out) →
  ∃ data data',
    load_data f = Ok data ∧ load_data f' = Ok data'
    ∧ settings data' = settings data
    ∧ hr_chat_id data' = hr_chat_id data
    ∧ as_dict (vacations data') = as_dict (vacations data)
    ∧ ∀ c, default [] (as_dict (notifications data') !! c)
           = default [] (as_dict (notifications data) !! c)
             ++ entries_for today c out.
Proof.
  intros Hsend.
  destruct (pass_logs_after today delivers f f' out Hsend)
    as (data & data' & Hload & Hload' & _ & Hset & Hvac & Hlog).
  exists data, data'. repeat split; try done.
  unfold send_notifications in Hsend. rewrite Hload in Hsend. simpl in Hsend.
  destruct (_ =? _)%nat; injection Hsend as <- _.
  - congruence.
  - by injection Hload' as <-.
Qed.

Lemma pass_logs_the_delivered_sends_witness :
  ∃ f' out data',
    send_notifications june1 only_second (Stored two_chats) = Ok (f', out)
    ∧ delivered <$> out = [false; false; true]
    ∧ load_data f' = Ok data'
    ∧ default [] (as_dict (notifications data') !! "chat2")
      = [mknotification 1 "2024-06-01"]
    ∧ default [] (as_dict (notifications data') !! "chat1") = [].
Proof.
  destruct (pass_logs_the_delivered_sends june1 only_second (Stored two_chats) _ _
              ltac:(vm_compute; reflexivity))
    as (data & data' & Hd & Hd' & _ & _ & _ & Hlog).
  eexists _, _, data'. split; [vm_compute; reflexivity|].
  split; [vm_compute; reflexivity|]. split; [exact Hd'|].
  injection Hd as <-.
  split; rewrite Hlog; vm_compute; reflexivity.
Defined.

(** X4. The pass rewrites the file exactly when some send went through.
    When every send failed, or there was none, the file is left as it was,
    a legacy document included; otherwise the file holds a saved document
    whose records and logs are per-chat dictionaries. *)
Theorem pass_saves_iff_some_send_delivered today delivers f f' out :
  send_notifications today delivers f = Ok (f', out) →
  (Forall (fun ev => delivered ev = false) out → f' = f)
  ∧ (Exists (fun ev => delivered ev = true) out →
     ∃ data' vs logs, f' = Stored data'
       ∧ vacations data' = PerChat vs ∧ notifications data' = PerChat logs).
Proof.
  destruct (load_data_total f) as [data Hload].
  unfold send_notifications. rewrite Hload. simpl.
  destruct (run_scan_spec today delivers data) as (Hout & Hcnt & _).
  rewrite Hcnt, Hout.
  destruct (length _ =? 0)%nat eqn:Hz; intros [= <- <-].
  - split; [done|]. intros Hex.
    apply Nat.eqb_eq, length_zero_iff_nil, delivered_entries_nil in Hz.
    apply Exists_exists in Hex as (ev & Hin & Hd).
    rewrite Forall_forall in Hz. apply Hz in Hin. congruence.
  - split.
    + intros Hall.
      rewrite (proj2 (delivered_entries_nil today _) Hall) in Hz. discriminate.
    + intros _. eexists _, _, _. split; [reflexivity|]. split; reflexivity.
Qed.

Lemma pass_saves_iff_some_send_delivered_witness :
  send_notifications june1 never (Stored legacy_store) = Ok (Stored legacy_store, [])
  ∧ ∃ f' out, send_notifications june1 never (Stored two_chats) = Ok (f', out)
      ∧ length out = 3%nat ∧ f' = Stored two_chats.
Proof.
  split; [vm_compute; reflexivity|].
  eexists _, _. split; [vm_compute; reflexivity|]. split; [reflexivity|].
  eapply (pass_saves_iff_some_send_delivered june1 never (Stored two_chats)).
  - vm_compute. reflexivity.
  - repeat constructor.
Defined.

(** X5. A reminder whose send failed is tried again: the next pass of the
    same day over the file the first pass left makes a send for the same
    chat and index with the same text, whatever else the first pass
    delivered. *)
Theorem failed_send_is_retried_by_next_pass today d1 d2 f f1 out1 ev :
  send_notifications today d1 f = Ok (f1, out1) →
  ev ∈ out1 → delivered ev = false →
  ∃ f2 out2,
    send_notifications today d2 f1 = Ok (f2, out2)
    ∧ mksent (to_chat ev) (for_idx ev) (text ev) (d2 (to_chat ev) (for_idx ev)) ∈ out2.
Proof.
  intros Hsend Hev Hfail.
  destruct (pass_logs_after today d1 f f1 out1 Hsend)
    as (data & data1 & Hload & Hload1 & Hout & Hset & Hvac & Hlog).
  destruct (pass_sends today d2 f1 data1 Hload1) as (f2 & Hsend2).
  exists f2, (pass_reminders today d2 data1). split; [exact Hsend2|].
  subst out1. pose proof Hev as Hev0.
  apply pass_reminders_elem in Hev as (cs & n & v & d & Hs & Hhr & Hn & Hn0 & Hj & Hd & Hw & Hl & Ht & Hdl).
  apply (proj2 (pass_reminders_elem today d2 data1 _)). simpl. exists cs, n, v, d.
  rewrite Hset, Hvac, Hlog. repeat split; try done; try lia.
  destruct (logged (_ ++ _) _) eqn:Hlg; [|done]. exfalso.
  apply logged_spec in Hlg as (e & He & Hid).
  apply elem_of_app in He as [He|He].
  { assert (logged (default [] (as_dict (notifications data) !! to_chat ev)) (for_idx ev) = true)
      as Hc; [|congruence].
    apply logged_spec. by exists e. }
  unfold entries_for in He. apply list_elem_of_fmap in He as (ev' & -> & Hin).
  apply list_elem_of_filter in Hin as [[Hdel Hchat] Hin].
  simpl in Hid. apply Nat2Z.inj in Hid.
  apply pass_reminders_elem in Hin
    as (cs' & n' & v' & d' & _ & _ & _ & _ & _ & _ & _ & _ & _ & Hdl').
  rewrite Hdel, Hchat, Hid, <- Hdl in Hdl'. congruence.
Qed.

Lemma failed_send_is_retried_by_next_pass_witness :
  ∃ f1 out1 ev f2 out2,
    send_notifications june1 only_second (Stored two_chats) = Ok (f1, out1)
    ∧ out1 !! 0%nat = Some ev ∧ delivered ev = false
    ∧ send_notifications june1 always f1 = Ok (f2, out2)
    ∧ mksent (to_chat ev) (for_idx ev) (text ev) true ∈ out2.
Proof.
  destruct (failed_send_is_retried_by_next_pass june1 only_second always
              (Stored two_chats) _ _ _
              ltac:(vm_compute; reflexivity)
              ltac:(apply list_elem_of_here)
              ltac:(reflexivity))
    as (f2 & out2 & H2 & Hin).
  eexists _, _, _, f2, out2.
  split; [vm_compute; reflexivity|]. split; [reflexivity|]. split; [reflexivity|].
  split; [exact H2|exact Hin].
Defined.

End PassProperties.

(** ** The handlers *)
Section HandlerFacts.
Import PyDate Storage Upload Views Notifier Reminders Handlers.

(** The configured lead of a chat, if any. *)
Lemma set_channel_action_spec f chat_id data :
  load_data f = Ok data →
  ∃ data', set_channel_action f chat_id = Ok (Stored data')
    ∧ vacations data' = vacations data
    ∧ notifications data' = notifications data
    ∧ hr_chat_id data' = Some chat_id
    ∧ settings data' !! "hr_chat_id" = None
    ∧ (∀ c, c ≠ "hr_chat_id" →
         settings data' !! c ≫= notify_days = settings data !! c ≫= notify_days)
    ∧ (∀ c, c ≠ "hr_chat_id" → c ≠ chat_id → settings data' !! c = settings data !! c).
Proof.
  intros Hload. unfold set_channel_action. rewrite Hload. simpl.
  eexists. split; [reflexivity|]. simpl. repeat split.
  - apply lookup_delete_eq.
  - intros c Hc. rewrite lookup_delete_ne by done.
    destruct (settings data !! chat_id) eqn:Hs; [done|].
    destruct (decide (c = chat_id)) as [->|Hne].
    + by rewrite lookup_insert_eq, Hs.
    + by rewrite lookup_insert_ne.
  - intros c Hc Hne. rewrite lookup_delete_ne by done.
    destruct (settings data !! chat_id); [done|]. by rewrite lookup_insert_ne.
Qed.

(** The reminders of a pass depend on the records, the logs and the leads
    of the chats only. *)
Lemma pass_reminders_same today delivers data1 data2 ev :
  as_dict (vacations data1) = as_dict (vacations data2) →
  as_dict (notifications data1) = as_dict (notifications data2) →
  (∀ c, c ≠ "hr_chat_id" →
     settings data1 !! c ≫= notify_days = settings data2 !! c ≫= notify_days) →
  ev ∈ pass_reminders today delivers data1 → ev ∈ pass_reminders today delivers data2.
Proof.
  intros Hv Hl Hs Hev.
  apply pass_reminders_elem in Hev
    as (cs & n & v & d & Hc & Hhr & Hn & Hn0 & Hj & Hd & Hw & Hlg & Ht & Hdl).
  apply (proj2 (pass_reminders_elem today delivers data2 ev)).
  specialize (Hs _ Hhr). rewrite Hc in Hs. simpl in Hs. rewrite Hn in Hs.
  destruct (settings data2 !! to_chat ev) as [cs2|] eqn:Hc2; [|done]. simpl in Hs.
  exists cs2, n, v, d. rewrite <- Hv, <- Hl. done.
Qed.

(** The world a successful upload leaves. *)
Lemma download_and_parse_loaded lower to_datetime w chat_id df rows errors old :
  parse_job lower to_datetime df = Ok (rows, errors) → rows ≠ [] →
  load_data (data_file w) = Ok old →
  download_and_parse lower to_datetime w chat_id (Downloaded df)
  = Ok (Loaded (length rows) (length errors) (take 3 rows),
        {| data_file :=
             Stored {| vacations := PerChat (<[chat_id := rows]> (as_dict (vacations old)));
                       settings := settings old;
                       hr_chat_id := hr_chat_id old;
                       notifications :=
                         PerChat (<[chat_id := []]> (as_dict (notifications old))) |};
           pending_state := <[chat_id := "awaiting_threshold"]> (pending_state w) |}).
Proof.
  intros Hparse Hne Hload. unfold download_and_parse. rewrite Hparse.
  destruct rows as [|v rows]; [done|].
  unfold replace_vacations. rewrite Hload. reflexivity.
Qed.




Lemma world_of_say sends chat_id m w : world_of (say sends chat_id m w) = w.
Proof. unfold say. by destruct (sends chat_id m). Qed.



(** The world after the threshold branch, for a positive integer. *)
Lemma threshold_reply_saved py_int sends w chat_id text d data :
  py_int text = Ok d → 0 < d →
  load_data (data_file w) = Ok data →
  (chat_id = "hr_chat_id" → hr_chat_id data = None) →
  let data' := {| vacations := vacations data;
                  settings := <[chat_id := mkchat_settings (Some d)]> (settings data);
                  hr_chat_id := hr_chat_id data;
                  notifications := notifications data |} in
  let w' := {| data_file := Stored data';
               pending_state := delete chat_id (pending_state w) |} in
  world_of (threshold_reply py_int sends w chat_id text) = w'
  ∧ (sends chat_id (ThresholdSaved (loaded_count data) d) = None →
     threshold_reply py_int sends w chat_id text
     = Done [ThresholdSaved (loaded_count data) d] w').
Proof.
  intros Hint Hd Hload Hhr. unfold threshold_reply.
  rewrite Hint. replace (d <=? 0) with false by (symmetry; apply Z.leb_gt; lia).
  rewrite Hload. simpl. unfold set_notify_days.
  assert (String.eqb chat_id "hr_chat_id" && bool_decide (is_Some (hr_chat_id data))
          = false) as ->.
  { destruct (String.eqb_spec chat_id "hr_chat_id") as [Heq|]; [|done].
    by rewrite (Hhr Heq). }
  unfold loaded_count, save_data. simpl.
  destruct (sends chat_id _) as [e|] eqn:Hs.
  - split; [|done]. destruct e; try reflexivity. apply world_of_say.
  - split; [reflexivity|]. done.
Qed.

End HandlerFacts.

Section HandlerProperties.
Import PyDate Sheet Parser Storage Upload Views Notifier Reminders Handlers.
Import Examples SheetExamples MoreExamples.

Variable lower : string -> string.
Variable to_datetime : string -> result PyDate.datetime.
Variable py_int : string -> result Z.
Variable command : string -> string.
Variable get_file_info : string -> result file_info.
Variable fetch : string -> upload.
Variable sends : string -> message -> option exn.

(** X6. While a chat awaits its threshold, a message whose text is not an
    integer, or is an integer that is not positive, is answered with the
    request to enter a positive integer and nothing else happens: that
    request is the one send made, the handler ends with what the send
    raises if it raises, and either way the file and the awaiting state
    stay as they were; neither a file the message carries nor a command in
    its text is acted upon. *)
Theorem awaiting_chat_rejects_non_positive_text w ev :
  pending_state w !! from_chat ev = Some "awaiting_threshold" →
  py_int (ev_text ev) = Raise ValueError
  ∨ (∃ d, py_int (ev_text ev) = Ok d ∧ d <= 0) →
  on_message_async lower to_datetime py_int command get_file_info fetch sends w ev
  = match sends (from_chat ev) ThresholdRejected with
    | None => Done [ThresholdRejected] w
    | Some e => Failed e [] w
    end.
Proof.
  intros Hp Hbad. unfold on_message_async.
  rewrite bool_decide_eq_true_2 by done. unfold threshold_reply, say.
  destruct Hbad as [->|(d & -> & Hd)]; [done|].
  by apply Z.leb_le in Hd as ->.
Qed.

(** X7. While a chat awaits its threshold, a message whose text is a
    positive integer stores that number as the lead of the chat and ends
    the awaiting state of the chat, whether or not the confirmation then
    goes through; when it does, it is the one reply.  The leads of the
    other chats, the records and the logs, of this chat too, are as
    loaded.  The count in the confirmation is the number of chats that
    have records, or the length of the list in a legacy document. *)
Theorem awaiting_chat_saves_positive_threshold w ev d data :
  pending_state w !! from_chat ev = Some "awaiting_threshold" →
  py_int (ev_text ev) = Ok d → 0 < d →
  load_data (data_file w) = Ok data →
  (from_chat ev = "hr_chat_id" → hr_chat_id data = None) →
  ∃ data',
    world_of (on_message_async lower to_datetime py_int command get_file_info fetch
                sends w ev)
    = {| data_file := Stored data';
         pending_state := delete (from_chat ev) (pending_state w) |}
    ∧ (sends (from_chat ev) (ThresholdSaved (loaded_count data) d) = None →
       on_message_async lower to_datetime py_int command get_file_info fetch sends w ev
       = Done [ThresholdSaved (loaded_count data) d]
           {| data_file := Stored data';
              pending_state := delete (from_chat ev) (pending_state w) |})
    ∧ settings data' !! from_chat ev = Some (mkchat_settings (Some d))
    ∧ (∀ c, c ≠ from_chat ev → settings data' !! c = settings data !! c)
    ∧ vacations data' = vacations data
    ∧ notifications data' = notifications data
    ∧ hr_chat_id data' = hr_chat_id data.
Proof.
  intros Hp Hint Hd Hload Hhr. unfold on_message_async.
  rewrite bool_decide_eq_true_2 by done.
  destruct (threshold_reply_saved py_int sends w (from_chat ev) (ev_text ev) d data
              Hint Hd Hload Hhr) as [Hworld Hdone].
  eexists. split; [exact Hworld|]. split; [exact Hdone|]. simpl. repeat split.
  - apply lookup_insert_eq.
  - intros c Hc. by rewrite lookup_insert_ne.
Qed.

(** X8. Upload, then threshold.  After a file with at least one record
    is loaded for a chat, a positive integer sent by the chat ends the
    awaiting state; from then on the status of the chat shows the number of
    loaded records and the new lead, and a pass on any day sends to the chat
    exactly the reminders of the loaded records that start within the lead,
    each at its position in the file: the log of the chat was emptied by the
    upload.  None of this depends on a reply going through. *)
Theorem upload_then_threshold_arms_the_chat w chat_id df rows errors ev d :
  parse_job lower to_datetime df = Ok (rows, errors) → rows ≠ [] →
  chat_id ≠ "hr_chat_id" →
  from_chat ev = chat_id → py_int (ev_text ev) = Ok d → 0 < d →
  ∃ r w1 w2,
    download_and_parse lower to_datetime w chat_id (Downloaded df) = Ok (r, w1)
    ∧ world_of (on_message_async lower to_datetime py_int command get_file_info fetch
                  sends w1 ev) = w2
    ∧ pending_state w2 !! chat_id = None
    ∧ send_status (data_file w2) chat_id
      = Ok {| count := length rows; status_notify_days := Some d |}
    ∧ ∀ today delivers, ∃ f' out,
        send_notifications today delivers (data_file w2) = Ok (f', out)
        ∧ ∀ sent, to_chat sent = chat_id →
            (sent ∈ out ↔
             ∃ i v dl, rows !! i = Some v ∧ days_left today v = Ok dl ∧ 0 <= dl <= d
               ∧ sent = mksent chat_id i (reminder v dl) (delivers chat_id i)).
Proof.
  intros Hparse Hne Hhr Hchat Hint Hd.
  destruct (load_data_total (data_file w)) as [old Hload].
  rewrite (download_and_parse_loaded lower to_datetime w chat_id df rows errors old)
    by done.
  eexists _, _, _. split; [reflexivity|].
  unfold on_message_async. rewrite Hchat. simpl.
  rewrite lookup_insert_eq, bool_decide_eq_true_2 by done.
  match goal with
  | |- world_of (threshold_reply _ _ ?w1 _ _) = _ ∧ _ =>
      destruct (threshold_reply_saved py_int sends w1 chat_id (ev_text ev) d _
                  Hint Hd eq_refl) as [Hworld _]; [done|]
  end.
  split; [exact Hworld|]. simpl.
  split; [apply lookup_delete_eq|]. split.
  { unfold send_status. simpl.
    rewrite chat_settings_of_ok by (by left). simpl. by rewrite !lookup_insert_eq. }
  intros today delivers.
  match goal with
  | |- ∃ f' out, send_notifications _ _ (Stored ?data2) = _ ∧ _ =>
      destruct (pass_sends today delivers (Stored data2) data2 eq_refl) as (f' & Hsend);
      exists f', (pass_reminders today delivers data2)
  end.
  split; [exact Hsend|].
  intros sent Hto. rewrite pass_reminders_elem. simpl. rewrite Hto.
  rewrite !lookup_insert_eq. simpl. split.
  - intros (cs & n & v & dl & [= <-] & _ & [= <-] & _ & Hj & Hdl & Hw & _ & Ht & Hdel).
    exists (for_idx sent), v, dl. repeat split; try done; try lia.
    destruct sent as [c i t ok]. simpl in *. congruence.
  - intros (i & v & dl & Hj & Hdl & Hw & ->). simpl.
    exists (mkchat_settings (Some d)), d, v, dl. repeat split; try done; lia.
Qed.

(** X9. Choosing a chat as the channel does not route anything: the pass
    over the file [set_channel_action] leaves makes the same sends, to the
    same chats, as the pass over the file before it. *)
Theorem channel_choice_does_not_route_reminders
    today delivers f chat_id f1 out out1 fa fb :
  set_channel_action f chat_id = Ok f1 →
  send_notifications today delivers f = Ok (fa, out) →
  send_notifications today delivers f1 = Ok (fb, out1) →
  ∀ sent, sent ∈ out1 ↔ sent ∈ out.
Proof.
  intros Hset Ha Hb.
  destruct (load_data_total f) as [data Hload].
  destruct (set_channel_action_spec f chat_id data Hload)
    as (data1 & Hset' & Hv & Hl & _ & _ & Hs & _).
  rewrite Hset' in Hset. injection Hset as <-.
  destruct (pass_sends today delivers f data Hload) as (fa' & Ha').
  destruct (pass_sends today delivers (Stored data1) data1 eq_refl) as (fb' & Hb').
  rewrite Ha' in Ha. rewrite Hb' in Hb. injection Ha as _ <-. injection Hb as _ <-.
  intros sent. split; apply pass_reminders_same; try congruence.
  - done.
  - intros c Hc. symmetry. by apply Hs.
Qed.

(** X10. No button changes the records, the logs or the lead of any
    chat, and a button changes the awaiting state of no chat other than
    the one it was pressed in, whatever becomes of its reply. *)
Theorem buttons_keep_records_logs_and_leads today w chat_id callback_data data :
  load_data (data_file w) = Ok data →
  ∃ data',
    load_data (data_file (world_of (on_button_click_async sends today w chat_id
                                      callback_data))) = Ok data'
    ∧ vacations data' = vacations data
    ∧ notifications data' = notifications data
    ∧ (∀ c, c ≠ "hr_chat_id" →
         settings data' !! c ≫= notify_days = settings data !! c ≫= notify_days)
    ∧ (∀ c, c ≠ chat_id →
         pending_state (world_of (on_button_click_async sends today w chat_id
                                    callback_data)) !! c
         = pending_state w !! c).
Proof.
  intros Hload. unfold on_button_click_async.
  assert (∀ h, world_of h = w →
            ∃ data', load_data (data_file (world_of h)) = Ok data'
              ∧ vacations data' = vacations data
              ∧ notifications data' = notifications data
              ∧ (∀ c, c ≠ "hr_chat_id" →
                   settings data' !! c ≫= notify_days = settings data !! c ≫= notify_days)
              ∧ (∀ c, c ≠ chat_id → pending_state (world_of h) !! c = pending_state w !! c))
    as Hsame.
  { intros h ->. exists data. done. }
  assert (∀ h, world_of h = world_of (set_channel sends w chat_id) →
            ∃ data', load_data (data_file (world_of h)) = Ok data'
              ∧ vacations data' = vacations data
              ∧ notifications data' = notifications data
              ∧ (∀ c, c ≠ "hr_chat_id" →
                   settings data' !! c ≫= notify_days = settings data !! c ≫= notify_days)
              ∧ (∀ c, c ≠ chat_id → pending_state (world_of h) !! c = pending_state w !! c))
    as Hchannel.
  { intros h ->. unfold set_channel.
    destruct (set_channel_action_spec (data_file w) chat_id data Hload)
      as (data1 & Hset & Hv & Hl & _ & _ & Hs & _).
    rewrite Hset, world_of_say. simpl. exists data1. done. }
  destruct (String.eqb callback_data "cmd_status").
  { apply Hsame. unfold show_status.
    destruct (send_status _ _); [apply world_of_say|done]. }
  destruct (String.eqb callback_data "cmd_help"); [apply Hsame, world_of_say|].
  destruct (String.eqb callback_data "cmd_schedule").
  { apply Hsame. destruct (send_schedule _ _ _); [apply world_of_say|done]. }
  destruct (String.eqb callback_data "cmd_notifications").
  { rewrite world_of_say. simpl. exists data. repeat split; try done.
    intros c Hc. by rewrite lookup_insert_ne. }
  destruct (String.eqb callback_data "cmd_set_channel"); [by apply Hchannel|].
  by apply Hsame.
Qed.


End HandlerProperties.

Section HandlerExamples.
Import PyDate Sheet Parser Storage Upload Views Notifier Reminders Handlers.
Import Examples SheetExamples MoreExamples.

Lemma awaiting_chat_rejects_non_positive_text_witness :
  on_message_async lower_cyr no_to_datetime PyInt.int PyInt.command file_server downloads
    reliable (awaiting "chat1" fresh_store) (xlsx_message "chat1")
  = Done [ThresholdRejected] (awaiting "chat1" fresh_store)
  ∧ on_message_async lower_cyr no_to_datetime PyInt.int PyInt.command file_server downloads
      reliable (awaiting "chat1" fresh_store) (text_message "chat1" "0")
    = Done [ThresholdRejected] (awaiting "chat1" fresh_store).
Proof.
  split.
  - apply (awaiting_chat_rejects_non_positive_text lower_cyr no_to_datetime PyInt.int
             PyInt.command file_server downloads reliable
             (awaiting "chat1" fresh_store) (xlsx_message "chat1")).
    + reflexivity.
    + left. reflexivity.
  - apply (awaiting_chat_rejects_non_positive_text lower_cyr no_to_datetime PyInt.int
             PyInt.command file_server downloads reliable
             (awaiting "chat1" fresh_store) (text_message "chat1" "0")).
    + reflexivity.
    + right. exists 0. split; [reflexivity|lia].
Defined.

Lemma awaiting_chat_saves_positive_threshold_witness :
  ∃ data',
    world_of (on_message_async lower_cyr no_to_datetime PyInt.int PyInt.command
                file_server downloads reliable
                (awaiting "chat1" fresh_store) (text_message "chat1" "10"))
    = {| data_file := Stored data';
         pending_state := delete "chat1" (pending_state (awaiting "chat1" fresh_store)) |}
    ∧ (reliable "chat1" (ThresholdSaved (loaded_count fresh_store) 10) = None →
       on_message_async lower_cyr no_to_datetime PyInt.int PyInt.command
         file_server downloads reliable
         (awaiting "chat1" fresh_store) (text_message "chat1" "10")
       = Done [ThresholdSaved (loaded_count fresh_store) 10]
           {| data_file := Stored data';
              pending_state :=
                delete "chat1" (pending_state (awaiting "chat1" fresh_store)) |})
    ∧ settings data' !! "chat1" = Some (mkchat_settings (Some 10))
    ∧ (∀ c, c ≠ "chat1" → settings data' !! c = settings fresh_store !! c)
    ∧ vacations data' = vacations fresh_store
    ∧ notifications data' = notifications fresh_store
    ∧ hr_chat_id data' = hr_chat_id fresh_store.
Proof.
  apply (awaiting_chat_saves_positive_threshold lower_cyr no_to_datetime PyInt.int
           PyInt.command file_server downloads reliable
           (awaiting "chat1" fresh_store) (text_message "chat1" "10") 10 fresh_store).
  - reflexivity.
  - reflexivity.
  - lia.
  - reflexivity.
  - discriminate.
Defined.

Lemma upload_then_threshold_arms_the_chat_witness :
  ∃ rows errors,
    parse_job lower_cyr no_to_datetime (Ok with_header) = Ok (rows, errors)
    ∧ length rows = 2%nat
    ∧ ∃ r w1 w2,
        download_and_parse lower_cyr no_to_datetime (idle reminded_yesterday) "chat1"
          (Downloaded (Ok with_header)) = Ok (r, w1)
        ∧ world_of (on_message_async lower_cyr no_to_datetime PyInt.int PyInt.command
                      file_server downloads reliable w1 (text_message "chat1" "7")) = w2
        ∧ pending_state w2 !! "chat1" = None
        ∧ send_status (data_file w2) "chat1"
          = Ok {| count := length rows; status_notify_days := Some 7 |}
        ∧ ∀ today delivers, ∃ f' out,
            send_notifications today delivers (data_file w2) = Ok (f', out)
            ∧ ∀ sent, to_chat sent = "chat1" →
                (sent ∈ out ↔
                 ∃ i v dl, rows !! i = Some v ∧ days_left today v = Ok dl ∧ 0 <= dl <= 7
                   ∧ sent = mksent "chat1" i (reminder v dl) (delivers "chat1" i)).
Proof.
  eexists _, _. split; [vm_compute; reflexivity|]. split; [reflexivity|].
  eapply (upload_then_threshold_arms_the_chat lower_cyr no_to_datetime PyInt.int
           PyInt.command file_server downloads reliable
           (idle reminded_yesterday) "chat1" (Ok with_header) _ _
           (text_message "chat1" "7") 7).
  - vm_compute. reflexivity.
  - discriminate.
  - discriminate.
  - reflexivity.
  - reflexivity.
  - lia.
Defined.

Lemma channel_choice_does_not_route_reminders_witness :
  ∃ f1 fa out fb out1,
    set_channel_action (Stored two_chats) "chat3" = Ok f1
    ∧ send_notifications june1 always (Stored two_chats) = Ok (fa, out)
    ∧ send_notifications june1 always f1 = Ok (fb, out1)
    ∧ length out = 3%nat
    ∧ ∀ sent, sent ∈ out1 ↔ sent ∈ out.
Proof.
  eexists _, _, _, _, _.
  split; [vm_compute; reflexivity|]. split; [vm_compute; reflexivity|].
  split; [vm_compute; reflexivity|]. split; [reflexivity|].
  eapply (channel_choice_does_not_route_reminders june1 always (Stored two_chats) "chat3").
  - vm_compute. reflexivity.
  - vm_compute. reflexivity.
  - vm_compute. reflexivity.
Defined.

Lemma buttons_keep_records_logs_and_leads_witness :
  ∃ w' data',
    on_button_click_async reliable june1 (idle fresh_store) "chat2" "cmd_set_channel"
    = Done [ChannelSet] w'
    ∧ load_data (data_file w') = Ok data'
    ∧ hr_chat_id data' = Some "chat2"
    ∧ vacations data' = vacations fresh_store
    ∧ notifications data' = notifications fresh_store
    ∧ (∀ c, c ≠ "hr_chat_id" →
         settings data' !! c ≫= notify_days = settings fresh_store !! c ≫= notify_days)
    ∧ (∀ c, c ≠ "chat2" → pending_state w' !! c = pending_state (idle fresh_store) !! c).
Proof.
  destruct (buttons_keep_records_logs_and_leads reliable june1 (idle fresh_store) "chat2"
              "cmd_set_channel" fresh_store ltac:(reflexivity))
    as (data' & Hload & Hrest).
  eexists _, data'. split; [vm_compute; reflexivity|]. split; [exact Hload|].
  split; [|exact Hrest].
  injection Hload as <-. reflexivity.
Defined.


End HandlerExamples.


(** ** Ordinals and dates *)
Section OrdinalFacts.
Import PyDate.

Lemma days_before_next_year y :
  days_before_year (y + 1) = days_before_year y + (if is_leap y then 366 else 365).
Proof.
  unfold days_before_year, is_leap.
  destruct (Z.eqb_spec (y `mod` 4) 0), (Z.eqb_spec (y `mod` 100) 0),
    (Z.eqb_spec (y `mod` 400) 0); simpl; Z.div_mod_to_equations; lia.
Qed.

(** The day after a valid date that is not the last one is a valid date,
    with the next ordinal. *)
Lemma next_day_ordinal y m d :
  valid_date y m d = true → ymd2ord y m d < MAXORDINAL →
  ∃ y' m' d', valid_date y' m' d' = true ∧ ymd2ord y' m' d' = ymd2ord y m d + 1.
Proof.
  intros Hv Hlt. pose proof Hv as Hv'. unfold valid_date in Hv'.
  rewrite !andb_true_iff, !Z.leb_le in Hv'.
  destruct Hv' as [[[[[Hy1 Hy2] Hm1] Hm2] Hd1] Hd2].
  assert (m = 1 ∨ m = 2 ∨ m = 3 ∨ m = 4 ∨ m = 5 ∨ m = 6 ∨ m = 7 ∨ m = 8
          ∨ m = 9 ∨ m = 10 ∨ m = 11 ∨ m = 12) as Hm by lia.
  destruct (Z.lt_ge_cases d (days_in_month y m)) as [Hd|Hd].
  { exists y, m, (d + 1). split; [|unfold ymd2ord; lia].
    unfold valid_date. rewrite !andb_true_iff, !Z.leb_le. lia. }
  assert (d = days_in_month y m) as Hlast by lia. clear Hd Hd2.
  destruct (Z.eq_dec m 12) as [->|Hm12].
  - assert (y ≠ 9999) as Hy.
    { intros ->. subst d. vm_compute in Hlt. discriminate. }
    exists (y + 1), 1, 1. split.
    + unfold valid_date. rewrite !andb_true_iff, !Z.leb_le.
      unfold days_in_month. simpl. lia.
    + unfold ymd2ord. rewrite days_before_next_year. subst d.
      unfold days_before_month, days_in_month. simpl.
      destruct (is_leap y), (is_leap (y + 1)); simpl; lia.
  - exists y, (m + 1), 1. split.
    + unfold valid_date. rewrite !andb_true_iff, !Z.leb_le.
      assert (1 ≤ days_in_month y (m + 1)); [|lia].
      unfold days_in_month.
      destruct (is_leap y); repeat (destruct Hm as [->|Hm]); try subst m; simpl; lia.
    + unfold ymd2ord. subst d. unfold days_before_month, days_in_month.
      destruct (is_leap y); repeat (destruct Hm as [->|Hm]); try subst m; simpl; lia.
Qed.

Lemma ordinal_has_date_from k :
  1 + Z.of_nat k ≤ MAXORDINAL →
  ∃ y m d, valid_date y m d = true ∧ ymd2ord y m d = 1 + Z.of_nat k.
Proof.
  induction k as [|k IH]; intros Hk.
  - exists 1, 1, 1. split; reflexivity.
  - destruct IH as (y & m & d & Hv & Ho); [lia|].
    destruct (next_day_ordinal y m d Hv) as (y' & m' & d' & Hv' & Ho'); [lia|].
    exists y', m', d'. split; [done|]. lia.
Qed.

(** Every ordinal in range is the ordinal of a valid date. *)
Lemma ordinal_has_date n :
  1 ≤ n ≤ MAXORDINAL →
  ∃ y m d, valid_date y m d = true ∧ ymd2ord y m d = n.
Proof.
  intros Hn. destruct (ordinal_has_date_from (Z.to_nat (n - 1))) as (y & m & d & Hv & Ho).
  - lia.
  - exists y, m, d. split; [done|]. lia.
Qed.

(** [_ymd2ord] inverts [_ord2ymd]. *)
Lemma toordinal_ord2ymd n :
  1 ≤ n ≤ MAXORDINAL →
  toordinal (ord2ymd n) = n
  ∧ valid_date (year (ord2ymd n)) (month (ord2ymd n)) (day (ord2ymd n)) = true.
Proof.
  intros Hn. destruct (ordinal_has_date n Hn) as (y & m & d & Hv & <-).
  rewrite ord2ymd_ymd2ord by done. done.
Qed.

Lemma add_days_ordinal dt n dt' :
  add_days dt n = Ok dt' →
  toordinal (dt_date dt') = toordinal (dt_date dt) + n
  ∧ valid_date (year (dt_date dt')) (month (dt_date dt')) (day (dt_date dt')) = true
  ∧ hour dt' = hour dt ∧ minute dt' = minute dt
  ∧ second dt' = second dt ∧ microsecond dt' = microsecond dt.
Proof.
  unfold add_days. destruct (Z.abs n >? 999999999); [done|].
  destruct (0 <? _) eqn:H1; [|done]. destruct (_ <=? MAXORDINAL) eqn:H2; [|done].
  simpl. intros [= <-]. simpl.
  apply Z.ltb_lt in H1. apply Z.leb_le in H2.
  destruct (toordinal_ord2ymd (toordinal (dt_date dt) + n)) as [Ho Hv]; [lia|].
  done.
Qed.

End OrdinalFacts.

(** ** The schedule view *)
Section ScheduleFacts.
Import PyDate Storage Views ScheduleOrder.

Lemma insert_line_perm x l : insert_line x l ≡ₚ x :: l.
Proof.
  induction l as [|y l IH]; simpl; [done|].
  destruct (_ <? _); [done|]. rewrite IH. apply Permutation_swap.
Qed.

Lemma insert_line_ascending x l : ascending l → ascending (insert_line x l).
Proof.
  induction l as [|y l IH]; simpl.
  - intros _. split; [constructor|done].
  - intros [Hy Hl]. destruct (Z.ltb_spec (toordinal (notify_date x)) (toordinal (notify_date y))).
    + simpl. split; [|done]. constructor; [lia|].
      eapply Forall_impl; [exact Hy|]. simpl. lia.
    + simpl. split; [|by apply IH].
      rewrite insert_line_perm. by constructor.
Qed.

Lemma foldl_insert_line acc l :
  ascending acc →
  ascending (foldl (fun acc x => insert_line x acc) acc l)
  ∧ foldl (fun acc x => insert_line x acc) acc l ≡ₚ acc ++ l.
Proof.
  revert acc. induction l as [|x l IH]; intros acc Hacc; simpl.
  - by rewrite app_nil_r.
  - destruct (IH (insert_line x acc)) as [Hs Hp]; [by apply insert_line_ascending|].
    split; [done|]. rewrite Hp, insert_line_perm.
    simpl. apply Permutation_middle.
Qed.

Lemma sort_lines_spec l : ascending (sort_lines l) ∧ sort_lines l ≡ₚ l.
Proof. apply (foldl_insert_line [] l). done. Qed.

Lemma ascending_take_drop k l a b :
  ascending l → a ∈ take k l → b ∈ drop k l →
  toordinal (notify_date a) <= toordinal (notify_date b).
Proof.
  revert k. induction l as [|x l IH]; intros k Hl Ha Hb.
  - rewrite take_nil in Ha. by apply elem_of_nil in Ha.
  - destruct k as [|k]; simpl in *; [by apply elem_of_nil in Ha|].
    destruct Hl as [Hx Hl].
    apply elem_of_cons in Ha as [->|Ha].
    + rewrite Forall_forall in Hx. apply Hx.
      apply list_elem_of_lookup_1 in Hb as [i Hi].
      rewrite lookup_drop in Hi. by eapply list_elem_of_lookup_2.
    + by apply (IH k).
Qed.

Lemma ascending_take k l : ascending l → ascending (take k l).
Proof.
  revert k. induction l as [|x l IH]; intros k Hl; [by rewrite take_nil|].
  destruct k as [|k]; simpl in *; [done|].
  destruct Hl as [Hx Hl]. split; [|by apply IH].
  apply Forall_forall. intros y Hy. rewrite Forall_forall in Hx. apply Hx.
  apply list_elem_of_lookup_1 in Hy as [i Hi].
  apply lookup_take_Some in Hi as [Hi _]. by eapply list_elem_of_lookup_2.
Qed.

(** The notify date of a line is the start date of its record moved back
    by the lead, and it is not before today. *)
Lemma upcoming_line_spec today n v l :
  upcoming_line today n v = Some l →
  ∃ start_dt,
    strptime (start_date v) fmt_Ymd = Ok start_dt
    ∧ line_start l = dt_date start_dt ∧ line_fio l = fio v
    ∧ toordinal (notify_date l) = toordinal (dt_date start_dt) - n
    ∧ toordinal today <= toordinal (notify_date l).
Proof.
  unfold upcoming_line. destruct (strptime _ _) as [start_dt|] eqn:Hs; [|done].
  unfold sub_days. destruct (add_days _ _) as [dt|] eqn:Ha; [|done]. simpl.
  destruct (Z.leb_spec (toordinal today) (toordinal (dt_date dt))); [|done].
  intros [= <-]. simpl. exists start_dt.
  apply add_days_ordinal in Ha as (Ho & _). simpl in Ho.
  repeat split; try done; lia.
Qed.

(** The shape of a schedule that lists dates. *)
Lemma send_schedule_upcoming f today chat_id n top5 :
  send_schedule f today chat_id = Ok (Upcoming n top5) →
  ∃ data,
    load_data f = Ok data
    ∧ notify_days (default (mkchat_settings None) (settings data !! chat_id)) = Some n
    ∧ n ≠ 0
    ∧ top5 = take 5 (sort_lines (omap (upcoming_line today n) (shown_vacations data chat_id)))
    ∧ top5 ≠ [].
Proof.
  unfold send_schedule.
  destruct (load_data_total f) as [data Hload]. rewrite Hload. simpl.
  destruct (chat_settings_of data chat_id) as [cs|] eqn:Hcs; [|done]. simpl.
  assert (cs = default (mkchat_settings None) (settings data !! chat_id)) as ->.
  { unfold chat_settings_of in Hcs. destruct (_ && _); [done|]. by injection Hcs as <-. }
  fold (shown_vacations data chat_id).
  set (vacs := shown_vacations data chat_id).
  destruct vacs as [|v0 vacs0] eqn:Hvacs; [done|]. rewrite <- Hvacs. clear Hvacs.
  destruct (notify_days _) as [n'|] eqn:Hnd; [|done].
  intros Hres. exists data. split; [done|]. rewrite Hnd.
  assert (n' ≠ 0
          ∧ match take 5 (sort_lines (omap (upcoming_line today n') vacs)) with
            | [] => Ok NothingUpcoming
            | _ :: _ =>
                Ok (Upcoming n' (take 5 (sort_lines (omap (upcoming_line today n') vacs))))
            end = Ok (Upcoming n top5)) as [Hn0 Hres'].
  { destruct n' as [|p|p]; [done| |]; (split; [done|]);
      by destruct (take 5 _). }
  revert Hres'.
  destruct (take 5 (sort_lines (omap (upcoming_line today n') vacs))) eqn:Ht; [done|].
  intros [= -> <-]. fold vacs. rewrite Ht. done.
Qed.

End ScheduleFacts.

Section ScheduleProperties.
Import PyDate Storage Views Notifier Reminders ScheduleOrder Examples MoreExamples.

(** X12. When [send_schedule] lists dates, it lists between one and five
    lines, by ascending notify date; every line is the line of a record of
    the chat whose notify date, the start date less the lead, is today or
    later; and every such record that is left out has a notify date no
    earlier than those of the lines shown. *)
Theorem schedule_shows_the_five_earliest f today chat_id n top5 :
  send_schedule f today chat_id = Ok (Upcoming n top5) →
  ∃ data,
    load_data f = Ok data
    ∧ (1 ≤ length top5 ≤ 5)%nat
    ∧ ascending top5
    ∧ (∀ l, l ∈ top5 →
         toordinal today <= toordinal (notify_date l)
         ∧ ∃ v, v ∈ shown_vacations data chat_id ∧ upcoming_line today n v = Some l)
    ∧ (∀ v l', v ∈ shown_vacations data chat_id → upcoming_line today n v = Some l' →
         l' ∈ top5
         ∨ ∀ l, l ∈ top5 → toordinal (notify_date l) <= toordinal (notify_date l')).
Proof.
  intros Hres.
  destruct (send_schedule_upcoming f today chat_id n top5 Hres)
    as (data & Hload & _ & _ & Htop & Hne).
  set (vacs := shown_vacations data chat_id) in *.
  destruct (sort_lines_spec (omap (upcoming_line today n) vacs)) as [Hasc Hperm].
  exists data. split; [done|]. split.
  { split.
    - destruct top5; [done|]. simpl. lia.
    - rewrite Htop, length_take. lia. }
  split; [rewrite Htop; by apply ascending_take|]. split.
  - intros l Hl.
    assert (l ∈ omap (upcoming_line today n) vacs) as Hin.
    { rewrite <- Hperm. rewrite Htop in Hl.
      apply list_elem_of_lookup_1 in Hl as [i Hi].
      apply lookup_take_Some in Hi as [Hi _]. by eapply list_elem_of_lookup_2. }
    apply list_elem_of_omap in Hin as (v & Hv & Hline).
    split; [|by eauto].
    by apply upcoming_line_spec in Hline as (? & _ & _ & _ & _ & ?).
  - intros v l' Hv Hline.
    assert (l' ∈ take 5 (sort_lines (omap (upcoming_line today n) vacs))
                 ++ drop 5 (sort_lines (omap (upcoming_line today n) vacs))) as Hin.
    { rewrite take_drop, Hperm. apply list_elem_of_omap. eauto. }
    apply elem_of_app in Hin as [Hin|Hin]; [left; by rewrite Htop|].
    right. intros l Hl. rewrite Htop in Hl.
    by apply (ascending_take_drop 5 _ _ _ Hasc Hl Hin).
Qed.

Lemma schedule_shows_the_five_earliest_witness :
  ∃ top5 data,
    send_schedule (Stored fresh_store) (mkdate 2024 5 1) "chat1" = Ok (Upcoming 7 top5)
    ∧ line_start <$> top5 = [mkdate 2024 5 30; mkdate 2024 6 5; mkdate 2024 6 10]
    ∧ load_data (Stored fresh_store) = Ok data
    ∧ (1 ≤ length top5 ≤ 5)%nat
    ∧ ascending top5
    ∧ (∀ l, l ∈ top5 →
         toordinal (mkdate 2024 5 1) <= toordinal (notify_date l)
         ∧ ∃ v, v ∈ shown_vacations data "chat1"
                ∧ upcoming_line (mkdate 2024 5 1) 7 v = Some l)
    ∧ (∀ v l', v ∈ shown_vacations data "chat1" →
         upcoming_line (mkdate 2024 5 1) 7 v = Some l' →
         l' ∈ top5
         ∨ ∀ l, l ∈ top5 → toordinal (notify_date l) <= toordinal (notify_date l')).
Proof.
  destruct (schedule_shows_the_five_earliest (Stored fresh_store) (mkdate 2024 5 1)
              "chat1" 7 _ ltac:(vm_compute; reflexivity)) as (data & Hrest).
  eexists _, data. split; [vm_compute; reflexivity|].
  split; [vm_compute; reflexivity|]. exact Hrest.
Defined.

(** X13. The schedule and the pass agree on the day.  For a line the
    schedule of a chat shows, with a positive lead and per-chat records,
    there is a record of the chat at some index that starts exactly the
    lead days after the line's notify date; no pass on an earlier day makes
    a send for that index of the chat, and the pass on the notify date
    makes one, unless the log of the chat has an entry for the index. *)
Theorem scheduled_date_is_first_reminder_day data today chat_id n top5 l m :
  send_schedule (Stored data) today chat_id = Ok (Upcoming n top5) →
  l ∈ top5 → vacations data = PerChat m → chat_id ≠ "hr_chat_id" → 0 < n →
  ∃ i v,
    default [] (m !! chat_id) !! i = Some v
    ∧ upcoming_line today n v = Some l
    ∧ days_left (notify_date l) v = Ok n
    ∧ (∀ t delivers f' out sent,
         toordinal t < toordinal (notify_date l) →
         send_notifications t delivers (Stored data) = Ok (f', out) →
         sent ∈ out → to_chat sent = chat_id → for_idx sent ≠ i)
    ∧ (logged (default [] (as_dict (notifications data) !! chat_id)) i = false →
       ∀ delivers, ∃ f' out,
         send_notifications (notify_date l) delivers (Stored data) = Ok (f', out)
         ∧ mksent chat_id i (reminder v n) (delivers chat_id i) ∈ out).
Proof.
  intros Hres Hl Hm Hhr Hn.
  destruct (send_schedule_upcoming _ today chat_id n top5 Hres)
    as (data' & [= <-] & Hnd & _ & Htop & _).
  unfold shown_vacations in Htop. rewrite Hm in Htop.
  assert (l ∈ omap (upcoming_line today n) (default [] (m !! chat_id))) as Hin.
  { destruct (sort_lines_spec (omap (upcoming_line today n) (default [] (m !! chat_id))))
      as [_ Hperm].
    rewrite <- Hperm. rewrite Htop in Hl.
    apply list_elem_of_lookup_1 in Hl as [k Hk].
    apply lookup_take_Some in Hk as [Hk _]. by eapply list_elem_of_lookup_2. }
  apply list_elem_of_omap in Hin as (v & Hv & Hline).
  apply list_elem_of_lookup_1 in Hv as [i Hi].
  exists i, v. split; [done|]. split; [done|].
  destruct (upcoming_line_spec today n v l Hline) as (start_dt & Hs & _ & _ & Ho & _).
  assert (∀ t, days_left t v = Ok (toordinal (dt_date start_dt) - toordinal t)) as Hleft.
  { intros t. unfold days_left. rewrite Hs. reflexivity. }
  assert (settings data !! chat_id = Some (mkchat_settings (Some n))) as Hset.
  { destruct (settings data !! chat_id) as [[nd]|]; [|done]. simpl in Hnd. by subst nd. }
  assert (as_dict (vacations data) !! chat_id = m !! chat_id) as Hvac by (by rewrite Hm).
  split; [rewrite Hleft; f_equal; lia|]. split.
  - intros t delivers f' out sent Ht Hsend Hsent Hto Hidx.
    destruct (pass_sends t delivers (Stored data) data eq_refl) as (f'' & Hsend').
    rewrite Hsend' in Hsend. injection Hsend as _ <-.
    apply pass_reminders_elem in Hsent
      as (cs & n' & v' & d & Hc & _ & Hn' & _ & Hj & Hd & Hw & _).
    rewrite Hto, Hset in Hc. injection Hc as <-. simpl in Hn'. injection Hn' as <-.
    rewrite Hto, Hvac, Hidx, Hi in Hj. injection Hj as <-.
    rewrite Hleft in Hd. injection Hd as <-. lia.
  - intros Hlog delivers.
    destruct (pass_sends (notify_date l) delivers (Stored data) data eq_refl)
      as (f' & Hsend).
    exists f', (pass_reminders (notify_date l) delivers data). split; [exact Hsend|].
    apply (proj2 (pass_reminders_elem (notify_date l) delivers data _)). simpl.
    exists (mkchat_settings (Some n)), n, v, n. rewrite Hvac.
    repeat split; try done; try lia.
    rewrite Hleft. f_equal. lia.
Qed.

Lemma scheduled_date_is_first_reminder_day_witness :
  ∃ top5 l i v,
    send_schedule (Stored fresh_store) (mkdate 2024 5 1) "chat1" = Ok (Upcoming 7 top5)
    ∧ top5 !! 1%nat = Some l
    ∧ notify_date l = mkdate 2024 5 29
    ∧ roster !! i = Some v
    ∧ upcoming_line (mkdate 2024 5 1) 7 v = Some l
    ∧ days_left (notify_date l) v = Ok 7
    ∧ (∀ t delivers f' out sent,
         toordinal t < toordinal (notify_date l) →
         send_notifications t delivers (Stored fresh_store) = Ok (f', out) →
         sent ∈ out → to_chat sent = "chat1" → for_idx sent ≠ i)
    ∧ (logged (default [] (as_dict (notifications fresh_store) !! "chat1")) i = false →
       ∀ delivers, ∃ f' out,
         send_notifications (notify_date l) delivers (Stored fresh_store) = Ok (f', out)
         ∧ mksent "chat1" i (reminder v 7) (delivers "chat1" i) ∈ out).
Proof.
  destruct (scheduled_date_is_first_reminder_day fresh_store (mkdate 2024 5 1) "chat1" 7
              _ _ {[ "chat1" := roster ]}
              ltac:(vm_compute; reflexivity)
              ltac:(apply list_elem_of_further, list_elem_of_here)
              ltac:(reflexivity) ltac:(discriminate) ltac:(lia))
    as (i & v & Hi & Hrest).
  eexists _, _, i, v. split; [vm_compute; reflexivity|].
  split; [reflexivity|]. split; [reflexivity|]. split; [|exact Hrest].
  rewrite lookup_singleton_eq in Hi. exact Hi.
Defined.

End ScheduleProperties.

(** ** The rows of the sheet *)
Section RowFacts.
Import PyDate Sheet Parser Storage Upload.

Variable to_datetime : string -> result datetime.

(** The outcomes of the rows from index [i] on, against the two lists. *)
Lemma parse_rows_spec cm rs : ∀ i rows errors,
  parse_rows to_datetime cm i rs = (rows, errors) →
  (length rows + length errors ≤ length rs)%nat
  ∧ (∀ e, e ∈ errors →
       ∃ j r, rs !! j = Some r ∧ err_row e = S (i + j)
              ∧ parse_row to_datetime cm (i + j) r = Failed e)
  ∧ (∀ v, v ∈ rows →
       ∃ j r, rs !! j = Some r ∧ parse_row to_datetime cm (i + j) r = Parsed v)
  ∧ (∀ j1 j2 e1 e2, (j1 < j2)%nat → errors !! j1 = Some e1 → errors !! j2 = Some e2 →
       (err_row e1 < err_row e2)%nat).
Proof.
  induction rs as [|r rs IH]; intros i rows errors; simpl.
  - intros [= <- <-]. simpl. split; [lia|]. split; [by intros e ?%elem_of_nil|].
    split; [by intros v ?%elem_of_nil|]. intros j1 j2 e1 e2 _ H. by rewrite lookup_nil in H.
  - destruct (parse_rows to_datetime cm (S i) rs) as [rows' errors'] eqn:Hrest.
    destruct (IH (S i) rows' errors' Hrest) as (Hlen & Herr & Hrow & Hord).
    assert (∀ e, e ∈ errors' →
              ∃ j r', (r :: rs) !! j = Some r' ∧ err_row e = S (i + j)
                      ∧ parse_row to_datetime cm (i + j) r' = Failed e) as Herr'.
    { intros e He. destruct (Herr e He) as (j & r' & Hj & Hn & Hp).
      exists (S j), r'. replace (i + S j)%nat with (S i + j)%nat by lia. done. }
    assert (∀ v, v ∈ rows' →
              ∃ j r', (r :: rs) !! j = Some r'
                      ∧ parse_row to_datetime cm (i + j) r' = Parsed v) as Hrow'.
    { intros v Hv. destruct (Hrow v Hv) as (j & r' & Hj & Hp).
      exists (S j), r'. replace (i + S j)%nat with (S i + j)%nat by lia. done. }
    destruct (parse_row to_datetime cm i r) as [|v|e] eqn:Hout; intros [= <- <-].
    + split; [lia|]. done.
    + split; [simpl; lia|]. split; [done|]. split; [|done].
      intros v' [->|Hv]%elem_of_cons; [|by apply Hrow'].
      exists 0%nat, r. by rewrite Nat.add_0_r.
    + split; [simpl; lia|]. split; [|split; [done|]].
      * intros e' [->|He]%elem_of_cons; [|by apply Herr'].
        exists 0%nat, r. rewrite Nat.add_0_r. split; [done|]. split; [|done].
        unfold parse_row in Hout.
        destruct (_ || _ || _) in Hout; [done|].
        destruct (_ || _ || _) in Hout; [done|].
        destruct (build_record _ _ _ _ _) in Hout; [done|].
        by injection Hout as <-.
      * intros [|j1] [|j2] e1 e2 Hlt H1 H2; simpl in *; try lia.
        -- injection H1 as <-.
           assert (err_row e = S i) as ->.
           { unfold parse_row in Hout.
             destruct (_ || _ || _) in Hout; [done|].
             destruct (_ || _ || _) in Hout; [done|].
             destruct (build_record _ _ _ _ _) in Hout; [done|].
             by injection Hout as <-. }
           destruct (Herr e2) as (j & r' & _ & -> & _); [|lia].
           by eapply list_elem_of_lookup_2.
        -- apply (Hord j1 j2); [lia|done|done].
Qed.

Lemma positional_pass_raises rows : ∀ i0 i vals e,
  rows !! i = Some vals →
  (∀ j r, (j < i)%nat → rows !! j = Some r → data_row_cols r = Ok None) →
  data_row_cols vals = Raise e →
  positional_pass i0 rows = Raise e.
Proof.
  induction rows as [|r rows IH]; intros i0 i vals e Hi Hbefore Hraise; [done|].
  destruct i as [|i]; simpl in Hi.
  - injection Hi as ->. simpl. by rewrite Hraise.
  - simpl. rewrite (Hbefore 0%nat r) by (done || lia). simpl.
    apply (IH (S i0) i vals e); [done| |done].
    intros j r' Hj Hr'. apply (Hbefore (S j) r'); [lia|done].
Qed.

End RowFacts.

Section RowProperties.
Import PyDate Sheet Parser Storage Upload Examples SheetExamples MoreExamples.

(** X14. Every record the parser stores has a name that is not empty, not
    ["nan"] and not a number, and its end date is the date [days] days
    after its start date, within years 1 to 9999.  The sign of [days] is
    not looked at: with a negative count the end date comes before the
    start date, and the record is stored all the same. *)
Theorem record_ends_days_after_start to_datetime cm i r v :
  parse_row to_datetime cm i r = Parsed v →
  ∃ start_dt end_dt,
    parse_date to_datetime (gv r (cm_start_date cm)) = Ok start_dt
    ∧ start_date v = strftime_Ymd start_dt
    ∧ end_date v = strftime_Ymd end_dt
    ∧ toordinal (dt_date end_dt) = toordinal (dt_date start_dt) + days v
    ∧ valid_date (year (dt_date end_dt)) (month (dt_date end_dt)) (day (dt_date end_dt))
      = true
    ∧ fio v = PyStr.strip (str (gv r (cm_fio cm)))
    ∧ fio v ≠ "" ∧ fio v ≠ "nan" ∧ PyStr.isdigit (fio v) = false.
Proof.
  unfold parse_row.
  set (name := PyStr.strip (str (gv r (cm_fio cm)))).
  destruct (String.eqb name "" || String.eqb name "nan" || PyStr.isdigit name) eqn:Hname;
    [done|].
  apply orb_false_iff in Hname as [[H1 H2]%orb_false_iff H3].
  apply String.eqb_neq in H1, H2.
  destruct (_ || _ || _); [done|].
  unfold build_record.
  destruct (parse_date _ _) as [start_dt|] eqn:Hstart; [|done]. simpl.
  destruct (parse_days _) as [d|] eqn:Hdays; [|done]. simpl.
  destruct (add_days start_dt d) as [end_dt|] eqn:Hend; [|done]. simpl.
  intros [= <-]. simpl. exists start_dt, end_dt.
  apply add_days_ordinal in Hend as (Ho & Hv & _). done.
Qed.

Lemma record_ends_days_after_start_witness :
  ∃ v start_dt end_dt,
    parse_row no_to_datetime layout_0123 2
      [CStr "Иванов И.И."; CStr "ООО Ромашка"; CInt (-5); CStr "01.03.2024"] = Parsed v
    ∧ days v = -5 ∧ start_date v = "2024-03-01" ∧ end_date v = "2024-02-25"
    ∧ parse_date no_to_datetime (CStr "01.03.2024") = Ok start_dt
    ∧ start_date v = strftime_Ymd start_dt
    ∧ end_date v = strftime_Ymd end_dt
    ∧ toordinal (dt_date end_dt) = toordinal (dt_date start_dt) + days v.
Proof.
  destruct (record_ends_days_after_start no_to_datetime layout_0123 2
              [CStr "Иванов И.И."; CStr "ООО Ромашка"; CInt (-5); CStr "01.03.2024"]
              _ ltac:(vm_compute; reflexivity))
    as (start_dt & end_dt & Hs & H1 & H2 & H3 & _).
  eexists _, start_dt, end_dt. split; [vm_compute; reflexivity|].
  split; [reflexivity|]. split; [reflexivity|]. split; [reflexivity|].
  split; [exact Hs|]. split; [exact H1|]. split; [exact H2|exact H3].
Defined.

(** X15. The two lists [parse_vacation_df] returns hold at most one item
    per row of the sheet.  The row number of an error is the position of
    the failed row in the sheet counted from 1, title and header rows
    included; it lies after the row the data start at, and the errors come
    by ascending row number. *)
Theorem error_rows_number_the_sheet_lines lower to_datetime df rows errors :
  parse_vacation_df lower to_datetime df = Ok (rows, errors) →
  (length rows + length errors ≤ length df)%nat
  ∧ (∀ j1 j2 e1 e2, (j1 < j2)%nat → errors !! j1 = Some e1 → errors !! j2 = Some e2 →
       (err_row e1 < err_row e2)%nat)
  ∧ (∀ e, e ∈ errors →
       ∃ cm data_start r,
         detect_layout lower df = Ok (Some (cm, data_start))
         ∧ (data_start < err_row e ≤ length df)%nat
         ∧ df !! (err_row e - 1)%nat = Some r
         ∧ parse_row to_datetime cm (err_row e - 1) r = Failed e).
Proof.
  unfold parse_vacation_df.
  destruct (detect_layout lower df) as [[[cm data_start]|]|] eqn:Hlayout; simpl; [| |done].
  - destruct (parse_rows to_datetime cm data_start (drop data_start df))
      as [rows' errors'] eqn:Hrows.
    intros [= <- <-].
    destruct (parse_rows_spec to_datetime cm _ _ _ _ Hrows) as (Hlen & Herr & _ & Hord).
    rewrite length_drop in Hlen. split; [lia|]. split; [exact Hord|].
    intros e He. destruct (Herr e He) as (j & r & Hj & Hn & Hp).
    unfold grid in *. rewrite lookup_drop in Hj.
    exists cm, data_start, r. split; [done|].
    apply lookup_lt_Some in Hj as Hlt.
    replace (err_row e - 1)%nat with (data_start + j)%nat by lia.
    split; [lia|]. done.
  - intros [= <- <-]. simpl. split; [lia|].
    split; [intros j1 j2 e1 e2 _ H; by rewrite lookup_nil in H|].
    by intros e ?%elem_of_nil.
Qed.

Lemma error_rows_number_the_sheet_lines_witness :
  ∃ rows errors,
    parse_vacation_df lower_cyr no_to_datetime with_header = Ok (rows, errors)
    ∧ err_row <$> errors = [4%nat; 6%nat]
    ∧ (length rows + length errors ≤ length with_header)%nat
    ∧ (∀ j1 j2 e1 e2, (j1 < j2)%nat → errors !! j1 = Some e1 → errors !! j2 = Some e2 →
         (err_row e1 < err_row e2)%nat)
    ∧ (∀ e, e ∈ errors →
         ∃ cm data_start r,
           detect_layout lower_cyr with_header = Ok (Some (cm, data_start))
           ∧ (data_start < err_row e ≤ length with_header)%nat
           ∧ with_header !! (err_row e - 1)%nat = Some r
           ∧ parse_row no_to_datetime cm (err_row e - 1) r = Failed e).
Proof.
  eexists _, _. split; [vm_compute; reflexivity|]. split; [reflexivity|].
  eapply (error_rows_number_the_sheet_lines lower_cyr no_to_datetime with_header).
  vm_compute. reflexivity.
Defined.

(** X16. In a sheet without a keyword header, the first row that has a
    name and a date decides the layout; if, before any count in 1..365, a
    cell between its first column and its date converts to a float that
    has no integer value, an infinity, the conversion raises what the scan
    for the days column does not catch.  The whole parse then raises, no
    row is read, and the upload is answered with the Excel error, the data
    file and the awaiting states left as they were. *)
Theorem infinite_cell_before_date_aborts_upload
    lower to_datetime w chat_id df i vals d k c e :
  keyword_pass lower 0 (take 20 df) = None →
  (i < 30)%nat → df !! i = Some vals →
  (∀ j r, (j < i)%nat → df !! j = Some r → data_row_cols r = Ok None) →
  (let col0 := match vals with v :: _ => PyStr.strip (str v) | [] => "" end in
   String.eqb col0 "" || String.eqb col0 "nan" || PyStr.isdigit col0) = false →
  first_match looks_like_date vals d →
  (1 ≤ k < d)%nat → vals !! k = Some c →
  isna c = false → PyFloat.int_float (str c) = Raise e →
  e ≠ ValueError → e ≠ TypeError →
  (∀ j y, (1 ≤ j < k)%nat → vals !! j = Some y →
          small_count y = false ∧ escapes y = false) →
  parse_vacation_df lower to_datetime df = Raise e
  ∧ download_and_parse lower to_datetime w chat_id (Downloaded (Ok df))
    = Ok (ExcelError e, w).
Proof.
  intros Hkw Hi Hvals Hbefore Hname Hdate Hk Hc Hna Hraise Hv Ht Hcells.
  assert (parse_vacation_df lower to_datetime df = Raise e) as Hparse.
  { unfold parse_vacation_df, detect_layout. rewrite Hkw.
    rewrite (positional_pass_raises (take 30 df) 0 i vals e); [done| | |].
    - unfold grid in *. rewrite lookup_take_lt by done. done.
    - intros j r Hj Hr. unfold grid in *. rewrite lookup_take_lt in Hr by lia.
      by apply (Hbefore j).
    - unfold data_row_cols. cbv zeta in Hname. rewrite Hname.
      rewrite (find_index_first_match _ _ _ Hdate).
      rewrite (find_days_col_raises (before_date vals d) 1 (k - 1) c e); try done.
      + apply before_date_lookup. replace (S (k - 1)) with k by lia. split; [lia|done].
      + intros j y Hj Hy. apply before_date_lookup in Hy as [_ Hy].
        apply (Hcells (S j)); [lia|done]. }
  split; [done|].
  unfold download_and_parse, parse_job. simpl. by rewrite Hparse.
Qed.

Lemma infinite_cell_before_date_aborts_upload_witness :
  parse_vacation_df lower_cyr no_to_datetime (drop 1 infinity_sheet)
  = Ok ([ {| fio := "Петров П.П."; org := "ООО Ромашка"; days := 7;
             start_date := "2024-03-05"; end_date := "2024-03-12" |} ], [])
  ∧ parse_vacation_df lower_cyr no_to_datetime infinity_sheet = Raise OverflowError
  ∧ download_and_parse lower_cyr no_to_datetime (idle fresh_store) "chat1"
      (Downloaded (Ok infinity_sheet))
    = Ok (ExcelError OverflowError, idle fresh_store).
Proof.
  split; [vm_compute; reflexivity|].
  apply (infinite_cell_before_date_aborts_upload lower_cyr no_to_datetime
           (idle fresh_store) "chat1" infinity_sheet 0
           [CStr "Иванов И.И."; CStr "Infinity"; CInt 14; CStr "01.03.2024"]
           3 1 (CStr "Infinity") OverflowError).
  - vm_compute. reflexivity.
  - lia.
  - reflexivity.
  - intros j r Hj. lia.
  - vm_compute. reflexivity.
  - split.
    + eexists. split; [reflexivity|]. vm_compute. reflexivity.
    + intros [|[|[|j]]] y Hj Hy; try lia; injection Hy as <-; vm_compute; reflexivity.
  - lia.
  - reflexivity.
  - reflexivity.
  - vm_compute. reflexivity.
  - discriminate.
  - discriminate.
  - intros j y Hj. lia.
Defined.

End RowProperties.

(** ** The daily timer *)
Section LoopFacts.
Import PyDate Loop.

Lemma dt_ge_at_nine now :
  valid_datetime now → dt_ge now (at_nine now) = (9 <=? hour now).
Proof.
  intros (_ & Hh & Hm & Hs & Hu). unfold dt_ge, at_nine, fields_of.
  cbn [lex_le dt_date hour minute second microsecond].
  rewrite !Z.ltb_irrefl, !Z.eqb_refl. cbn [orb andb].
  destruct (Z.ltb_spec 9 (hour now)), (Z.eqb_spec 9 (hour now)),
    (Z.leb_spec 9 (hour now)), (Z.ltb_spec 0 (minute now)), (Z.eqb_spec 0 (minute now)),
    (Z.ltb_spec 0 (second now)), (Z.eqb_spec 0 (second now)),
    (Z.ltb_spec 0 (microsecond now)), (Z.eqb_spec 0 (microsecond now));
    cbn [orb andb]; try reflexivity; lia.
Qed.

End LoopFacts.

Section LoopProperties.
Import PyDate Loop.

(** X17. The timer sleeps until the next 09:00.  For a valid [now] whose
    next 09:00 is within year 9999, the loop computes a [next_run] at
    09:00:00 sharp, today when [now] is before 09:00 and tomorrow
    otherwise; the time it sleeps is more than zero and at most 24 hours,
    and no 09:00 of any day lies after [now] and before [next_run].  On
    the last day of year 9999, from 09:00 on, the addition of a day
    raises [OverflowError], and the loop sleeps an hour and runs no pass. *)
Theorem timer_sleeps_until_next_nine now :
  valid_datetime now →
  (hour now < 9 ∨ toordinal (dt_date now) < MAXORDINAL →
   ∃ next wait_us,
     loop_turn now = SleepThenScan next wait_us
     ∧ hour next = 9 ∧ minute next = 0 ∧ second next = 0 ∧ microsecond next = 0
     ∧ valid_datetime next
     ∧ toordinal (dt_date next)
       = toordinal (dt_date now) + (if hour now <? 9 then 0 else 1)
     ∧ wait_us = sub_us next now
     ∧ 0 < wait_us <= 86400 * 1000000
     ∧ ∀ d, 0 < sub_us (mkdatetime d 9 0 0 0) now →
            wait_us <= sub_us (mkdatetime d 9 0 0 0) now)
  ∧ (9 <= hour now → toordinal (dt_date now) = MAXORDINAL →
     loop_turn now = SleepAnHour OverflowError).
Proof.
  intros Hvalid. pose proof Hvalid as (Hd & Hh & Hm & Hs & Hu).
  pose proof (toordinal_bounds _ _ _ Hd) as Hord. fold (toordinal (dt_date now)) in Hord.
  unfold loop_turn, next_run. rewrite (dt_ge_at_nine now Hvalid). split.
  - intros Hcase. destruct (Z.leb_spec 9 (hour now)) as [H9|H9].
    + destruct Hcase as [?|Hlast]; [lia|].
      destruct (add_days (at_nine now) 1) as [next|e] eqn:Hadd.
      * apply add_days_ordinal in Hadd as (Ho & Hv & Hh' & Hm' & Hs' & Hu').
        simpl in *. exists next, (sub_us next now). split; [done|].
        replace (hour now <? 9) with false by (symmetry; apply Z.ltb_ge; lia).
        repeat split; try done; try lia.
        -- unfold sub_us, seconds_of_day. rewrite Ho, Hh', Hm', Hs', Hu'. lia.
        -- unfold sub_us, seconds_of_day. rewrite Ho, Hh', Hm', Hs', Hu'. lia.
        -- intros d. unfold sub_us, seconds_of_day. rewrite Ho, Hh', Hm', Hs', Hu'.
           simpl. nia.
      * exfalso. unfold add_days, at_nine in Hadd. simpl in Hadd.
        destruct (0 <? _) eqn:H1; [|apply Z.ltb_ge in H1; lia].
        destruct (_ <=? MAXORDINAL) eqn:H2; [done|apply Z.leb_gt in H2; lia].
    + simpl. exists (at_nine now), (sub_us (at_nine now) now). split; [done|].
      replace (hour now <? 9) with true by (symmetry; apply Z.ltb_lt; lia).
      unfold valid_datetime, sub_us, seconds_of_day, at_nine. simpl.
      repeat split; try done; try lia; try (intros d; nia).
  - intros H9 Hlast.
    replace (9 <=? hour now) with true by (symmetry; apply Z.leb_le; lia).
    unfold add_days, at_nine. simpl. rewrite Hlast.
    reflexivity.
Qed.

Lemma timer_sleeps_until_next_nine_witness :
  loop_turn (mkdatetime (mkdate 2024 2 28) 9 0 0 0)
  = SleepThenScan (mkdatetime (mkdate 2024 2 29) 9 0 0 0) 86400000000
  ∧ ∃ next wait_us,
      loop_turn (mkdatetime (mkdate 2024 12 31) 23 59 59 999999)
      = SleepThenScan next wait_us
      ∧ dt_date next = mkdate 2025 1 1 ∧ wait_us = 32400000001
      ∧ hour next = 9 ∧ 0 < wait_us <= 86400 * 1000000.
Proof.
  split; [vm_compute; reflexivity|].
  destruct (timer_sleeps_until_next_nine (mkdatetime (mkdate 2024 12 31) 23 59 59 999999))
    as [Hnext _].
  { unfold valid_datetime. simpl. repeat split; (reflexivity || lia || discriminate). }
  destruct Hnext as (next & w & Hturn & Hh & _ & _ & _ & _ & _ & _ & Hw & _).
  { right. vm_compute. reflexivity. }
  exists next, w. split; [exact Hturn|].
  vm_compute in Hturn. injection Hturn as <- <-.
  split; [reflexivity|]. split; [reflexivity|]. split; [reflexivity|]. lia.
Defined.

End LoopProperties.

(** ** Stored dates read back *)
Section DateTextFacts.
Import PyStr PyDate DateText.

Lemma four_digits_years y : 1000 <= y <= 9999 → four_digits y = true.
Proof.
  intros Hy.
  assert (forallb (fun k => four_digits (1000 + Z.of_nat k)) (seq 0 (Z.to_nat 9000)) = true)
    as Hall by (vm_compute; reflexivity).
  rewrite forallb_forall in Hall.
  specialize (Hall (Z.to_nat (y - 1000))).
  rewrite Z2Nat.id in Hall by lia.
  replace (1000 + (y - 1000)) with y in Hall by lia.
  apply Hall. apply in_seq. lia.
Qed.

Lemma reads_back_all y m d :
  1 <= m <= 12 → 1 <= d <= 31 →
  re_match [TLit "-"; TMonth; TLit "-"; TDay]
    ("-" ++ zfill 2 m ++ "-" ++ zfill 2 d) (mkfields y 1 1)
  = Some (mkfields y m d, EmptyString).
Proof.
  intros Hm Hd.
  assert (m = 1 ∨ m = 2 ∨ m = 3 ∨ m = 4 ∨ m = 5 ∨ m = 6 ∨ m = 7 ∨ m = 8
          ∨ m = 9 ∨ m = 10 ∨ m = 11 ∨ m = 12) as Hcases by lia.
  assert (d = 1 ∨ d = 2 ∨ d = 3 ∨ d = 4 ∨ d = 5 ∨ d = 6 ∨ d = 7 ∨ d = 8 ∨ d = 9
          ∨ d = 10 ∨ d = 11 ∨ d = 12 ∨ d = 13 ∨ d = 14 ∨ d = 15 ∨ d = 16 ∨ d = 17
          ∨ d = 18 ∨ d = 19 ∨ d = 20 ∨ d = 21 ∨ d = 22 ∨ d = 23 ∨ d = 24 ∨ d = 25
          ∨ d = 26 ∨ d = 27 ∨ d = 28 ∨ d = 29 ∨ d = 30 ∨ d = 31) as Hdays by lia.
  repeat (destruct Hcases as [->|Hcases]); try subst m;
    repeat (destruct Hdays as [->|Hdays]); try subst d; reflexivity.
Qed.

(** A date of the years 1000 to 9999 written with [strftime("%Y-%m-%d")]
    is read back by [strptime] with the same format. *)
Lemma strptime_strftime_Ymd dt :
  valid_date (year (dt_date dt)) (month (dt_date dt)) (day (dt_date dt)) = true →
  1000 <= year (dt_date dt) →
  strptime (strftime_Ymd dt) fmt_Ymd = Ok (midnight (dt_date dt)).
Proof.
  destruct dt as [[y m d] hh mm ss us]. simpl. intros Hv Hy.
  pose proof Hv as Hv'. unfold valid_date in Hv'.
  rewrite !andb_true_iff, !Z.leb_le in Hv'.
  destruct Hv' as [[[[[Hy1 Hy2] Hm1] Hm2] Hd1] Hd2].
  assert (d <= 31) as Hd31.
  { unfold days_in_month in Hd2.
    assert (m = 1 ∨ m = 2 ∨ m = 3 ∨ m = 4 ∨ m = 5 ∨ m = 6 ∨ m = 7 ∨ m = 8
            ∨ m = 9 ∨ m = 10 ∨ m = 11 ∨ m = 12) as Hcases by lia.
    destruct (is_leap y); repeat (destruct Hcases as [->|Hcases]); try subst m;
      simpl in Hd2; lia. }
  pose proof (four_digits_years y ltac:(lia)) as H4. unfold four_digits in H4.
  unfold strftime_Ymd, strptime, fmt_Ymd. simpl dt_date. cbn [year month day].
  destruct (of_Z y) as [|a [|b [|c [|e [|? ?]]]]]; try done.
  rewrite !andb_true_iff in H4. destruct H4 as [[[[Ha Hb] Hc] He] Hval].
  apply Z.eqb_eq in Hval.
  pose proof (reads_back_all y m d ltac:(lia) ltac:(lia)) as Hrest.
  set (rest := ("-" ++ zfill 2 m ++ "-" ++ zfill 2 d)%string) in *.
  change (String a (String b (String c (String e ""))) ++ rest)%string
    with (String a (String b (String c (String e rest)))).
  change (re_match (TYear4 :: ?ts) ?s ?f)
    with (first_some (fun '(f', r) => re_match ts r f') (alts TYear4 s f)).
  unfold alts, alts_year4. rewrite Ha, Hb, Hc, He.
  cbn [andb map first_some f_month f_day]. rewrite Hval, Hrest.
  cbn [f_year f_month f_day bind]. unfold make_date. rewrite Hv. reflexivity.
Qed.

End DateTextFacts.

Section StoredDateProperties.
Import PyDate Sheet Parser Storage Notifier DateText Examples SheetExamples.

(** X18. What the parser stores, the pass reads.  The start date of a
    stored record is written with [strftime("%Y-%m-%d")] and read by the
    pass with [strptime] and the same format; for a valid start date of
    the years 1000 to 9999 the reading gives the date back, so the pass
    never skips the record for its date: the days left are the days from
    today to the start date of the sheet, and the record is inside the
    window exactly when these are between 0 and the lead. *)
Theorem stored_start_date_is_read_back to_datetime cm i r v start_dt :
  parse_row to_datetime cm i r = Parsed v →
  parse_date to_datetime (gv r (cm_start_date cm)) = Ok start_dt →
  valid_date (year (dt_date start_dt)) (month (dt_date start_dt)) (day (dt_date start_dt))
  = true →
  1000 <= year (dt_date start_dt) →
  strptime (start_date v) fmt_Ymd = Ok (midnight (dt_date start_dt))
  ∧ (∀ today, days_left today v = Ok (toordinal (dt_date start_dt) - toordinal today))
  ∧ (∀ today n,
       due today n v = true ↔ 0 <= toordinal (dt_date start_dt) - toordinal today <= n).
Proof.
  intros Hrow Hdate Hvalid Hyear.
  assert (start_date v = strftime_Ymd start_dt) as Hstart.
  { unfold parse_row in Hrow.
    set (name := PyStr.strip (str (gv r (cm_fio cm)))) in *.
    destruct (String.eqb name "" || String.eqb name "nan" || PyStr.isdigit name);
      [done|].
    destruct (negb (truthy (gv r (cm_start_date cm))) || _ || _); [done|].
    unfold build_record in Hrow. rewrite Hdate in Hrow. simpl in Hrow.
    destruct (parse_days _) as [d|]; [|done]. simpl in Hrow.
    destruct (add_days start_dt d) as [end_dt|]; [|done]. simpl in Hrow.
    by injection Hrow as <-. }
  pose proof (strptime_strftime_Ymd start_dt Hvalid Hyear) as Hback.
  rewrite <- Hstart in Hback.
  assert (∀ today, days_left today v
                   = Ok (toordinal (dt_date start_dt) - toordinal today)) as Hleft.
  { intros today. unfold days_left. rewrite Hback. reflexivity. }
  split; [done|]. split; [done|].
  intros today n. unfold due. rewrite Hleft.
  rewrite andb_true_iff, !Z.leb_le. done.
Qed.

Lemma stored_start_date_is_read_back_witness :
  ∃ v,
    parse_row no_to_datetime layout_0123 2
      [CStr "Иванов И.И."; CStr "ООО Ромашка"; CInt 14; CStr "01.03.2024"] = Parsed v
    ∧ start_date v = "2024-03-01"
    ∧ strptime (start_date v) fmt_Ymd = Ok (midnight (mkdate 2024 3 1))
    ∧ (∀ today, days_left today v = Ok (toordinal (mkdate 2024 3 1) - toordinal today))
    ∧ (∀ today n,
         due today n v = true ↔ 0 <= toordinal (mkdate 2024 3 1) - toordinal today <= n).
Proof.
  eexists. split; [vm_compute; reflexivity|]. split; [reflexivity|].
  apply (stored_start_date_is_read_back no_to_datetime layout_0123 2
           [CStr "Иванов И.И."; CStr "ООО Ромашка"; CInt 14; CStr "01.03.2024"]
           _ (midnight (mkdate 2024 3 1))).
  - vm_compute. reflexivity.
  - vm_compute. reflexivity.
  - vm_compute. reflexivity.
  - simpl. lia.
Defined.

End StoredDateProperties.

(** ** Flows across the handlers and the pass *)
Section FlowProperties.
Import PyDate Sheet Parser Storage Upload Views Notifier Reminders Handlers.
Import Examples SheetExamples MoreExamples.

Variable lower : string -> string.
Variable to_datetime : string -> result PyDate.datetime.
Variable py_int : string -> result Z.
Variable command : string -> string.
Variable get_file_info : string -> result file_info.
Variable fetch : string -> upload.
Variable sends : string -> message -> option exn.

(** X19. A new upload re-arms the reminders.  When a chat that already
    has a lead uploads a file with at least one record, the next pass,
    whether or not the chat has answered the question about the lead,
    sends to the chat exactly the reminders of the new records that start
    within the old lead; what the log of the chat held before the upload
    suppresses nothing. *)
Theorem upload_rearms_reminders_under_old_lead w chat_id df rows errors old cs n :
  parse_job lower to_datetime df = Ok (rows, errors) → rows ≠ [] →
  load_data (data_file w) = Ok old →
  settings old !! chat_id = Some cs → notify_days cs = Some n → n ≠ 0 →
  chat_id ≠ "hr_chat_id" →
  ∃ r w1,
    download_and_parse lower to_datetime w chat_id (Downloaded df) = Ok (r, w1)
    ∧ pending_state w1 !! chat_id = Some "awaiting_threshold"
    ∧ ∀ today delivers, ∃ f' out,
        send_notifications today delivers (data_file w1) = Ok (f', out)
        ∧ ∀ sent, to_chat sent = chat_id →
            (sent ∈ out ↔
             ∃ i v dl, rows !! i = Some v ∧ days_left today v = Ok dl ∧ 0 <= dl <= n
               ∧ sent = mksent chat_id i (reminder v dl) (delivers chat_id i)).
Proof.
  intros Hparse Hne Hload Hset Hn Hn0 Hhr.
  rewrite (download_and_parse_loaded lower to_datetime w chat_id df rows errors old)
    by done.
  eexists _, _. split; [reflexivity|]. simpl.
  split; [apply lookup_insert_eq|].
  intros today delivers.
  match goal with
  | |- ∃ f' out, send_notifications _ _ (Stored ?data1) = _ ∧ _ =>
      destruct (pass_sends today delivers (Stored data1) data1 eq_refl) as (f' & Hsend);
      exists f', (pass_reminders today delivers data1)
  end.
  split; [exact Hsend|].
  intros sent Hto. rewrite pass_reminders_elem. simpl. rewrite Hto, Hset.
  rewrite !lookup_insert_eq. simpl. split.
  - intros (cs' & n' & v & dl & [= <-] & _ & Hn' & _ & Hj & Hdl & Hw & _ & Ht & Hdel).
    rewrite Hn in Hn'. injection Hn' as <-.
    exists (for_idx sent), v, dl. repeat split; try done; try lia.
    destruct sent as [c i t ok]. simpl in *. congruence.
  - intros (i & v & dl & Hj & Hdl & Hw & ->). simpl.
    exists cs, n, v, dl. repeat split; try done; lia.
Qed.

(** X20. A lead changed from the menu keeps the log.  After the button
    for the notifications and a positive integer from the same chat, the
    pass sends to the chat exactly the reminders of its records that start
    within the new lead and whose index has no entry in the log of the
    chat: the records and the log are those of before.  The button is
    answered with the question when that send goes through, and the
    change does not depend on any reply going through. *)
Theorem menu_change_of_lead_keeps_the_log w chat_id ev d data day0 :
  load_data (data_file w) = Ok data →
  chat_id ≠ "hr_chat_id" →
  from_chat ev = chat_id → py_int (ev_text ev) = Ok d → 0 < d →
  ∃ w1 w2,
    world_of (on_button_click_async sends day0 w chat_id "cmd_notifications") = w1
    ∧ (sends chat_id AskThreshold = None →
       on_button_click_async sends day0 w chat_id "cmd_notifications"
       = Done [AskThreshold] w1)
    ∧ world_of (on_message_async lower to_datetime py_int command get_file_info fetch
                  sends w1 ev) = w2
    ∧ pending_state w2 !! chat_id = None
    ∧ ∀ today delivers, ∃ f' out,
        send_notifications today delivers (data_file w2) = Ok (f', out)
        ∧ ∀ sent, to_chat sent = chat_id →
            (sent ∈ out ↔
             ∃ i v dl,
               default [] (as_dict (vacations data) !! chat_id) !! i = Some v
               ∧ days_left today v = Ok dl ∧ 0 <= dl <= d
               ∧ logged (default [] (as_dict (notifications data) !! chat_id)) i = false
               ∧ sent = mksent chat_id i (reminder v dl) (delivers chat_id i)).
Proof.
  intros Hload Hhr Hchat Hint Hd.
  eexists _, _. unfold on_button_click_async. simpl.
  rewrite world_of_say. split; [reflexivity|]. split.
  { intros Hs. unfold say. by rewrite Hs. }
  unfold on_message_async. rewrite Hchat. simpl.
  rewrite lookup_insert_eq, bool_decide_eq_true_2 by done.
  match goal with
  | |- world_of (threshold_reply _ _ ?w1 _ _) = _ ∧ _ =>
      destruct (threshold_reply_saved py_int sends w1 chat_id (ev_text ev) d data
                  Hint Hd Hload) as [Hworld _]; [done|]
  end.
  split; [exact Hworld|]. simpl.
  split; [apply lookup_delete_eq|].
  intros today delivers.
  match goal with
  | |- ∃ f' out, send_notifications _ _ (Stored ?data2) = _ ∧ _ =>
      destruct (pass_sends today delivers (Stored data2) data2 eq_refl) as (f' & Hsend);
      exists f', (pass_reminders today delivers data2)
  end.
  split; [exact Hsend|].
  intros sent Hto. rewrite pass_reminders_elem. simpl. rewrite Hto.
  rewrite !lookup_insert_eq. split.
  - intros (cs & n & v & dl & [= <-] & _ & [= <-] & _ & Hj & Hdl & Hw & Hlog & Ht & Hdel).
    exists (for_idx sent), v, dl. repeat split; try done; try lia.
    destruct sent as [c i t ok]. simpl in *. congruence.
  - intros (i & v & dl & Hj & Hdl & Hw & Hlog & ->). simpl.
    exists (mkchat_settings (Some d)), d, v, dl. repeat split; try done; lia.
Qed.

(** X21. The layout is decided by the first thirty rows: two sheets that
    agree on them get the same layout and the same first data row,
    whatever comes after. *)
Theorem layout_is_decided_by_first_thirty_rows (df df' : grid) :
  take 30 df = take 30 df' →
  detect_layout lower df = detect_layout lower df'.
Proof.
  intros Hsame. unfold detect_layout. rewrite Hsame.
  assert (∀ l : list row, take 20 l = take 20 (take 30 l)) as Htt.
  { intros l. rewrite take_take. reflexivity. }
  unfold grid in *. by rewrite (Htt df), (Htt df'), Hsame.
Qed.

End FlowProperties.

Section FlowExamples.
Import PyDate Sheet Parser Storage Upload Views Notifier Reminders Handlers.
Import Examples SheetExamples MoreExamples.

Lemma upload_rearms_reminders_under_old_lead_witness :
  ∃ rows errors,
    parse_job lower_cyr no_to_datetime (Ok with_header) = Ok (rows, errors)
    ∧ ∃ r w1,
        download_and_parse lower_cyr no_to_datetime (idle reminded_yesterday) "chat1"
          (Downloaded (Ok with_header)) = Ok (r, w1)
        ∧ pending_state w1 !! "chat1" = Some "awaiting_threshold"
        ∧ ∀ today delivers, ∃ f' out,
            send_notifications today delivers (data_file w1) = Ok (f', out)
            ∧ ∀ sent, to_chat sent = "chat1" →
                (sent ∈ out ↔
                 ∃ i v dl, rows !! i = Some v ∧ days_left today v = Ok dl ∧ 0 <= dl <= 7
                   ∧ sent = mksent "chat1" i (reminder v dl) (delivers "chat1" i)).
Proof.
  eexists _, _. split; [vm_compute; reflexivity|].
  eapply (upload_rearms_reminders_under_old_lead lower_cyr no_to_datetime
            (idle reminded_yesterday) "chat1" (Ok with_header) _ _
            reminded_yesterday (mkchat_settings (Some 7)) 7).
  - vm_compute. reflexivity.
  - discriminate.
  - reflexivity.
  - reflexivity.
  - reflexivity.
  - discriminate.
  - discriminate.
Defined.

Lemma menu_change_of_lead_keeps_the_log_witness :
  ∃ w1 w2,
    world_of (on_button_click_async reliable june1 (idle reminded_yesterday) "chat1"
                "cmd_notifications") = w1
    ∧ (reliable "chat1" AskThreshold = None →
       on_button_click_async reliable june1 (idle reminded_yesterday) "chat1"
         "cmd_notifications" = Done [AskThreshold] w1)
    ∧ world_of (on_message_async lower_cyr no_to_datetime PyInt.int PyInt.command
                  file_server downloads reliable w1 (text_message "chat1" "14")) = w2
    ∧ pending_state w2 !! "chat1" = None
    ∧ ∀ today delivers, ∃ f' out,
        send_notifications today delivers (data_file w2) = Ok (f', out)
        ∧ ∀ sent, to_chat sent = "chat1" →
            (sent ∈ out ↔
             ∃ i v dl,
               default [] (as_dict (vacations reminded_yesterday) !! "chat1") !! i = Some v
               ∧ days_left today v = Ok dl ∧ 0 <= dl <= 14
               ∧ logged (default [] (as_dict (notifications reminded_yesterday) !! "chat1")) i
                 = false
               ∧ sent = mksent "chat1" i (reminder v dl) (delivers "chat1" i)).
Proof.
  apply (menu_change_of_lead_keeps_the_log lower_cyr no_to_datetime PyInt.int
           PyInt.command file_server downloads reliable
           (idle reminded_yesterday) "chat1" (text_message "chat1" "14") 14
           reminded_yesterday june1).
  - reflexivity.
  - discriminate.
  - reflexivity.
  - reflexivity.
  - lia.
Defined.

Lemma layout_is_decided_by_first_thirty_rows_witness :
  (∃ l, detect_layout lower_cyr with_header = Ok (Some l))
  ∧ detect_layout lower_cyr (replicate 30 [CNa NaN] ++ with_header)
    = detect_layout lower_cyr (replicate 30 [CNa NaN])
  ∧ parse_vacation_df lower_cyr no_to_datetime (replicate 30 [CNa NaN] ++ with_header)
    = Ok ([], []).
Proof.
  split; [eexists; vm_compute; reflexivity|]. split.
  - apply (layout_is_decided_by_first_thirty_rows lower_cyr
             (replicate 30 [CNa NaN] ++ with_header) (replicate 30 [CNa NaN])).
    reflexivity.
  - vm_compute. reflexivity.
Defined.

End FlowExamples.
